(** * GhostForge: the self-repair governor of [forge.py]

    A shallow embedding of the repair pipeline of [forge.py]
    ([run_repair], [run_tests], [create_snapshot], the policy loader and
    the YAML-ish configuration reader) together with the properties the
    specification states about it.

    Modelling conventions.
    - A Python [str] is a Rocq [string]; a character is an 8-bit code
      point (the Latin-1 range), so the two line separators U+2028 and
      U+2029 are outside the alphabet.
    - The workspace is a directory tree ([node]); paths are lists of
      components relative to [ROOT]; the process runs on a POSIX system.
      The content of a text file is the [str] that [read_text] returns
      for it.
    - The SQLite database is its two tables, [audit_log] and
      [snapshots], as append-only lists of rows; the file that stores
      them is an entry of the tree whose content is left abstract.
    - A Python [float] is a binary64 number of [SpecFloat]; an [int] is
      an integer of [Z].
    - Effects (file writes, inserts, prints) are threaded through a
      state-and-exception monad over [world]; every effect also leaves an
      [event] in the world's trace.
    - The regular-expression engine, the wall clock and the module loader
      that executes a test unit are services of the Python runtime; they
      are the fields of the class [Runtime]. [re.compile] accepts a
      pattern, rejects it with [re.error], or raises another exception
      ([OverflowError] for a repeat count that is too large); the three
      cases are kept apart. The tree records what the functions of
      [forge.py] write; what a loaded unit or its loader writes (the
      byte-code caches under [tests]) is not recorded, and a property
      that depends on it says so.
    - [int] of a [str] follows the interpreter with its default limit of
      4300 digits.
    - The database exists with its two tables, as [ensure_state] leaves
      it, so an insert does not fail; a snapshot label is one file-name
      component.

    The last part of the development covers the functions around the
    pipeline: the readers line by line, [freeze] and [thaw],
    [ensure_state], [scaffold_agent] and [interpret_and_create]. Two
    further conventions apply there.
    - The result of [str.title] can leave the Latin-1 range, so it is a
      list of code points.
    - [scaffold_agent] is modelled for a name that is one path component
      ([plain_name]); the limits of a file system on the length of a name
      are not part of the model. *)

From Stdlib Require Import ZArith NArith Lia List Bool Ascii String.
From Stdlib Require Import SpecFloat.
From stdpp Require Import base option list strings gmap.

Import ListNotations.
Set Warnings "-register-all".
Set Warnings "-automation".
Set Warnings "-notation-overridden".
Set Warnings "-ambiguous-paths".
Local Open Scope string_scope.
Local Open Scope list_scope.

(** ** Python string primitives *)

Module Py.

Definition ord (c : ascii) : N := N_of_ascii c.

(** [str.isspace] on one character, which is also the class [\s] of
    [re] for [str] patterns. *)
Definition isspace (c : ascii) : bool :=
  let n := ord c in
  (((9 <=? n) && (n <=? 13)) || ((28 <=? n) && (n <=? 32))
   || (n =? 133) || (n =? 160))%N.

(** The line boundaries of [str.splitlines]. *)
Definition is_linebreak (c : ascii) : bool :=
  let n := ord c in
  (((10 <=? n) && (n <=? 13)) || ((28 <=? n) && (n <=? 30)) || (n =? 133))%N.

Definition is_digit (c : ascii) : bool :=
  let n := ord c in ((48 <=? n) && (n <=? 57))%N.

Definition digit_val (c : ascii) : Z := Z.of_N (ord c) - 48.

Fixpoint lstrip (s : string) : string :=
  match s with
  | EmptyString => EmptyString
  | String c r => if isspace c then lstrip r else s
  end.

Fixpoint rstrip (s : string) : string :=
  match s with
  | EmptyString => EmptyString
  | String c r =>
      match rstrip r with
      | EmptyString => if isspace c then EmptyString else String c EmptyString
      | r' => String c r'
      end
  end.

(** [s.strip()] *)
Definition strip (s : string) : string := lstrip (rstrip s).

(** Truthiness of a [str]: non-empty. *)
Definition truthy (s : string) : bool :=
  match s with EmptyString => false | _ => true end.

(** [p in s] for two strings: [p] occurs as a contiguous substring. *)
Fixpoint contains (p s : string) : bool :=
  String.prefix p s
  || match s with
     | EmptyString => false
     | String _ r => contains p r
     end.

Definition startswith (p s : string) : bool := String.prefix p s.

(** [s.splitlines()]: a CR immediately followed by LF is one boundary;
    a final boundary does not open an empty last line. *)
Fixpoint splitlines_go (cur : string) (s : string) : list string :=
  match s with
  | EmptyString => match cur with EmptyString => [] | _ => [cur] end
  | String c r =>
      if is_linebreak c then
        match r with
        | String c2 r2 =>
            if ((ord c =? 13) && (ord c2 =? 10))%N
            then cur :: splitlines_go EmptyString r2
            else cur :: splitlines_go EmptyString r
        | EmptyString => cur :: splitlines_go EmptyString r
        end
      else splitlines_go (cur +:+ String c EmptyString) r
  end.

Definition splitlines (s : string) : list string := splitlines_go EmptyString s.

(** [s.split(sep)] for a one-character separator. *)
Fixpoint split (sep : ascii) (s : string) : list string :=
  match s with
  | EmptyString => [EmptyString]
  | String c r =>
      if Ascii.eqb c sep then EmptyString :: split sep r
      else match split sep r with
           | h :: t => String c h :: t
           | [] => [String c EmptyString]
           end
  end.

(** [s.lower()] on the Latin-1 range. *)
Definition lower_char (c : ascii) : ascii :=
  let n := ord c in
  if (((65 <=? n) && (n <=? 90))
      || ((192 <=? n) && (n <=? 222) && negb (n =? 215)))%N
  then ascii_of_N (n + 32) else c.

Fixpoint lower (s : string) : string :=
  match s with
  | EmptyString => EmptyString
  | String c r => String (lower_char c) (lower r)
  end.

Fixpoint last_char (s : string) : option ascii :=
  match s with
  | EmptyString => None
  | String c EmptyString => Some c
  | String _ r => last_char r
  end.

(** [s[:-1]] *)
Fixpoint init (s : string) : string :=
  match s with
  | EmptyString => EmptyString
  | String c EmptyString => EmptyString
  | String c r => String c (init r)
  end.

(** The whitespace that [int] skips around a number: the ASCII
    whitespace and, of the other characters, U+0085 and U+00A0. The
    separators U+001C to U+001F, which [str.strip] removes, are not
    skipped. *)
Definition int_space (c : ascii) : bool :=
  let n := ord c in
  (((9 <=? n) && (n <=? 13)) || (n =? 32) || (n =? 133) || (n =? 160))%N.

Fixpoint int_lstrip (s : string) : string :=
  match s with
  | EmptyString => EmptyString
  | String c r => if int_space c then int_lstrip r else s
  end.

Fixpoint int_rstrip (s : string) : string :=
  match s with
  | EmptyString => EmptyString
  | String c r =>
      match int_rstrip r with
      | EmptyString => if int_space c then EmptyString else String c EmptyString
      | r' => String c r'
      end
  end.

(** The number of decimal digits of a text. *)
Fixpoint count_digits (s : string) : N :=
  match s with
  | EmptyString => 0%N
  | String c r => ((if is_digit c then 1 else 0) + count_digits r)%N
  end.

(** The default of [sys.get_int_max_str_digits()]. *)
Definition int_max_str_digits : N := 4300%N.

(** [int(s)] for a [str] in base 10: surrounding whitespace, one optional
    sign, decimal digits with single underscores between digits, and no
    more digits than the limit of the interpreter. [None] stands for
    [ValueError]. *)
Fixpoint int_digits (acc : Z) (after_underscore : bool) (s : string) : option Z :=
  match s with
  | EmptyString => if after_underscore then None else Some acc
  | String c r =>
      if is_digit c then int_digits (acc * 10 + digit_val c) false r
      else if (Ascii.eqb c "_" && negb after_underscore)%bool
           then int_digits acc true r
           else None
  end.

Definition int_unsigned (s : string) : option Z :=
  match s with
  | String c _ =>
      if (is_digit c && (count_digits s <=? int_max_str_digits)%N)%bool
      then int_digits 0 false s else None
  | EmptyString => None
  end.

Definition int_of_str (s : string) : option Z :=
  match int_lstrip (int_rstrip s) with
  | String "+" r => int_unsigned r
  | String "-" r => option_map Z.opp (int_unsigned r)
  | t => int_unsigned t
  end.

End Py.

(** ** The fixed regular expressions of the configuration readers

    [load_yaml_like] and [_load_repair_policy_patterns] use three fixed
    patterns. Each is embedded as the matcher it denotes under [re]'s
    greedy, backtracking semantics. *)

Module Rx.

Fixpoint has_char (c : ascii) (s : string) : bool :=
  match s with
  | EmptyString => false
  | String d r => Ascii.eqb c d || has_char c r
  end.

(** The final group of the three patterns, anchored by the end-of-string
    assertion, at the start of [u]: one or more characters (zero or more
    when [allow_empty]); the dot excludes the newline and the assertion
    also holds before one final newline. *)
Definition dot_eol (allow_empty : bool) (u : string) : option string :=
  let v := match Py.last_char u with
           | Some c => if Ascii.eqb c "010" then Py.init u else u
           | None => u
           end in
  if has_char "010" v then None
  else if (negb allow_empty && negb (Py.truthy v))%bool then None
  else Some v.

(** A whitespace run followed by the final group: the run is greedy and
    gives characters back only when the group would otherwise fail. *)
Fixpoint ws_group (allow_empty : bool) (t : string) : option string :=
  match t with
  | EmptyString => dot_eol allow_empty EmptyString
  | String c r =>
      if Py.isspace c then
        match ws_group allow_empty r with
        | Some g => Some g
        | None => dot_eol allow_empty t
        end
      else dot_eol allow_empty t
  end.

(** A whitespace run and a colon, followed by [k]. *)
Definition ws_colon {A} (t : string) (k : string -> option A) : option A :=
  match Py.lstrip t with
  | String ":" r => k r
  | _ => None
  end.

Fixpoint skip_dashes (s : string) : string :=
  match s with
  | String "-" r => skip_dashes r
  | _ => s
  end.

(** [re.match] of the step pattern on [s], returning group 1: one or
    more dashes, whitespace, the word run, whitespace, a colon, whitespace
    and a non-empty final group. *)
Definition match_run (s : string) : option string :=
  match s with
  | String "-" r =>
      match Py.lstrip (skip_dashes r) with
      | String "r" (String "u" (String "n" t)) => ws_colon t (ws_group false)
      | _ => None
      end
  | _ => None
  end.

(** The class [[A-Za-z0-9_.-]]. *)
Definition is_key_char (c : ascii) : bool :=
  let n := Py.ord c in
  (((65 <=? n) && (n <=? 90)) || ((97 <=? n) && (n <=? 122))
   || ((48 <=? n) && (n <=? 57)) || (n =? 95) || (n =? 46) || (n =? 45))%N.

Fixpoint span_key (s : string) : string * string :=
  match s with
  | EmptyString => (EmptyString, EmptyString)
  | String c r =>
      if is_key_char c then let '(k, t) := span_key r in (String c k, t)
      else (EmptyString, s)
  end.

(** [re.match] of the key-value pattern on [s], returning groups 1 and
    2: a non-empty run of key characters, whitespace, a colon, whitespace
    and a possibly empty final group. *)
Definition match_kv (s : string) : option (string * string) :=
  match span_key s with
  | (EmptyString, _) => None
  | (k, t) => ws_colon t (fun r => option_map (pair k) (ws_group true r))
  end.

(** [re.search] of the policy pattern on [s], returning group 1 of the
    leftmost match: the word pattern, whitespace, a colon, whitespace and
    a non-empty final group. *)
Fixpoint search_pattern (s : string) : option string :=
  let here :=
    match s with
    | String "p" (String "a" (String "t" (String "t" (String "e"
        (String "r" (String "n" t)))))) => ws_colon t (ws_group false)
    | _ => None
    end in
  match here with
  | Some g => Some g
  | None => match s with
            | EmptyString => None
            | String _ r => search_pattern r
            end
  end.

End Rx.

(** ** Configuration values and the YAML-ish reader *)

Definition quote : ascii := "034".
Definition apostrophe : ascii := "039".

(** [_strip_quotes] *)
Definition _strip_quotes (s0 : string) : string :=
  let s := Py.strip s0 in
  match s with
  | String c (String _ _ as r) =>
      match Py.last_char r with
      | Some l =>
          if ((Ascii.eqb c quote && Ascii.eqb l quote)
              || (Ascii.eqb c apostrophe && Ascii.eqb l apostrophe))%bool
          then Py.init r else s
      | None => s
      end
  | _ => s
  end.

(** A value stored in the dictionary built by [load_yaml_like]: a string,
    [None], or the list of the [run] entries under [steps]. *)
Inductive yvalue :=
| YStr (s : string)
| YNone
| YSteps (runs : list string).

Definition steps_of (data : gmap string yvalue) : list string :=
  match data !! "steps" with
  | Some (YSteps l) => l
  | _ => []
  end.

(** [raw.rstrip] of the newline character. *)
Fixpoint rstrip_newline (s : string) : string :=
  match s with
  | EmptyString => EmptyString
  | String c r =>
      match rstrip_newline r with
      | EmptyString => if Ascii.eqb c "010" then EmptyString else String c EmptyString
      | r' => String c r'
      end
  end.

(** One iteration of the loop of [load_yaml_like]. *)
Definition yaml_line (data : gmap string yvalue) (raw : string) : gmap string yvalue :=
  let line := rstrip_newline raw in
  let s := Py.strip line in
  if (negb (Py.truthy s) || Py.startswith "#" s)%bool then data
  else
    match Rx.match_run s with
    | Some g => <["steps" := YSteps (steps_of data ++ [_strip_quotes g])]> data
    | None =>
        match Rx.match_kv s with
        | Some (k, v0) =>
            let v := _strip_quotes v0 in
            if (String.eqb k "steps" && (String.eqb v EmptyString || String.eqb v "[]"))%bool
            then <["steps" := YSteps []]> data
            else <[k := if String.eqb v EmptyString then YNone else YStr v]> data
        | None => data
        end
    end.

(** The body of [load_yaml_like] on the text of an existing file. *)
Definition parse_yaml_like (text : string) : gmap string yvalue :=
  fold_left yaml_line (Py.splitlines text) ∅.

Definition nl : string := String "010" EmptyString.

(** ** The workspace as a directory tree *)

(** The content of a regular file: text as [read_text] returns it, or a
    zip archive as the list of its members. *)
Inductive fdata :=
| Text (s : string)
| Zip (members : list (string * fdata)).

Inductive node :=
| File (d : fdata)
| Dir (entries : list (string * node)).

(** A path relative to [ROOT], one component per element. *)
Definition path := list string.

Module FS.

Fixpoint entry (name : string) (es : list (string * node)) : option node :=
  match es with
  | [] => None
  | (n, x) :: r => if String.eqb n name then Some x else entry name r
  end.

(** Replaces the entry called [name], or appends it. *)
Fixpoint set_entry (name : string) (x : node) (es : list (string * node))
  : list (string * node) :=
  match es with
  | [] => [(name, x)]
  | (n, y) :: r =>
      if String.eqb n name then (n, x) :: r else (n, y) :: set_entry name x r
  end.

Fixpoint del_entry (name : string) (es : list (string * node))
  : list (string * node) :=
  match es with
  | [] => []
  | (n, y) :: r =>
      if String.eqb n name then del_entry name r else (n, y) :: del_entry name r
  end.

Fixpoint lookup (t : node) (p : path) : option node :=
  match p with
  | [] => Some t
  | c :: q =>
      match t with
      | Dir es => match entry c es with
                  | Some x => lookup x q
                  | None => None
                  end
      | File _ => None
      end
  end.

(** [Path.exists] *)
Definition exists_ (t : node) (p : path) : bool :=
  match lookup t p with Some _ => true | None => false end.

(** The tree after [write_text] at [p]: the parent must be an existing
    directory and [p] must not be a directory. [None] is an [OSError]. *)
Fixpoint write_file (p : path) (d : fdata) (t : node) : option node :=
  match p, t with
  | [], _ => None
  | _, File _ => None
  | c :: q, Dir es =>
      match q with
      | [] => match entry c es with
              | Some (Dir _) => None
              | _ => Some (Dir (set_entry c (File d) es))
              end
      | _ => match entry c es with
             | Some x => match write_file q d x with
                         | Some x' => Some (Dir (set_entry c x' es))
                         | None => None
                         end
             | None => None
             end
      end
  end.

(** [mkdir(parents=True, exist_ok=True)] *)
Fixpoint mkdir_p (p : path) (t : node) : option node :=
  match p, t with
  | _, File _ => None
  | [], Dir _ => Some t
  | c :: q, Dir es =>
      let sub := match entry c es with Some x => x | None => Dir [] end in
      match mkdir_p q sub with
      | Some x' => Some (Dir (set_entry c x' es))
      | None => None
      end
  end.

(** [shutil.rmtree] of an existing directory. *)
Fixpoint rmtree (p : path) (t : node) : option node :=
  match p, t with
  | [], _ => None
  | _, File _ => None
  | c :: q, Dir es =>
      match q with
      | [] => match entry c es with
              | Some (Dir _) => Some (Dir (del_entry c es))
              | _ => None
              end
      | _ => match entry c es with
             | Some x => match rmtree q x with
                         | Some x' => Some (Dir (set_entry c x' es))
                         | None => None
                         end
             | None => None
             end
      end
  end.

(** [Path.unlink] of an existing entry that is not a directory. *)
Fixpoint unlink (p : path) (t : node) : option node :=
  match p, t with
  | [], _ => None
  | _, File _ => None
  | c :: q, Dir es =>
      match q with
      | [] => match entry c es with
              | Some (File _) => Some (Dir (del_entry c es))
              | _ => None
              end
      | _ => match entry c es with
             | Some x => match unlink q x with
                         | Some x' => Some (Dir (set_entry c x' es))
                         | None => None
                         end
             | None => None
             end
      end
  end.

(** Installs the directory [x] at the fresh path [p], creating missing
    parents, as [os.makedirs] followed by the copy does. *)
Fixpoint put (p : path) (x : node) (t : node) : option node :=
  match p, t with
  | [], _ => None
  | _, File _ => None
  | c :: q, Dir es =>
      match q with
      | [] => match entry c es with
              | Some _ => None
              | None => Some (Dir (set_entry c x es))
              end
      | _ =>
          let sub := match entry c es with Some y => y | None => Dir [] end in
          match put q x sub with
          | Some y' => Some (Dir (set_entry c y' es))
          | None => None
          end
      end
  end.

(** The regular files directly inside a directory, in listing order. *)
Fixpoint files_of (es : list (string * node)) : list (string * fdata) :=
  match es with
  | [] => []
  | (n, File d) :: r => (n, d) :: files_of r
  | (_, Dir _) :: r => files_of r
  end.

(** [os.walk], top-down and without pruning: one record per directory,
    holding its path and its regular files. *)
Fixpoint walk (here : path) (t : node) : list (path * list (string * fdata)) :=
  match t with
  | File _ => []
  | Dir es =>
      (here, files_of es)
      :: (fix go (l : list (string * node)) :=
            match l with
            | [] => []
            | (n, x) :: r => walk (here ++ [n]) x ++ go r
            end) es
  end.

(** The two trees agree on every path whose first component is not [n]. *)
Definition outside (n : string) (t t' : node) : Prop :=
  forall c p, c <> n -> lookup t' (c :: p) = lookup t (c :: p).

(** No directory of the tree lists a name twice, as in every directory
    of a file system. *)
Fixpoint unique_names (t : node) : bool :=
  match t with
  | File _ => true
  | Dir es =>
      (fix go (l : list (string * node)) : bool :=
         match l with
         | [] => true
         | (n, x) :: r =>
             negb (existsb (String.eqb n) (map fst r)) && unique_names x && go r
         end) es
  end.

End FS.

(** ** Binary64 arithmetic of the change percentage

    The percentage is [int(min(100, (a / b) * 100))]: a true division of
    two [int]s (correctly rounded to binary64), a binary64 product, a
    comparison with the integer 100 and a truncation. The operations are
    those of [SpecFloat] at precision 53 and maximal exponent 1024.
    A Python sequence has fewer than 2^63 elements, so the quotient of
    two lengths never overflows. *)

Module F64.

Definition prec : Z := 53.
Definition emax : Z := 1024.

(** The binary64 value of a natural number given as an exact mantissa. *)
Definition of_Z (n : Z) : spec_float :=
  match n with
  | Zpos p => S754_finite false p 0
  | Z0 => S754_zero false
  | Zneg p => S754_finite true p 0
  end.

(** [a / b] on two [int]s, [b] positive. *)
Definition truediv (a b : Z) : spec_float := SFdiv prec emax (of_Z a) (of_Z b).

Definition mul (x y : spec_float) : spec_float := SFmul prec emax x y.

(** [x < n] for a float [x] and an [int] [n]: the comparison of the two
    exact values. *)
Definition ltb_Z (x : spec_float) (n : Z) : bool :=
  match x with
  | S754_zero _ => (0 <? n)%Z
  | S754_infinity s => s
  | S754_nan => false
  | S754_finite s m e =>
      let v := if s then Z.neg m else Z.pos m in
      if (0 <=? e)%Z then (v * 2 ^ e <? n)%Z else (v <? n * 2 ^ (- e))%Z
  end.

(** [int(x)]: truncation toward zero of a finite float (infinities and
    NaN, on which [int] raises, do not arise below 100). *)
Definition trunc (x : spec_float) : Z :=
  match x with
  | S754_finite s m e =>
      let a := if (0 <=? e)%Z then (Z.pos m * 2 ^ e)%Z else (Z.pos m / 2 ^ (- e))%Z in
      if s then (- a)%Z else a
  | _ => 0%Z
  end.

(** [int(min(100, x))]: [min] returns its first argument unless the
    second is smaller. *)
Definition int_min_100 (x : spec_float) : Z :=
  if ltb_Z x 100 then trunc x else 100%Z.

End F64.

(** [int(min(100, (added / base) * 100))] *)
Definition pct_of (added base : Z) : Z :=
  F64.int_min_100 (F64.mul (F64.truediv added base) (F64.of_Z 100)).

(** ** Runtime services, records and the world *)

(** The exceptions that can leave a function of the model. *)
Inductive exn :=
| OSError (p : path)
| ValueError (s : string)
| TypeError
| Escaped (what : string)
| ReFault (what : string).

(** What loading and running one test unit does: the module has no
    callable [run]; [run] returned a value of the given truth; an
    [Exception] was raised while loading or running; or a
    [BaseException] outside [Exception] ([SystemExit],
    [KeyboardInterrupt]) was raised. *)
Inductive outcome :=
| NoRun
| Ran (b : bool)
| Faulted (msg : string)
| Aborted (what : string).

Class Runtime := {
  (** the components of the absolute path [ROOT] *)
  ROOT_parts : list string;
  (** [re.compile] accepts the pattern (otherwise it raises [re.error],
      unless [re_fault] says what else it raises) *)
  re_compiles : string -> bool;
  (** [re.compile] raises an exception that is not [re.error], of the
      given class: [OverflowError] for a repeat count that is too large,
      [RecursionError] for a pattern that is nested too deeply *)
  re_fault : string -> option string;
  (** [re.search pat text] finds a match *)
  re_search : string -> string -> bool;
  (** [isoformat] and [strftime] of the n-th reading of the clock *)
  now_iso : nat -> string;
  now_compact : nat -> string;
  (** importing the unit at a path of the given workspace and calling
      its entry point *)
  exec_unit : node -> path -> outcome;
  (** [exists] for a path that leaves the workspace tree *)
  outside_exists : string -> bool
}.

Inductive json :=
| JStr (s : string)
| JInt (z : Z)
| JList (l : list json)
| JObj (fields : list (string * json)).

(** The [detail] column: a literal text or the [json.dumps] of a value. *)
Inductive detail :=
| Plain (s : string)
| Dumps (j : json).

Record audit_row := AuditRow {
  a_ts : string; a_actor : string; a_action : string; a_detail : detail }.

Record manifest := Manifest {
  m_ts : string; m_label : string; m_root : string; m_included : list string }.

Record snapshot_row := SnapshotRow {
  s_ts : string; s_label : string; s_path : string; s_manifest : manifest }.

(** The lines written to standard output. *)
Inductive message :=
| MsgFrozen
| MsgPlan (strategy : string) (budget : Z) (require_green : bool)
| MsgWarnInvalidRegex (pat : string)
| MsgBlock (hits : list string)
| MsgEscalation (ack_name strategy : string) (pct max_no_ack : Z)
| MsgReject (pct budget : Z)
| MsgStaged (shadow : path)
| MsgTestsFail
| MsgTestsOK
| MsgApplied
| MsgSnapshot (zip : path)
| MsgTest (name : string) (ok : bool)
| MsgTestExc (name msg : string)
| MsgForgeFrozen
| MsgForgeThawed.

Inductive event :=
| EvPrint (m : message)
| EvWrite (p : path) (s : string)
| EvMkdir (p : path)
| EvRmtree (p : path)
| EvUnlink (p : path)
| EvCopytree (dst : path)
| EvExec (unit : path)
| EvZip (p : path) (members : list (string * fdata))
| EvAudit (r : audit_row)
| EvSnapshotRow (r : snapshot_row).

Record world := World {
  fs : node;
  audit_log : list audit_row;
  snapshots : list snapshot_row;
  trace : list event;
  clock : nat }.

Definition set_fs (t : node) (w : world) : world :=
  World t (audit_log w) (snapshots w) (trace w) (clock w).

Definition emit_event (e : event) (w : world) : world :=
  World (fs w) (audit_log w) (snapshots w) (trace w ++ [e]) (clock w).

Definition emit_events (l : list event) (w : world) : world :=
  World (fs w) (audit_log w) (snapshots w) (trace w ++ l) (clock w).

Definition ticked (w : world) : world :=
  World (fs w) (audit_log w) (snapshots w) (trace w) (S (clock w)).

(** ** The monad of effects *)

Inductive result (A : Type) :=
| Ok (a : A)
| Raise (e : exn).
Arguments Ok {A} a.
Arguments Raise {A} e.

Definition M (A : Type) : Type := world -> result A * world.

Definition ret {A} (a : A) : M A := fun w => (Ok a, w).

Definition raise {A} (e : exn) : M A := fun w => (Raise e, w).

Definition bind {A B} (m : M A) (k : A -> M B) : M B :=
  fun w => match m w with
           | (Ok a, w') => k a w'
           | (Raise e, w') => (Raise e, w')
           end.

Declare Scope forge_scope.
Delimit Scope forge_scope with forge.
Notation "x <- m ;; k" := (bind m (fun x => k))
  (at level 100, m at next level, right associativity) : forge_scope.
Notation "m ;; k" := (bind m (fun _ => k))
  (at level 100, right associativity) : forge_scope.
Local Open Scope forge_scope.

Definition when (b : bool) (m : M unit) : M unit := if b then m else ret tt.

(** A computation that leaves the world as it found it. *)
Class ReadOnly {A} (m : M A) : Prop :=
  read_only : forall w, snd (m w) = w.

Definition print (m : message) : M unit :=
  fun w => (Ok tt, emit_event (EvPrint m) w).

(** One reading of the clock. *)
Definition tick : M nat :=
  fun w => (Ok (clock w),
            World (fs w) (audit_log w) (snapshots w) (trace w) (S (clock w))).

Definition path_exists (p : path) : M bool :=
  fun w => (Ok (FS.exists_ (fs w) p), w).

Definition read_text (p : path) : M string :=
  fun w => match FS.lookup (fs w) p with
           | Some (File (Text s)) => (Ok s, w)
           | _ => (Raise (OSError p), w)
           end.

Definition write_text (p : path) (s : string) : M unit :=
  fun w => match FS.write_file p (Text s) (fs w) with
           | Some t => (Ok tt, emit_event (EvWrite p s) (set_fs t w))
           | None => (Raise (OSError p), w)
           end.

Definition mkdir (p : path) : M unit :=
  fun w => match FS.mkdir_p p (fs w) with
           | Some t => (Ok tt, emit_event (EvMkdir p) (set_fs t w))
           | None => (Raise (OSError p), w)
           end.

Definition rmtree (p : path) : M unit :=
  fun w => match FS.rmtree p (fs w) with
           | Some t => (Ok tt, emit_event (EvRmtree p) (set_fs t w))
           | None => (Raise (OSError p), w)
           end.

Definition unlink (p : path) : M unit :=
  fun w => match FS.unlink p (fs w) with
           | Some t => (Ok tt, emit_event (EvUnlink p) (set_fs t w))
           | None => (Raise (OSError p), w)
           end.

(** ** Paths and constants *)

Definition STATE : path := ["state"].
Definition FREEZE_FLAG : path := STATE ++ ["FORGE_FREEZE"].
Definition CMD_DIR : path := ["commands"].
Definition POL_DIR : path := ["policies"].
Definition FORGE_TMP : path := [".forge"].
Definition SNAP_DIR : path := ["snapshots"].
Definition TESTS_DIR : path := ["tests"].
Definition target_file : path := ["core"; "registry.py"].
Definition shadow : path := FORGE_TMP ++ ["shadow"].
Definition policy_yaml : path := POL_DIR ++ ["repair.policy.yaml"].

(** [rel.as_posix()] *)
Definition as_posix (p : path) : string := String.concat "/" p.

(** [Path.name]: the last component, empty for the file-system root. *)
Definition path_name (p : list string) : string := List.last p EmptyString.

(** Python values handed to [int] and [_boolish]. *)
Inductive pyval :=
| VBool (b : bool)
| VInt (z : Z)
| VNone
| VStr (s : string)
| VList (l : list string).

Definition of_yvalue (y : yvalue) : pyval :=
  match y with
  | YStr s => VStr s
  | YNone => VNone
  | YSteps l => VList l
  end.

(** [d.get(k, default)] *)
Definition dict_get (d : gmap string yvalue) (k : string) (default : pyval) : pyval :=
  match d !! k with
  | Some y => of_yvalue y
  | None => default
  end.

(** [int(v)] *)
Definition py_int (v : pyval) : M Z :=
  match v with
  | VInt z => ret z
  | VBool b => ret (if b then 1 else 0)%Z
  | VStr s => match Py.int_of_str s with
              | Some z => ret z
              | None => raise (ValueError s)
              end
  | VNone | VList _ => raise TypeError
  end.

Definition boolish_words : list string := ["1"; "true"; "yes"; "y"; "on"].

(** [_boolish]; [str] of an [int] is one of the accepted words only for 1,
    and [str] of a list never is. *)
Definition _boolish (v : pyval) (default : bool) : bool :=
  match v with
  | VBool b => b
  | VNone => default
  | VStr s => existsb (String.eqb (Py.lower (Py.strip s))) boolish_words
  | VInt z => (z =? 1)%Z
  | VList _ => false
  end.

(** [v or default] for a value read from a configuration dictionary. *)
Definition str_or (v : pyval) (default : string) : string :=
  match v with
  | VStr s => if Py.truthy s then s else default
  | _ => default
  end.

(** [json.dumps] of a [str]: the quote and the backslash are escaped, and
    with [ensure_ascii] so is every character outside the range from the
    space to the tilde. *)
Definition hex_digit (n : N) : ascii :=
  if (n <? 10)%N then ascii_of_N (48 + n) else ascii_of_N (87 + n).

Definition json_escape_char (c : ascii) : string :=
  let n := Py.ord c in
  if (n =? 34)%N then "\" +:+ String quote EmptyString
  else if (n =? 92)%N then "\\"
  else if (n =? 10)%N then "\n"
  else if (n =? 13)%N then "\r"
  else if (n =? 9)%N then "\t"
  else if (n =? 8)%N then "\b"
  else if (n =? 12)%N then "\f"
  else if ((n <? 32) || (126 <? n))%N
       then "\u00" +:+ String (hex_digit (n / 16)) (String (hex_digit (n mod 16)) EmptyString)
       else String c EmptyString.

Fixpoint json_escape (s : string) : string :=
  match s with
  | EmptyString => EmptyString
  | String c r => json_escape_char c +:+ json_escape r
  end.

Definition json_string (s : string) : string :=
  String quote (json_escape s) +:+ String quote EmptyString.

(** The text of [plan.json]: [json.dumps] with [indent=2]. *)
Definition plan_json (strategy : string) : string :=
  "{" +:+ nl
  +:+ "  " +:+ json_string "strategy" +:+ ": " +:+ json_string strategy +:+ "," +:+ nl
  +:+ "  " +:+ json_string "scope" +:+ ": " +:+ json_string "core" +:+ "," +:+ nl
  +:+ "  " +:+ json_string "proposed_changes" +:+ ": []" +:+ nl
  +:+ "}".

(** The always-on safety rails appended by [_load_repair_policy_patterns]. *)
Definition builtin_patterns : list string :=
  ["(eval\()"; "(exec\()"; "\b(requests|httpx|socket)\b"].

(** The pattern a line of the policy file contributes, if any. *)
Definition policy_line_pattern (line : string) : option string :=
  option_map _strip_quotes (Rx.search_pattern (Py.strip line)).

(** [added_lines] of [run_repair]: the lines of the proposal that are not
    blank and are not contained in the original text. *)
Definition added_lines (original new : string) : list string :=
  List.filter (fun ln => Py.truthy (Py.strip ln) && negb (Py.contains ln original))%bool
         (Py.splitlines new).

Definition base_lines (original : string) : Z :=
  Z.max 1 (Z.of_nat (List.length (Py.splitlines original))).

(** The change percentage [pct] of [run_repair]. *)
Definition delta_pct (original new : string) : Z :=
  pct_of (Z.of_nat (List.length (added_lines original new))) (base_lines original).

(** [triggers] of [run_repair]. *)
Definition parse_triggers (triggers_raw : string) : list string :=
  List.filter Py.truthy (map Py.strip (Py.split "," triggers_raw)).

(** The directories whose content [_ignore] drops from the staged copy. *)
Definition blocked_dirs : list string :=
  [path_name SNAP_DIR; "__pycache__"; path_name FORGE_TMP].

(** The tree [shutil.copytree] builds from a directory called [base]
    under the [_ignore] callback of [run_repair]. *)
Fixpoint copy_ignoring (base : string) (t : node) : node :=
  match t with
  | File d => File d
  | Dir es =>
      if existsb (String.eqb base) blocked_dirs then Dir []
      else Dir ((fix go (l : list (string * node)) :=
                   match l with
                   | [] => []
                   | (n, x) :: r =>
                       if String.eqb n "__pycache__" then go r
                       else (n, copy_ignoring n x) :: go r
                   end) es)
  end.

(** The glob [test_*.py]. *)
Definition is_test_file (name : string) : bool :=
  match name with
  | String "t" (String "e" (String "s" (String "t" (String "_" r)))) =>
      String.eqb (String.substring (String.length r - 3) 3 r) ".py"
  | _ => false
  end.

Fixpoint insert_sorted (x : string) (l : list string) : list string :=
  match l with
  | [] => [x]
  | y :: r => if String.leb x y then x :: l else y :: insert_sorted x r
  end.

(** [sorted] on the names of one directory. *)
Definition sorted (l : list string) : list string := fold_right insert_sorted [] l.

(** [p.stem] of a name matched by the glob. *)
Definition stem (name : string) : string :=
  String.substring 0 (String.length name - 3) name.

(** The file names [sorted(dir.glob("test_*.py"))] visits. *)
Definition glob_tests (t : node) (dir : path) : list string :=
  match FS.lookup t dir with
  | Some (Dir es) => sorted (List.filter is_test_file (map fst es))
  | _ => []
  end.

(** ** The commands of [forge.py] *)

Section Forge.

Context `{RT : Runtime}.

(** [str(ROOT / p)] *)
Definition abs_str (p : path) : string :=
  "/" +:+ String.concat "/" (ROOT_parts ++ p).

(** [log]: one row appended to [audit_log]. *)
Definition log (actor action : string) (d : detail) : M unit :=
  n <- tick ;;
  let r := AuditRow (now_iso n) actor action d in
  fun w => (Ok tt,
            emit_event (EvAudit r)
              (World (fs w) (audit_log w ++ [r]) (snapshots w) (trace w) (clock w))).

(** The world after [log]. *)
Definition logged (actor action : string) (d : detail) (w : world) : world :=
  let r := AuditRow (now_iso (clock w)) actor action d in
  World (fs w) (audit_log w ++ [r]) (snapshots w) (trace w ++ [EvAudit r]) (S (clock w)).

(** [load_yaml_like] *)
Definition load_yaml_like (p : path) : M (gmap string yvalue) :=
  e <- path_exists p ;;
  if e then (text <- read_text p ;; ret (parse_yaml_like text))
  else ret ∅.

(** [freeze] and [thaw] *)
Definition freeze : M unit :=
  write_text FREEZE_FLAG "1" ;;
  log "forge" "freeze" (Plain "freeze=1") ;;
  print MsgForgeFrozen.

Definition thaw : M unit :=
  e <- path_exists FREEZE_FLAG ;;
  when e (unlink FREEZE_FLAG) ;;
  log "forge" "thaw" (Plain "freeze=0") ;;
  print MsgForgeThawed.

(** The members [create_snapshot] writes for one record of the walk. *)
Definition snapshot_folder (rec : path * list (string * fdata)) : list (string * fdata) :=
  let '(folder, files) := rec in
  if (bool_decide (folder = SNAP_DIR) || bool_decide (folder = FORGE_TMP))%bool
  then []
  else
    flat_map (fun '(file, d) =>
                let rel := folder ++ [file] in
                if existsb (String.eqb "__pycache__") (ROOT_parts ++ rel) then []
                else [(as_posix rel, d)])
             files.

(** The archive members, in the order they are written. *)
Definition snapshot_members (t : node) : list (string * fdata) :=
  flat_map snapshot_folder (FS.walk [] t).

(** Reading the workspace into the archive members. *)
Definition archive_members : M (list (string * fdata)) :=
  fun w => (Ok (snapshot_members (fs w)), w).

(** Closing the archive at [p]. *)
Definition write_zip (p : path) (members : list (string * fdata)) : M unit :=
  fun w => match FS.write_file p (Zip members) (fs w) with
           | Some t => (Ok tt, emit_event (EvZip p members) (set_fs t w))
           | None => (Raise (OSError p), w)
           end.

(** The insert into the [snapshots] table. *)
Definition insert_snapshot (row : snapshot_row) : M unit :=
  fun w => (Ok tt,
            emit_event (EvSnapshotRow row)
              (World (fs w) (audit_log w) (snapshots w ++ [row]) (trace w) (clock w))).

Definition snapshot_detail (label : string) (zip_path : path) : detail :=
  Dumps (JObj [("label", JStr label); ("zip", JStr (abs_str zip_path))]).

(** [create_snapshot]; the label is one file-name component. Every
    member written to the archive is appended to the manifest in the same
    iteration, so the manifest lists the member names. *)
Definition create_snapshot (label : string) : M unit :=
  n <- tick ;;
  let ts := now_compact n in
  let zip_path := SNAP_DIR ++ [ts +:+ "_" +:+ label +:+ ".zip"] in
  mkdir SNAP_DIR ;;
  members <- archive_members ;;
  write_zip zip_path members ;;
  let mf := Manifest ts label (abs_str []) (map fst members) in
  insert_snapshot (SnapshotRow ts label (abs_str zip_path) mf) ;;
  log "forge" "snapshot" (snapshot_detail label zip_path) ;;
  print (MsgSnapshot zip_path).

(** [_load_repair_policy_patterns] *)
Definition _load_repair_policy_patterns : M (list string) :=
  let pol := POL_DIR ++ ["repair.policy.yaml"] in
  e <- path_exists pol ;;
  pats <- (if e then (text <- read_text pol ;;
                      ret (omap policy_line_pattern (Py.splitlines text)))
           else ret []) ;;
  ret (pats ++ builtin_patterns).

(** Loading the unit at [p] and calling its entry point; the access is
    recorded in the trace. The tree of the result is the tree as
    [forge.py] left it: the files that the unit or its loader writes are
    not in it. *)
Definition load_and_run (p : path) : M outcome :=
  fun w => (Ok (exec_unit (fs w) p), emit_event (EvExec p) w).

(** The loop of [run_tests] over the globbed file names. *)
Fixpoint run_units (silent : bool) (units : list string) (ok : bool) : M bool :=
  match units with
  | [] => ret ok
  | file :: rest =>
      let name := stem file in
      o <- load_and_run (TESTS_DIR ++ [file]) ;;
      match o with
      | NoRun =>
          when (negb silent) (print (MsgTest name true)) ;;
          run_units silent rest (ok && true)
      | Ran result =>
          when (negb silent) (print (MsgTest name result)) ;;
          run_units silent rest (ok && result)
      | Faulted msg =>
          when (negb silent) (print (MsgTestExc name msg)) ;;
          run_units silent rest false
      | Aborted what => raise (Escaped what)
      end
  end.

(** [run_tests] *)
Definition run_tests (silent : bool) : M bool :=
  units <- (fun w => (Ok (glob_tests (fs w) TESTS_DIR), w)) ;;
  run_units silent units true.

(** The loop of [run_repair] that keeps the patterns [re.compile]
    accepts and warns about those it rejects with [re.error]; any other
    exception of [re.compile] leaves the loop. *)
Fixpoint validate_patterns (pats : list string) : M (list string) :=
  match pats with
  | [] => ret []
  | pat :: rest =>
      match re_fault pat with
      | Some what => raise (ReFault what)
      | None =>
          (if re_compiles pat then ret tt else print (MsgWarnInvalidRegex pat)) ;;
          valid <- validate_patterns rest ;;
          ret (if re_compiles pat then pat :: valid else valid)
      end
  end.

(** The components of [ROOT / req_path] when the path stays inside the
    workspace tree: empty and dot components vanish. *)
Definition inside_path (req_path : string) : option path :=
  let parts := List.filter (fun c => negb (String.eqb c EmptyString || String.eqb c "."))%bool
                      (Py.split "/" req_path) in
  if (Py.startswith "/" req_path || existsb (String.eqb "..") parts)%bool
  then None else Some parts.

(** [(ROOT / req_path).exists()] *)
Definition ack_exists (req_path : string) : M bool :=
  match inside_path req_path with
  | Some p => path_exists p
  | None => ret (outside_exists req_path)
  end.

(** [(ROOT / req_path).name] *)
Definition ack_name (req_path : string) : string :=
  match inside_path req_path with
  | Some p => path_name (ROOT_parts ++ p)
  | None => path_name (List.filter Py.truthy (Py.split "/" req_path))
  end.

(** [shutil.copytree(ROOT, shadow, ignore=_ignore)] *)
Definition copytree_to (dst : path) : M unit :=
  fun w => match FS.put dst (copy_ignoring (path_name ROOT_parts) (fs w)) (fs w) with
           | Some t => (Ok tt, emit_event (EvCopytree dst) (set_fs t w))
           | None => (Raise (OSError dst), w)
           end.

(** The block of [run_repair] that reads the target file. *)
Definition read_original : M string :=
  target_exists <- path_exists target_file ;;
  if target_exists then read_text target_file else ret EmptyString.

(** The block of [run_repair] that builds the proposal [new]. *)
Definition propose (original : string) : M string :=
  if Py.contains "# auto-repair touch" original then ret original
  else (n <- tick ;;
        ret (original +:+ nl +:+ "# auto-repair touch: " +:+ now_iso n +:+ nl)).

(** The block of [run_repair] that stages the proposal to the shadow
    copy. *)
Definition stage_shadow (new : string) : M unit :=
  shadow_exists <- path_exists shadow ;;
  when shadow_exists (rmtree shadow) ;;
  copytree_to shadow ;;
  write_text (shadow ++ target_file) new ;;
  print (MsgStaged shadow).

(** What the blocks before the policy checks establish: the guards of
    [core.repair.yaml], the text of the target and the proposal. *)
Record attempt := Attempt {
  change_budget_pct : Z;
  require_green : bool;
  original : string;
  new : string }.

(** The blocks of [run_repair] from the guards to the proposal. *)
Definition prepare (strategy : string) : M attempt :=
  spec <- load_yaml_like (CMD_DIR ++ ["core.repair.yaml"]) ;;
  change_budget_pct <- py_int (dict_get spec "guards.change_budget_pct" (VInt 5)) ;;
  let require_green :=
    _boolish (dict_get spec "guards.require_green_tests" (VBool true)) true in
  print (MsgPlan strategy change_budget_pct require_green) ;;
  mkdir FORGE_TMP ;;
  write_text (FORGE_TMP ++ ["plan.json"]) (plan_json strategy) ;;
  original <- read_original ;;
  new <- propose original ;;
  ret (Attempt change_budget_pct require_green original new).

(** The content scan of [run_repair]: the [hits]. *)
Definition scan (new : string) : M (list string) :=
  blocked_patterns <- _load_repair_policy_patterns ;;
  valid_pats <- validate_patterns blocked_patterns ;;
  ret (List.filter (fun pat => re_search pat new) valid_pats).

(** The escalation rules of [repair.policy.yaml]. *)
Record escalation := Escalation {
  req_path : string;
  triggers : list string;
  max_no_ack : Z }.

(** The block of [run_repair] that reads the escalation rules. *)
Definition load_escalation (change_budget_pct : Z) : M escalation :=
  pol <- load_yaml_like (POL_DIR ++ ["repair.policy.yaml"]) ;;
  let req_path := str_or (dict_get pol "escalation.require" VNone) "human-ack.txt" in
  let triggers_raw := str_or (dict_get pol "escalation.trigger_strategies" VNone) EmptyString in
  let triggers := parse_triggers triggers_raw in
  max_no_ack <- py_int (dict_get pol "escalation.max_budget_pct_without_ack"
                                 (VInt change_budget_pct)) ;;
  ret (Escalation req_path triggers max_no_ack).

(** [need_ack] of [run_repair]. *)
Definition need_ack (strategy : string) (pct : Z) (esc : escalation) : bool :=
  (existsb (String.eqb strategy) (triggers esc) || (pct >? max_no_ack esc)%Z)%bool.

Definition block_detail (hits : list string) : detail :=
  Dumps (JObj [("patterns", JList (map JStr hits))]).

Definition escalation_detail (strategy : string) (pct : Z) (esc : escalation) : detail :=
  Dumps (JObj [("strategy", JStr strategy); ("pct", JInt pct);
               ("max_no_ack", JInt (max_no_ack esc)); ("require", JStr (req_path esc))]).

Definition reject_detail (pct budget : Z) : detail :=
  Dumps (JObj [("pct", JInt pct); ("budget", JInt budget)]).

Definition apply_detail (added : list string) : detail :=
  Dumps (JObj [("file", JStr (abs_str target_file));
               ("added_lines", JInt (Z.of_nat (List.length added)))]).

(** [run_repair] *)
Definition run_repair (strategy : string) : M Z :=
  frozen <- path_exists FREEZE_FLAG ;;
  if frozen then (print MsgFrozen ;; ret 1%Z)
  else
  a <- prepare strategy ;;
  hits <- scan (new a) ;;
  match hits with
  | _ :: _ =>
      print (MsgBlock hits) ;;
      log "warden" "block" (block_detail hits) ;;
      ret 2%Z
  | [] =>
  let added := added_lines (original a) (new a) in
  let pct := delta_pct (original a) (new a) in
  esc <- load_escalation (change_budget_pct a) ;;
  if need_ack strategy pct esc then
    (ack <- ack_exists (req_path esc) ;;
     when (negb ack)
          (print (MsgEscalation (ack_name (req_path esc)) strategy pct (max_no_ack esc)) ;;
           log "warden" "escalation_required" (escalation_detail strategy pct esc)) ;;
     ret 5%Z)
  else
  if ((pct >? change_budget_pct a)%Z && negb (need_ack strategy pct esc))%bool then
    (print (MsgReject pct (change_budget_pct a)) ;;
     log "warden" "reject_change_budget" (reject_detail pct (change_budget_pct a)) ;;
     ret 3%Z)
  else
  stage_shadow (new a) ;;
  ok <- run_tests true ;;
  if (require_green a && negb ok)%bool then
    (print MsgTestsFail ;;
     log "tester" "fail" (Plain "golden") ;;
     ret 4%Z)
  else
  print MsgTestsOK ;;
  create_snapshot "auto-repair" ;;
  write_text target_file (new a) ;;
  log "rewriter" "apply" (apply_detail added) ;;
  print MsgApplied ;;
  ret 0%Z
  end.

(** [repair] invoked [n] times in a row; the statuses in order. *)
Fixpoint repeat_repair (n : nat) (strategy : string) : M (list Z) :=
  match n with
  | O => ret []
  | S k =>
      r <- run_repair strategy ;;
      rs <- repeat_repair k strategy ;;
      ret (r :: rs)
  end.

End Forge.

(** ** The outcomes of a repair attempt

    Pure descriptions of what the loops compute, and the terminal states
    of [run_repair] as a relation between the initial world and the
    returned status (or raised exception) with the final world. *)

Section Outcomes.

Context `{RT : Runtime}.

Definition frozen (w : world) : bool := FS.exists_ (fs w) FREEZE_FLAG.

(** The warnings [validate_patterns] prints. *)
Definition warnings (pats : list string) : list event :=
  map (fun pat => EvPrint (MsgWarnInvalidRegex pat))
      (List.filter (fun pat => negb (re_compiles pat)) pats).

(** The patterns in front of the first one on which [re.compile] raises
    an exception that is not [re.error], and the class of that
    exception. *)
Fixpoint first_fault (pats : list string) : option (list string * string) :=
  match pats with
  | [] => None
  | pat :: rest =>
      match re_fault pat with
      | Some what => Some ([], what)
      | None => match first_fault rest with
                | Some (pre, what) => Some (pat :: pre, what)
                | None => None
                end
      end
  end.

(** The [hits] of the content scan over the loaded patterns. *)
Definition hits_of (new : string) (pats : list string) : list string :=
  List.filter (fun pat => re_search pat new) (List.filter re_compiles pats).

(** The verdict one unit contributes to [ok]; an abort contributes none. *)
Definition unit_verdict (o : outcome) : bool :=
  match o with
  | NoRun => true
  | Ran b => b
  | Faulted _ => false
  | Aborted _ => false
  end.

Definition aborts (o : outcome) : bool :=
  match o with Aborted _ => true | _ => false end.

(** The outcomes of the units [run_tests] discovers in a workspace. *)
Definition unit_outcomes (t : node) : list outcome :=
  map (fun file => exec_unit t (TESTS_DIR ++ [file])) (glob_tests t TESTS_DIR).

(** What the loop of [run_tests] returns and what it leaves in the trace. *)
Fixpoint units_result (t : node) (units : list string) (ok : bool) : result bool :=
  match units with
  | [] => Ok ok
  | file :: rest =>
      match exec_unit t (TESTS_DIR ++ [file]) with
      | NoRun => units_result t rest (ok && true)
      | Ran b => units_result t rest (ok && b)
      | Faulted _ => units_result t rest false
      | Aborted what => Raise (Escaped what)
      end
  end.

Fixpoint units_events (silent : bool) (t : node) (units : list string) : list event :=
  match units with
  | [] => []
  | file :: rest =>
      EvExec (TESTS_DIR ++ [file])
      :: match exec_unit t (TESTS_DIR ++ [file]) with
         | NoRun =>
             (if silent then [] else [EvPrint (MsgTest (stem file) true)])
             ++ units_events silent t rest
         | Ran b =>
             (if silent then [] else [EvPrint (MsgTest (stem file) b)])
             ++ units_events silent t rest
         | Faulted msg =>
             (if silent then [] else [EvPrint (MsgTestExc (stem file) msg)])
             ++ units_events silent t rest
         | Aborted _ => []
         end
  end.

(** The archive path, the index row and the world of a snapshot taken
    in [w], where [t1] is the tree once the snapshot directory exists and
    [t2] the tree with the archive in place. *)
Definition snapshot_zip (label : string) (w : world) : path :=
  SNAP_DIR ++ [now_compact (clock w) +:+ "_" +:+ label +:+ ".zip"].

Definition snapshot_row_of (label : string) (t1 : node) (w : world) : snapshot_row :=
  SnapshotRow (now_compact (clock w)) label (abs_str (snapshot_zip label w))
    (Manifest (now_compact (clock w)) label (abs_str [])
              (map fst (snapshot_members t1))).

Definition snapshot_audit (label : string) (w : world) : audit_row :=
  AuditRow (now_iso (S (clock w))) "forge" "snapshot"
           (snapshot_detail label (snapshot_zip label w)).

Definition snapshot_events (label : string) (t1 : node) (w : world) : list event :=
  [ EvMkdir SNAP_DIR;
    EvZip (snapshot_zip label w) (snapshot_members t1);
    EvSnapshotRow (snapshot_row_of label t1 w);
    EvAudit (snapshot_audit label w);
    EvPrint (MsgSnapshot (snapshot_zip label w)) ].

Definition snapshotted (label : string) (t1 t2 : node) (w : world) : world :=
  World t2 (audit_log w ++ [snapshot_audit label w])
        (snapshots w ++ [snapshot_row_of label t1 w])
        (trace w ++ snapshot_events label t1 w)
        (S (S (clock w))).

(** [(ROOT / req_path).exists()] as a function of the tree. *)
Definition ack_present (t : node) (req_path : string) : bool :=
  match inside_path req_path with
  | Some p => FS.exists_ t p
  | None => outside_exists req_path
  end.

(** The attempt passed the freeze check, was prepared as [a] and its
    content scan found no hit, leaving the world [w2]. *)
Definition passes_scan (strategy : string) (w : world) (a : attempt) (w2 : world) : Prop :=
  frozen w = false
  /\ exists w1, prepare strategy w = (Ok a, w1) /\ scan (new a) w1 = (Ok [], w2).

(** The attempt passed the policy checks under the escalation rules
    [esc]: no acknowledgment is needed and the change is within budget. *)
Definition passes_policy (strategy : string) (w : world) (a : attempt) (w2 : world)
    (esc : escalation) : Prop :=
  passes_scan strategy w a w2
  /\ fst (load_escalation (change_budget_pct a) w2) = Ok esc
  /\ need_ack strategy (delta_pct (original a) (new a)) esc = false
  /\ (delta_pct (original a) (new a) >? change_budget_pct a)%Z = false.

(** The terminal states of a repair attempt. *)
Inductive repair_run (strategy : string) (w : world) : result Z * world -> Prop :=
| RunFrozen :
    frozen w = true ->
    repair_run strategy w (Ok 1%Z, emit_event (EvPrint MsgFrozen) w)
| RunPrepareFails e w1 :
    frozen w = false ->
    prepare strategy w = (Raise e, w1) ->
    repair_run strategy w (Raise e, w1)
| RunScanFails a w1 e w2 :
    frozen w = false ->
    prepare strategy w = (Ok a, w1) ->
    scan (new a) w1 = (Raise e, w2) ->
    repair_run strategy w (Raise e, w2)
| RunBlocked a w1 hits w2 :
    frozen w = false ->
    prepare strategy w = (Ok a, w1) ->
    scan (new a) w1 = (Ok hits, w2) ->
    hits <> [] ->
    repair_run strategy w
      (Ok 2%Z, logged "warden" "block" (block_detail hits)
                 (emit_event (EvPrint (MsgBlock hits)) w2))
| RunEscalationFails a w2 e :
    passes_scan strategy w a w2 ->
    fst (load_escalation (change_budget_pct a) w2) = Raise e ->
    repair_run strategy w (Raise e, w2)
| RunEscalation a w2 esc :
    passes_scan strategy w a w2 ->
    fst (load_escalation (change_budget_pct a) w2) = Ok esc ->
    need_ack strategy (delta_pct (original a) (new a)) esc = true ->
    repair_run strategy w
      (Ok 5%Z,
       if ack_present (fs w2) (req_path esc) then w2
       else logged "warden" "escalation_required"
              (escalation_detail strategy (delta_pct (original a) (new a)) esc)
              (emit_event (EvPrint (MsgEscalation (ack_name (req_path esc)) strategy
                                      (delta_pct (original a) (new a)) (max_no_ack esc)))
                          w2))
| RunRejected a w2 esc :
    passes_scan strategy w a w2 ->
    fst (load_escalation (change_budget_pct a) w2) = Ok esc ->
    need_ack strategy (delta_pct (original a) (new a)) esc = false ->
    (delta_pct (original a) (new a) >? change_budget_pct a)%Z = true ->
    repair_run strategy w
      (Ok 3%Z,
       logged "warden" "reject_change_budget"
         (reject_detail (delta_pct (original a) (new a)) (change_budget_pct a))
         (emit_event (EvPrint (MsgReject (delta_pct (original a) (new a))
                                         (change_budget_pct a))) w2))
| RunStageFails a w2 esc e w3 :
    passes_policy strategy w a w2 esc ->
    stage_shadow (new a) w2 = (Raise e, w3) ->
    repair_run strategy w (Raise e, w3)
| RunTestsAbort a w2 esc w3 e w4 :
    passes_policy strategy w a w2 esc ->
    stage_shadow (new a) w2 = (Ok tt, w3) ->
    run_tests true w3 = (Raise e, w4) ->
    repair_run strategy w (Raise e, w4)
| RunTestsFailed a w2 esc w3 ok w4 :
    passes_policy strategy w a w2 esc ->
    stage_shadow (new a) w2 = (Ok tt, w3) ->
    run_tests true w3 = (Ok ok, w4) ->
    (require_green a && negb ok)%bool = true ->
    repair_run strategy w
      (Ok 4%Z, logged "tester" "fail" (Plain "golden") (emit_event (EvPrint MsgTestsFail) w4))
| RunSnapshotFails a w2 esc w3 ok w4 e w5 :
    passes_policy strategy w a w2 esc ->
    stage_shadow (new a) w2 = (Ok tt, w3) ->
    run_tests true w3 = (Ok ok, w4) ->
    (require_green a && negb ok)%bool = false ->
    create_snapshot "auto-repair" (emit_event (EvPrint MsgTestsOK) w4) = (Raise e, w5) ->
    repair_run strategy w (Raise e, w5)
| RunCommitFails a w2 esc w3 ok w4 w5 :
    passes_policy strategy w a w2 esc ->
    stage_shadow (new a) w2 = (Ok tt, w3) ->
    run_tests true w3 = (Ok ok, w4) ->
    (require_green a && negb ok)%bool = false ->
    create_snapshot "auto-repair" (emit_event (EvPrint MsgTestsOK) w4) = (Ok tt, w5) ->
    FS.write_file target_file (Text (new a)) (fs w5) = None ->
    repair_run strategy w (Raise (OSError target_file), w5)
| RunCommitted a w2 esc w3 ok w4 w5 t :
    passes_policy strategy w a w2 esc ->
    stage_shadow (new a) w2 = (Ok tt, w3) ->
    run_tests true w3 = (Ok ok, w4) ->
    (require_green a && negb ok)%bool = false ->
    create_snapshot "auto-repair" (emit_event (EvPrint MsgTestsOK) w4) = (Ok tt, w5) ->
    FS.write_file target_file (Text (new a)) (fs w5) = Some t ->
    repair_run strategy w
      (Ok 0%Z,
       emit_event (EvPrint MsgApplied)
         (logged "rewriter" "apply" (apply_detail (added_lines (original a) (new a)))
            (emit_event (EvWrite target_file (new a)) (set_fs t w5)))).

End Outcomes.

(** ** Auxiliary notions of the statements *)

(** A string made of whitespace only (the empty string included). *)
Fixpoint blank (s : string) : bool :=
  match s with
  | EmptyString => true
  | String c r => Py.isspace c && blank r
  end.

(** [p] occurs in [s] as a contiguous substring. *)
Definition substring_of (p s : string) : Prop :=
  exists a b, s = a +:+ p +:+ b.

(** The count of the budget check in the words of the specification:
    the lines of the proposal that are absent verbatim from the original
    content. *)
Definition absent_lines (original new : string) : list string :=
  List.filter (fun ln => negb (Py.contains ln original)) (Py.splitlines new).

(** No character of [s] is a line boundary of [splitlines]. *)
Fixpoint no_linebreak (s : string) : bool :=
  match s with
  | EmptyString => true
  | String c r => negb (Py.is_linebreak c) && no_linebreak r
  end.

(** The units loaded according to a list of events, in order. *)
Fixpoint executed (evs : list event) : list path :=
  match evs with
  | [] => []
  | EvExec p :: r => p :: executed r
  | _ :: r => executed r
  end.

(** The events a run added to the trace. *)
Definition new_events (w w' : world) : list event :=
  skipn (List.length (trace w)) (trace w').

(** The percentage of no added line is 0 and the percentage of one
    added line is the integer part of 100 / b, for every base from 1 to
    [n]. *)
Definition pct_exact_upto (n : nat) : bool :=
  forallb (fun k => let b := Z.of_nat (S k) in
                    ((pct_of 0 b =? 0)%Z && (pct_of 1 b =? Z.min 100 (100 / b))%Z)%bool)
          (seq 0 n).

(** An event of the planning and staging blocks: a print, or a change
    of the tree below [.forge]. *)
Definition staging_event (e : event) : bool :=
  match e with
  | EvPrint _ => true
  | EvMkdir (c :: _) | EvRmtree (c :: _) | EvCopytree (c :: _) | EvWrite (c :: _) _ =>
      String.eqb c ".forge"
  | _ => false
  end.

(** An event that is neither a write to the live target nor the archive
    or the index row of a snapshot. *)
Definition quiet_event (e : event) : bool :=
  match e with
  | EvWrite p _ => negb (bool_decide (p = target_file))
  | EvZip _ _ | EvSnapshotRow _ => false
  | _ => true
  end.

(** ** A concrete runtime and workspace for the examples *)

Module Demo.

Definition is_word_char (c : ascii) : bool :=
  let n := Py.ord c in
  (((65 <=? n) && (n <=? 90)) || ((97 <=? n) && (n <=? 122))
   || ((48 <=? n) && (n <=? 57)) || (n =? 95))%N.

(** An occurrence of [w] in [s] between two word boundaries; [prev] is
    the character before [s]. *)
Fixpoint word_at (w : string) (prev : option ascii) (s : string) : bool :=
  let left_ok := match prev with Some c => negb (is_word_char c) | None => true end in
  let right_ok :=
    match String.get (String.length w) s with
    | Some c => negb (is_word_char c)
    | None => true
    end in
  (left_ok && String.prefix w s && right_ok)
  || match s with
     | EmptyString => false
     | String c r => word_at w (Some c) r
     end.

(** A search that implements the three built-in patterns and reads every
    other pattern as a literal. *)
Definition search (pat text : string) : bool :=
  if String.eqb pat "(eval\()" then Py.contains "eval(" text
  else if String.eqb pat "(exec\()" then Py.contains "exec(" text
  else if String.eqb pat "\b(requests|httpx|socket)\b"
       then (word_at "requests" None text || word_at "httpx" None text
             || word_at "socket" None text)
  else Py.contains pat text.

(** Unbalanced brackets do not compile. *)
Definition compiles (pat : string) : bool :=
  negb (String.eqb pat "(" || String.eqb pat "[" || String.eqb pat "*").

(** A repeat count of 2^32 overflows. *)
Definition fault (pat : string) : option string :=
  if String.eqb pat "a{4294967296}" then Some "OverflowError" else None.

(** A test unit is described by its text: a fixed verdict, a fault, an
    exit, or a check of the registry file that sits two levels above the
    unit, as [parents[1]] of the unit's own location. *)
Definition exec (t : node) (p : path) : outcome :=
  match FS.lookup t p with
  | Some (File (Text "pass")) => Ran true
  | Some (File (Text "fail")) => Ran false
  | Some (File (Text "noentry")) => NoRun
  | Some (File (Text "raise")) => Faulted "boom"
  | Some (File (Text "exit")) => Aborted "SystemExit"
  | Some (File (Text "touched")) =>
      match FS.lookup t (removelast (removelast p) ++ target_file) with
      | Some (File (Text s)) => Ran (Py.contains "# auto-repair touch" s)
      | _ => Ran false
      end
  | _ => Faulted "cannot load"
  end.

#[export] Instance runtime : Runtime := {|
  ROOT_parts := ["srv"; "ghostforge"];
  re_compiles := compiles;
  re_fault := fault;
  re_search := search;
  now_iso := fun n => "2025-01-01T00:00:0" +:+ String (ascii_of_nat (48 + n mod 10)) "+00:00";
  now_compact := fun n => "20250101T00000" +:+ String (ascii_of_nat (48 + n mod 10)) "Z";
  exec_unit := exec;
  outside_exists := fun _ => false
|}.

Fixpoint repeat_line (n : nat) (line : string) : string :=
  match n with
  | O => EmptyString
  | S k => line +:+ nl +:+ repeat_line k line
  end.

(** A registry file of twenty lines. *)
Definition registry20 : string := repeat_line 20 "x = 1".

Definition workspace (registry : string) (policy : string)
    (tests extra : list (string * node)) : node :=
  Dir ([ ("state", Dir [("index.sqlite", File (Text "db"))]);
         ("commands", Dir [("core.repair.yaml",
             File (Text ("name: core.repair" +:+ nl +:+ "guards.change_budget_pct: 5" +:+ nl
                         +:+ "guards.require_green_tests: true" +:+ nl)))]);
         ("policies", Dir [("repair.policy.yaml", File (Text policy))]);
         (".forge", Dir []);
         ("snapshots", Dir []);
         ("tests", Dir tests);
         ("core", Dir [("registry.py", File (Text registry))]) ] ++ extra).

Definition demo_tree : node :=
  Dir [ ("core", Dir [("registry.py", File (Text "x = 1"))]);
        (".forge", Dir [("plan.json", File (Text "{}"));
                        ("shadow", Dir [("core", Dir [("registry.py", File (Text "x = 2"))])])]);
        ("snapshots", Dir [("old.zip", File (Zip []))]) ].

Definition start (t : node) : world := World t [] [] [] 0.

(** A workspace with a twenty-line registry, an empty policy file and
    one passing test unit. *)
Definition clean : world :=
  start (workspace registry20 EmptyString [("test_smoke.py", File (Text "pass"))] []).

(** A policy that names two trigger strategies, one pattern and one
    pattern that does not compile. *)
Definition escalation_policy : string :=
  "escalation.require: human-ack.txt" +:+ nl
  +:+ "escalation.trigger_strategies: refactor, regen" +:+ nl
  +:+ "rules:" +:+ nl
  +:+ "  - pattern: 'import os'" +:+ nl
  +:+ "  - pattern: (" +:+ nl.

(** The same workspace under that policy, with and without the
    acknowledgment artifact at the workspace root. *)
Definition acknowledged : world :=
  start (workspace registry20 escalation_policy [("test_smoke.py", File (Text "pass"))]
                   [("human-ack.txt", File (Text "ok"))]).

Definition unacknowledged : world :=
  start (workspace registry20 escalation_policy [("test_smoke.py", File (Text "pass"))] []).

(** A frozen workspace. *)
Definition frozen_world : world :=
  start (Dir [ ("state", Dir [("FORGE_FREEZE", File (Text "1"))]);
               ("core", Dir [("registry.py", File (Text registry20))]) ]).

(** A workspace whose only test unit passes when the registry next to
    it carries the repair mark. *)
Definition mark_checked : world :=
  start (workspace registry20 EmptyString [("test_mark.py", File (Text "touched"))] []).

(** A workspace whose first test unit exits the interpreter. *)
Definition exiting : world :=
  start (workspace registry20 EmptyString
           [("test_a.py", File (Text "exit")); ("test_b.py", File (Text "pass"))] []).

(** A workspace with a faulting and a passing unit. *)
Definition faulting : world :=
  start (workspace registry20 EmptyString
           [("test_a.py", File (Text "raise")); ("test_b.py", File (Text "pass"))] []).

(** A workspace whose registry calls [eval]. *)
Definition unsafe : world :=
  start (workspace ("y = eval(x)" +:+ nl) escalation_policy
                   [("test_smoke.py", File (Text "pass"))] []).

(** A workspace of two lines: one added line is half of it. *)
Definition small : world :=
  start (workspace ("a = 1" +:+ nl +:+ "b = 2" +:+ nl)
           ("escalation.max_budget_pct_without_ack: 80" +:+ nl)
           [("test_smoke.py", File (Text "pass"))] []).

Definition status_of (r : result Z * world) : option Z :=
  match fst r with Ok z => Some z | Raise _ => None end.

End Demo.

(** ** Further notions of the statements *)

(** A non-empty string that neither starts nor ends with whitespace. *)
Definition trimmed (s : string) : bool :=
  match s, Py.last_char s with
  | String c _, Some l => negb (Py.isspace c) && negb (Py.isspace l)
  | _, _ => false
  end.

(** A key of the configuration reader: a non-empty run of key characters
    that does not start with a dash. *)
Definition key_text (k : string) : bool :=
  match k with
  | EmptyString => false
  | String c _ => negb (Ascii.eqb c "-") && forallb Rx.is_key_char (list_ascii_of_string k)
  end.

(** A value on one line: empty, or trimmed and without a newline. *)
Definition line_value (v : string) : bool :=
  match v with
  | EmptyString => true
  | _ => trimmed v && negb (Rx.has_char "010" v)
  end.

(** A run of dashes (the empty run included). *)
Fixpoint dashes (s : string) : bool :=
  match s with
  | EmptyString => true
  | String c r => Ascii.eqb c "-" && dashes r
  end.

(** A line the reader skips: blank, or a comment. *)
Definition skipped_line (raw : string) : bool :=
  (blank raw || Py.startswith "#" (Py.strip raw))%bool.

(** No key other than [steps] holds a list. *)
Definition lists_only_under_steps (data : gmap string yvalue) : Prop :=
  forall k l, data !! k = Some (YSteps l) -> k = "steps".

(** [raw] is a key-value line for [k] and [v]: after stripping, the key,
    whitespace, a colon, whitespace and the value. *)
Definition kv_line (raw k v : string) : Prop :=
  exists ws1 ws2,
    Py.strip raw = k +:+ ws1 +:+ ":" +:+ ws2 +:+ v
    /\ key_text k = true /\ blank ws1 = true /\ blank ws2 = true
    /\ line_value v = true.

(** [raw] is a step line for [v]: dashes, the word [run], a colon and
    the non-empty value, with optional whitespace between them. *)
Definition step_line (raw v : string) : Prop :=
  exists d ws0 ws1 ws2,
    Py.strip raw = "-" +:+ d +:+ ws0 +:+ "run" +:+ ws1 +:+ ":" +:+ ws2 +:+ v
    /\ dashes d = true /\ blank ws0 = true /\ blank ws1 = true /\ blank ws2 = true
    /\ line_value v = true /\ v <> EmptyString.

(** The two trees agree everywhere except below [.forge], below
    [snapshots] and at [core/registry.py]. *)
Definition same_but_repair_area (t t' : node) : Prop :=
  (forall c p, c <> ".forge" -> c <> "snapshots" -> c <> "core" ->
     FS.lookup t' (c :: p) = FS.lookup t (c :: p))
  /\ (forall f p, f <> "registry.py" ->
        FS.lookup t' ("core" :: f :: p) = FS.lookup t ("core" :: f :: p)).

(** An event of the repair area: a message, a row of the database, a
    change of the tree below [.forge] or below [snapshots], a write to
    the live target or below [.forge], or the loading of a unit of
    [tests]. *)
Definition repair_area_event (e : event) : bool :=
  match e with
  | EvPrint _ | EvAudit _ | EvSnapshotRow _ => true
  | EvWrite p _ =>
      bool_decide (p = target_file)
      || match p with c :: _ => String.eqb c ".forge" | [] => false end
  | EvMkdir (c :: _) | EvRmtree (c :: _) | EvCopytree (c :: _) | EvZip (c :: _) _ =>
      String.eqb c ".forge" || String.eqb c "snapshots"
  | EvExec (c :: _) => String.eqb c "tests"
  | _ => false
  end.

(** ** The bootstrap of the state *)

Definition DB : path := STATE ++ ["index.sqlite"].
Definition AGENTS_DIR : path := ["agents"].

(** The folders [ensure_state] creates, in order. *)
Definition state_dirs : list path :=
  [STATE ++ ["blobs"]; CMD_DIR; POL_DIR; FORGE_TMP; SNAP_DIR; TESTS_DIR; AGENTS_DIR].

(** [ensure_state] in a workspace whose database file exists: the block
    that creates the folders. The statements that follow it open the
    database and create each of the two tables if it is missing; by the
    convention on the database they leave the tree and the two lists as
    they are. *)
Definition ensure_state : M unit :=
  mkdir (STATE ++ ["blobs"]) ;;
  mkdir CMD_DIR ;;
  mkdir POL_DIR ;;
  mkdir FORGE_TMP ;;
  mkdir SNAP_DIR ;;
  mkdir TESTS_DIR ;;
  mkdir AGENTS_DIR.

(** The tree after creating the directories [ps] one after the other. *)
Fixpoint make_dirs (ps : list path) (t : node) : option node :=
  match ps with
  | [] => Some t
  | p :: r => match FS.mkdir_p p t with
              | Some t' => make_dirs r t'
              | None => None
              end
  end.

(** ** Agent scaffolding: the name and the kind read from a prompt *)

Module PyStr.

(** The characters of the Latin-1 range that [str.title] treats as
    cased: the letters, the two ordinal indicators and the micro sign. *)
Definition is_cased (c : ascii) : bool :=
  let n := Py.ord c in
  (((65 <=? n) && (n <=? 90)) || ((97 <=? n) && (n <=? 122))
   || (n =? 170) || (n =? 181) || (n =? 186)
   || ((192 <=? n) && (n <=? 214)) || ((216 <=? n) && (n <=? 246))
   || (248 <=? n))%N.

(** The title-case form of one character, as code points: the forms of
    U+00B5 and U+00FF lie outside the Latin-1 range and the form of
    U+00DF is the two letters [Ss]. *)
Definition title_char (c : ascii) : list N :=
  let n := Py.ord c in
  if (((97 <=? n) && (n <=? 122))
      || ((224 <=? n) && (n <=? 254) && negb (n =? 247)))%N then [(n - 32)%N]
  else if (n =? 181)%N then [924%N]
  else if (n =? 223)%N then [83%N; 115%N]
  else if (n =? 255)%N then [376%N]
  else [n].

(** [s.title()]: a character that follows a cased character is put in
    lower case, any other character in title case. *)
Fixpoint title_go (previous_is_cased : bool) (s : string) : list N :=
  match s with
  | EmptyString => []
  | String c r =>
      (if previous_is_cased then [Py.ord (Py.lower_char c)] else title_char c)
      ++ title_go (is_cased c) r
  end.

Definition title (s : string) : list N := title_go false s.

(** The class [[A-Za-z0-9]] on a code point. *)
Definition is_alnum (n : N) : bool :=
  (((48 <=? n) && (n <=? 57)) || ((65 <=? n) && (n <=? 90))
   || ((97 <=? n) && (n <=? 122)))%N.

(** [re.findall] of [[A-Za-z0-9]+]: the maximal runs of the class, from
    left to right. *)
Fixpoint findall_alnum_go (cur : string) (l : list N) : list string :=
  match l with
  | [] => match cur with EmptyString => [] | _ => [cur] end
  | n :: r =>
      if is_alnum n
      then findall_alnum_go (cur +:+ String (ascii_of_N n) EmptyString) r
      else match cur with
           | EmptyString => findall_alnum_go EmptyString r
           | _ => cur :: findall_alnum_go EmptyString r
           end
  end.

Definition findall_alnum (l : list N) : list string := findall_alnum_go EmptyString l.

End PyStr.

Definition game_words : list string := ["game"; "player"; "enemy"; "boss"; "roguelike"].
Definition tv_words : list string := ["tv"; "show"; "episode"; "series"; "film"].
Definition music_words : list string := ["music"; "song"; "band"].

(** [kind] of [interpret_and_create] *)
Definition interpret_kind (prompt : string) : string :=
  let pl := Py.lower prompt in
  if existsb (fun k => Py.contains k pl) game_words then "game"
  else if existsb (fun k => Py.contains k pl) tv_words then "tv"
  else if existsb (fun k => Py.contains k pl) music_words then "music"
  else "generic".

(** [name] of [interpret_and_create] *)
Definition interpret_name (prompt : string) : string :=
  let tokens := PyStr.findall_alnum (PyStr.title prompt) in
  String.substring 0 20 (match tokens with t :: _ => t | [] => "Agent" end).

(** Every character of the text is an ASCII letter or digit. *)
Fixpoint alnum_only (s : string) : bool :=
  match s with
  | EmptyString => true
  | String c r => PyStr.is_alnum (Py.ord c) && alnum_only r
  end.

(** A name that is one component of a path: not empty, not one of the
    two dot entries, and free of the separator and of the null
    character. *)
Definition plain_name (name : string) : bool :=
  negb (String.eqb name EmptyString) && negb (String.eqb name ".")
  && negb (String.eqb name "..")
  && negb (Rx.has_char "/" name) && negb (Rx.has_char "000" name).

(** A label that keeps the archive directly inside [snapshots]: free of
    the separator and of the null character. *)
Definition plain_label (label : string) : bool :=
  negb (Rx.has_char "/" label) && negb (Rx.has_char "000" label).

(** The prompt holds the word [k] in some mix of letter cases. *)
Definition mentions (k prompt : string) : Prop :=
  exists a w b, prompt = a +:+ w +:+ b /\ Py.lower w = k.




(** ** Agent scaffolding: the generated files *)

Definition dq : string := String quote EmptyString.

(** The four templates after [format]: a replacement field receives the
    argument as it is, and a doubled brace of the template is one
    brace. *)
Definition AGENT_README (name kind : string) : string :=
  "# " +:+ name +:+ " (" +:+ kind +:+ " agent)" +:+ nl +:+
  nl +:+
  "Generated by GhostForge. Offline by default." +:+ nl.

Definition AGENT_MANIFEST (name kind : string) : string :=
  "name: " +:+ name +:+ nl +:+
  "kind: " +:+ kind +:+ nl +:+
  "version: " +:+ dq +:+ "0.1.0" +:+ dq +:+ nl +:+
  "capabilities:" +:+ nl +:+
  "  - plan" +:+ nl +:+
  "  - run" +:+ nl +:+
  "defaults:" +:+ nl +:+
  "  prompt_style: concise" +:+ nl.

Definition AGENT_CODE (name kind : string) : string :=
  "from pathlib import Path" +:+ nl +:+
  "import json, sys" +:+ nl +:+
  nl +:+
  "class Agent:" +:+ nl +:+
  "    def __init__(self, name=" +:+ dq +:+ name +:+ dq +:+ ", kind=" +:+ dq +:+ kind +:+ dq +:+ "):" +:+ nl +:+
  "        self.name = name" +:+ nl +:+
  "        self.kind = kind" +:+ nl +:+
  nl +:+
  "    def plan(self, goal: str):" +:+ nl +:+
  "        base = [" +:+ nl +:+
  "            " +:+ dq +:+ "[" +:+ dq +:+ " + self.kind + " +:+ dq +:+ "] analyze goal: " +:+ dq +:+ " + goal," +:+ nl +:+
  "            " +:+ dq +:+ "collect local data (stub; offline)" +:+ dq +:+ "," +:+ nl +:+
  "            " +:+ dq +:+ "generate structured summary" +:+ dq +:+ "," +:+ nl +:+
  "        ]" +:+ nl +:+
  "        if self.kind == " +:+ dq +:+ "game" +:+ dq +:+ ":" +:+ nl +:+
  "            base.insert(1, " +:+ dq +:+ "enumerate mechanics, loops, and difficulty curve" +:+ dq +:+ ")" +:+ nl +:+
  "        elif self.kind == " +:+ dq +:+ "tv" +:+ dq +:+ ":" +:+ nl +:+
  "            base.insert(1, " +:+ dq +:+ "enumerate characters, arcs, episodes, motifs" +:+ dq +:+ ")" +:+ nl +:+
  "        return base" +:+ nl +:+
  nl +:+
  "    def run(self, goal: str):" +:+ nl +:+
  "        steps = self.plan(goal)" +:+ nl +:+
  "        return {" +:+ nl +:+
  "            " +:+ dq +:+ "agent" +:+ dq +:+ ": self.name," +:+ nl +:+
  "            " +:+ dq +:+ "kind" +:+ dq +:+ ": self.kind," +:+ nl +:+
  "            " +:+ dq +:+ "goal" +:+ dq +:+ ": goal," +:+ nl +:+
  "            " +:+ dq +:+ "steps" +:+ dq +:+ ": steps," +:+ nl +:+
  "            " +:+ dq +:+ "result" +:+ dq +:+ ": " +:+ dq +:+ "[demo] " +:+ dq +:+ " + self.kind + " +:+ dq +:+ " agent processed goal" +:+ dq +:+ nl +:+
  "        }" +:+ nl +:+
  nl +:+
  "if __name__ == " +:+ dq +:+ "__main__" +:+ dq +:+ ":" +:+ nl +:+
  "    goal = " +:+ dq +:+ " " +:+ dq +:+ ".join(sys.argv[1:]) or " +:+ dq +:+ "demo goal" +:+ dq +:+ nl +:+
  "    print(json.dumps(Agent().run(goal), indent=2))" +:+ nl.

Definition TEST_CODE (name : string) : string :=
  "def run():" +:+ nl +:+
  "    import pathlib, subprocess, sys, json" +:+ nl +:+
  "    root = pathlib.Path(__file__).resolve().parents[1]" +:+ nl +:+
  "    agent = root / " +:+ dq +:+ "agents" +:+ dq +:+ " / " +:+ dq +:+ name +:+ dq +:+ " / " +:+ dq +:+ "agent.py" +:+ dq +:+ nl +:+
  "    if not agent.exists():" +:+ nl +:+
  "        return False" +:+ nl +:+
  "    out = subprocess.check_output([sys.executable, str(agent), " +:+ dq +:+ "smoke test" +:+ dq +:+ "]).decode(" +:+ dq +:+ "utf-8" +:+ dq +:+ ", " +:+ dq +:+ "ignore" +:+ dq +:+ ")" +:+ nl +:+
  "    return '" +:+ dq +:+ "result" +:+ dq +:+ "' in out and '" +:+ dq +:+ "steps" +:+ dq +:+ "' in out" +:+ nl.

(** The dictionary [info] of [interpret_and_create]. *)
Record agent_info := AgentInfo {
  info_name : string; info_kind : string; info_path : string; info_prompt : string }.

(** [json.dumps(info, indent=2)] *)
Definition info_json (i : agent_info) : string :=
  "{" +:+ nl +:+
  "  " +:+ json_string "name" +:+ ": " +:+ json_string (info_name i) +:+ "," +:+ nl +:+
  "  " +:+ json_string "kind" +:+ ": " +:+ json_string (info_kind i) +:+ "," +:+ nl +:+
  "  " +:+ json_string "path" +:+ ": " +:+ json_string (info_path i) +:+ "," +:+ nl +:+
  "  " +:+ json_string "prompt" +:+ ": " +:+ json_string (info_prompt i) +:+ nl +:+
  "}".

(** The name of the golden test and of the description of an agent. *)
Definition agent_test (name : string) : string := "test_agent_" +:+ Py.lower name +:+ ".py".
Definition agent_meta (name : string) : string := Py.lower name +:+ "_meta.json".

Section Agents.

Context `{RT : Runtime}.

(** [scaffold_agent], for a [name] that is one component of a path. *)
Definition scaffold_agent (name kind : string) : M string :=
  mkdir AGENTS_DIR ;;
  let agent_dir := AGENTS_DIR ++ [name] in
  mkdir agent_dir ;;
  write_text (agent_dir ++ ["README.md"]) (AGENT_README name kind) ;;
  write_text (agent_dir ++ ["manifest.yaml"]) (AGENT_MANIFEST name kind) ;;
  write_text (agent_dir ++ ["agent.py"]) (AGENT_CODE name kind) ;;
  mkdir TESTS_DIR ;;
  write_text (TESTS_DIR ++ [agent_test name]) (TEST_CODE name) ;;
  ret (abs_str agent_dir).

(** [interpret_and_create] *)
Definition interpret_and_create (prompt : string) : M agent_info :=
  let kind := interpret_kind prompt in
  let name := interpret_name prompt in
  path <- scaffold_agent name kind ;;
  let info := AgentInfo name kind path prompt in
  write_text (STATE ++ [agent_meta name]) (info_json info) ;;
  ret info.

End Agents.

(** The files [scaffold_agent] writes. *)
Definition scaffold_files (name : string) : list path :=
  [ AGENTS_DIR ++ [name; "README.md"]; AGENTS_DIR ++ [name; "manifest.yaml"];
    AGENTS_DIR ++ [name; "agent.py"]; TESTS_DIR ++ [agent_test name] ].

(** [q] is [p] or a directory on the way to [p]. *)
Fixpoint leads_to (q p : path) : bool :=
  match q, p with
  | [], _ => true
  | c :: q', d :: p' => String.eqb c d && leads_to q' p'
  | _ :: _, [] => false
  end.

(** [q] is none of the paths [ps] and no directory on the way to one. *)
Definition apart_from (ps : list path) (q : path) : bool :=
  forallb (fun p => negb (leads_to q p)) ps.

(** A computation that changes the tree at most at the paths [ps] and
    the directories on the way to them, and leaves the two tables as
    they are. *)
Definition confined_to {A} (ps : list path) (m : M A) : Prop :=
  forall w r w', m w = (r, w') ->
    (forall q, apart_from ps q = true -> FS.lookup (fs w') q = FS.lookup (fs w) q)
    /\ audit_log w' = audit_log w /\ snapshots w' = snapshots w.

(** One step of a scaffolding run: a directory to create or a text to
    write. *)
Inductive fs_op :=
| OpMkdir (p : path)
| OpWrite (p : path) (s : string).

Definition op_path (o : fs_op) : path :=
  match o with OpMkdir p | OpWrite p _ => p end.

Definition apply_op (o : fs_op) (t : node) : option node :=
  match o with
  | OpMkdir p => FS.mkdir_p p t
  | OpWrite p s => FS.write_file p (Text s) t
  end.

Fixpoint apply_ops (ops : list fs_op) (t : node) : option node :=
  match ops with
  | [] => Some t
  | o :: r => match apply_op o t with
              | Some t' => apply_ops r t'
              | None => None
              end
  end.

Definition do_op (o : fs_op) : M unit :=
  match o with
  | OpMkdir p => mkdir p
  | OpWrite p s => write_text p s
  end.

Fixpoint run_ops (ops : list fs_op) : M unit :=
  match ops with
  | [] => ret tt
  | o :: r => do_op o ;; run_ops r
  end.

(** The steps of [scaffold_agent] and the last step of
    [interpret_and_create]. *)
Definition scaffold_ops (name kind : string) : list fs_op :=
  [ OpMkdir AGENTS_DIR;
    OpMkdir (AGENTS_DIR ++ [name]);
    OpWrite (AGENTS_DIR ++ [name; "README.md"]) (AGENT_README name kind);
    OpWrite (AGENTS_DIR ++ [name; "manifest.yaml"]) (AGENT_MANIFEST name kind);
    OpWrite (AGENTS_DIR ++ [name; "agent.py"]) (AGENT_CODE name kind);
    OpMkdir TESTS_DIR;
    OpWrite (TESTS_DIR ++ [agent_test name]) (TEST_CODE name) ].

(** What a step leaves at its path. *)
Definition op_holds (t : node) (o : fs_op) : Prop :=
  match o with
  | OpMkdir p => exists es, FS.lookup t p = Some (Dir es)
  | OpWrite p s => FS.lookup t p = Some (File (Text s))
  end.

(** No later step reaches the path of a write. *)
Fixpoint settled (ops : list fs_op) : bool :=
  match ops with
  | [] => true
  | OpMkdir _ :: r => settled r
  | OpWrite p _ :: r =>
      forallb (fun o => negb (leads_to p (op_path o)) && negb (leads_to (op_path o) p)) r
      && settled r
  end.

(** A step that can run: the directory is there already, or the text has
    a directory to go to and no directory in its place. *)
Definition op_ready (t : node) (o : fs_op) : Prop :=
  match o with
  | OpMkdir p => exists es, FS.lookup t p = Some (Dir es)
  | OpWrite p _ =>
      exists dir f, p = dir ++ [f]
        /\ (exists es, FS.lookup t dir = Some (Dir es))
        /\ (forall es', FS.lookup t p <> Some (Dir es'))
  end.

(** Everything [interpret_and_create] writes for a name. *)
Definition create_files (name : string) : list path :=
  scaffold_files name ++ [STATE ++ [agent_meta name]].

(** ** Further workspaces for the examples *)

Module Cases.

(** A workspace whose budget is not a number. *)
Definition misconfigured : world :=
  Demo.start (Dir [ ("commands", Dir [("core.repair.yaml",
                        File (Text ("guards.change_budget_pct: five" +:+ nl)))]);
                    ("core", Dir [("registry.py", File (Text Demo.registry20))]) ]).

(** A workspace with a directory where the freeze flag is expected. *)
Definition stuck : world :=
  Demo.start (Dir [ ("state", Dir [("FORGE_FREEZE", Dir [])]);
                    ("core", Dir [("registry.py", File (Text Demo.registry20))]) ]).

(** A workspace whose registry calls [eval] and whose policy holds a
    repeat count that overflows. *)
Definition overflowing : world :=
  Demo.start (Demo.workspace ("y = eval(x)" +:+ nl)
                ("rules:" +:+ nl +:+ "  - pattern: a{4294967296}" +:+ nl)
                [("test_smoke.py", File (Text "pass"))] []).

(** A workspace of two lines whose policy asks for an acknowledgment
    above 10 percent, with and without the artifact. *)
Definition oversized : world :=
  Demo.start (Demo.workspace ("a = 1" +:+ nl +:+ "b = 2" +:+ nl)
                ("escalation.max_budget_pct_without_ack: 10" +:+ nl)
                [("test_smoke.py", File (Text "pass"))]
                [("human-ack.txt", File (Text "ok"))]).

Definition oversized_alone : world :=
  Demo.start (Demo.workspace ("a = 1" +:+ nl +:+ "b = 2" +:+ nl)
                ("escalation.max_budget_pct_without_ack: 10" +:+ nl)
                [("test_smoke.py", File (Text "pass"))] []).

(** A runtime whose clock shows the same second at every reading. *)
Definition coarse : Runtime := {|
  ROOT_parts := ["srv"; "ghostforge"];
  re_compiles := Demo.compiles;
  re_fault := Demo.fault;
  re_search := Demo.search;
  now_iso := fun _ => "2025-01-01T00:00:00+00:00";
  now_compact := fun _ => "20250101T000000Z";
  exec_unit := Demo.exec;
  outside_exists := fun _ => false
|}.

End Cases.

(** * Properties *)

(** ** Sanity checks of the embedding *)

Example splitlines_ex1 :
  Py.splitlines ("a" +:+ String "010" "b" +:+ String "013" (String "010" (String "010" "c")))
  = ["a"; "b"; EmptyString; "c"].
Proof. reflexivity. Qed.

Example parse_yaml_like_ex :
  let d := parse_yaml_like
    ("# guards" +:+ nl +:+ "guards.change_budget_pct: 7" +:+ nl +:+
     "name :  'core.repair'  " +:+ nl +:+ "steps:" +:+ nl +:+
     "  - run: lint" +:+ nl +:+ "empty:" +:+ nl) in
  d !! "guards.change_budget_pct" = Some (YStr "7")
  /\ d !! "name" = Some (YStr "core.repair")
  /\ d !! "steps" = Some (YSteps ["lint"])
  /\ d !! "empty" = Some YNone
  /\ d !! "guards" = None.
Proof. vm_compute. repeat split. Qed.

Example walk_demo :
  map fst (FS.walk [] Demo.demo_tree)
  = [ []; ["core"]; [".forge"]; [".forge"; "shadow"];
      [".forge"; "shadow"; "core"]; ["snapshots"] ].
Proof. reflexivity. Qed.

Example write_file_needs_parent :
  FS.write_file ["nowhere"; "f.txt"] (Text "a") Demo.demo_tree = None
  /\ FS.exists_ Demo.demo_tree ["core"; "registry.py"] = true
  /\ match FS.write_file ["core"; "registry.py"] (Text "y") Demo.demo_tree with
     | Some t => FS.lookup t ["core"; "registry.py"]
     | None => None
     end = Some (File (Text "y")).
Proof. repeat split. Qed.

Example pct_of_examples :
  pct_of 1 20 = 5%Z /\ pct_of 0 7 = 0%Z /\ pct_of 1 1 = 100%Z
  /\ pct_of 3 1 = 100%Z /\ pct_of 1 3 = 33%Z /\ pct_of 1 101 = 0%Z.
Proof. vm_compute. repeat split. Qed.

Example glob_tests_ex :
  glob_tests (Dir [("tests", Dir [("test_b.py", File (Text EmptyString)); ("helper.py", File (Text EmptyString));
                                  ("test_.py", File (Text EmptyString)); ("test_a.py", File (Text EmptyString));
                                  ("test_x.txt", File (Text EmptyString))])]) TESTS_DIR
  = ["test_.py"; "test_a.py"; "test_b.py"]
  /\ stem "test_a.py" = "test_a".
Proof. split; reflexivity. Qed.

(** ** Reasoning about runs *)

Section Runs.

Context `{RT : Runtime}.

#[export] Instance ret_ro {A} (a : A) : ReadOnly (ret a).
Proof. intros w. reflexivity. Qed.

#[export] Instance raise_ro {A} (e : exn) : ReadOnly (@raise A e).
Proof. intros w. reflexivity. Qed.

#[export] Instance path_exists_ro p : ReadOnly (path_exists p).
Proof. intros w. reflexivity. Qed.

#[export] Instance read_text_ro p : ReadOnly (read_text p).
Proof. intros w. unfold read_text. destruct (FS.lookup (fs w) p) as [[[]|]|]; reflexivity. Qed.

#[export] Instance bind_ro_inst {A B} (m : M A) (k : A -> M B) :
  ReadOnly m -> (forall a, ReadOnly (k a)) -> ReadOnly (bind m k).
Proof.
  intros Hm Hk w. unfold bind. specialize (Hm w).
  destruct (m w) as [[a|e] w1]; simpl in *; subst; [apply Hk | reflexivity].
Qed.

#[export] Instance if_ro {A} (b : bool) (m1 m2 : M A) :
  ReadOnly m1 -> ReadOnly m2 -> ReadOnly (if b then m1 else m2).
Proof. destruct b; auto. Qed.

#[export] Instance py_int_ro v : ReadOnly (py_int v).
Proof. destruct v; simpl; try apply _. destruct (Py.int_of_str s); apply _. Qed.

#[export] Instance load_yaml_like_ro p : ReadOnly (load_yaml_like p).
Proof. unfold load_yaml_like. apply bind_ro_inst; [apply _|]. intros []; apply _. Qed.

#[export] Instance policy_patterns_ro : ReadOnly _load_repair_policy_patterns.
Proof.
  unfold _load_repair_policy_patterns.
  apply bind_ro_inst; [apply _|]. intros e.
  apply bind_ro_inst; [destruct e; apply _ | intros; apply _].
Qed.

#[export] Instance read_original_ro : ReadOnly read_original.
Proof. unfold read_original. apply bind_ro_inst; [apply _|]. intros []; apply _. Qed.

#[export] Instance ack_exists_ro r : ReadOnly (ack_exists r).
Proof. unfold ack_exists. destruct (inside_path r); apply _. Qed.

Lemma bind_ro {A B} (m : M A) `{!ReadOnly m} (k : A -> M B) w :
  bind m k w = match fst (m w) with
               | Ok a => k a w
               | Raise e => (Raise e, w)
               end.
Proof.
  unfold bind. pose proof (read_only (m:=m) w) as H.
  destruct (m w) as [[a|e] w1]; simpl in *; subst; reflexivity.
Qed.

Lemma bind_assoc {A B C} (m : M A) (f : A -> M B) (k : B -> M C) w :
  bind (bind m f) k w = bind m (fun a => bind (f a) k) w.
Proof. unfold bind. destruct (m w) as [[a|e] w1]; reflexivity. Qed.

Lemma bind_ret {A B} (a : A) (k : A -> M B) w : bind (ret a) k w = k a w.
Proof. reflexivity. Qed.

Lemma bind_raise {A B} (e : exn) (k : A -> M B) w : bind (raise e) k w = (Raise e, w).
Proof. reflexivity. Qed.

Lemma bind_path_exists {B} p (k : bool -> M B) w :
  bind (path_exists p) k w = k (FS.exists_ (fs w) p) w.
Proof. reflexivity. Qed.

Lemma bind_print {B} msg (k : unit -> M B) w :
  bind (print msg) k w = k tt (emit_event (EvPrint msg) w).
Proof. reflexivity. Qed.

Lemma bind_tick {B} (k : nat -> M B) w : bind tick k w = k (clock w) (ticked w).
Proof. reflexivity. Qed.

Lemma bind_log {B} actor action d (k : unit -> M B) w :
  bind (log actor action d) k w = k tt (logged actor action d w).
Proof. reflexivity. Qed.

Lemma bind_write_text {B} p s (k : unit -> M B) w :
  bind (write_text p s) k w
  = match FS.write_file p (Text s) (fs w) with
    | Some t => k tt (emit_event (EvWrite p s) (set_fs t w))
    | None => (Raise (OSError p), w)
    end.
Proof. unfold bind, write_text. destruct (FS.write_file p (Text s) (fs w)); reflexivity. Qed.

Lemma bind_mkdir {B} p (k : unit -> M B) w :
  bind (mkdir p) k w
  = match FS.mkdir_p p (fs w) with
    | Some t => k tt (emit_event (EvMkdir p) (set_fs t w))
    | None => (Raise (OSError p), w)
    end.
Proof. unfold bind, mkdir. destruct (FS.mkdir_p p (fs w)); reflexivity. Qed.

Lemma bind_rmtree {B} p (k : unit -> M B) w :
  bind (rmtree p) k w
  = match FS.rmtree p (fs w) with
    | Some t => k tt (emit_event (EvRmtree p) (set_fs t w))
    | None => (Raise (OSError p), w)
    end.
Proof. unfold bind, rmtree. destruct (FS.rmtree p (fs w)); reflexivity. Qed.

Lemma bind_unlink {B} p (k : unit -> M B) w :
  bind (unlink p) k w
  = match FS.unlink p (fs w) with
    | Some t => k tt (emit_event (EvUnlink p) (set_fs t w))
    | None => (Raise (OSError p), w)
    end.
Proof. unfold bind, unlink. destruct (FS.unlink p (fs w)); reflexivity. Qed.

Lemma bind_copytree_to {B} dst (k : unit -> M B) w :
  bind (copytree_to dst) k w
  = match FS.put dst (copy_ignoring (path_name ROOT_parts) (fs w)) (fs w) with
    | Some t => k tt (emit_event (EvCopytree dst) (set_fs t w))
    | None => (Raise (OSError dst), w)
    end.
Proof.
  unfold bind, copytree_to.
  destruct (FS.put dst (copy_ignoring (path_name ROOT_parts) (fs w)) (fs w)); reflexivity.
Qed.

Lemma bind_eq {A B} (m : M A) (k : A -> M B) w r w1 :
  m w = (r, w1) ->
  bind m k w = match r with
               | Ok a => k a w1
               | Raise e => (Raise e, w1)
               end.
Proof. unfold bind. intros ->. destruct r; reflexivity. Qed.

End Runs.

Section RunFacts.

Context `{RT : Runtime}.

Lemma world_eta w : World (fs w) (audit_log w) (snapshots w) (trace w) (clock w) = w.
Proof. destruct w; reflexivity. Qed.

Lemma emit_events_nil w : emit_events [] w = w.
Proof. unfold emit_events. rewrite app_nil_r. apply world_eta. Qed.

Lemma emit_events_cons e l w : emit_events l (emit_event e w) = emit_events (e :: l) w.
Proof. unfold emit_events, emit_event; simpl. rewrite <- app_assoc. reflexivity. Qed.

Lemma emit_events_app l1 l2 w : emit_events l2 (emit_events l1 w) = emit_events (l1 ++ l2) w.
Proof. unfold emit_events; simpl. rewrite <- app_assoc. reflexivity. Qed.

Lemma validate_patterns_eq pats w :
  validate_patterns pats w
  = match first_fault pats with
    | None => (Ok (List.filter re_compiles pats), emit_events (warnings pats) w)
    | Some (pre, what) => (Raise (ReFault what), emit_events (warnings pre) w)
    end.
Proof.
  revert w. induction pats as [|pat rest IH]; intros w.
  - simpl. unfold ret. rewrite emit_events_nil. reflexivity.
  - cbn [validate_patterns first_fault].
    destruct (re_fault pat) as [what|];
      [unfold raise; rewrite emit_events_nil; reflexivity|].
    unfold warnings in *. cbn [List.filter].
    destruct (first_fault rest) as [[pre what]|];
      destruct (re_compiles pat) eqn:Hc; cbn [negb List.filter]; rewrite ?Hc; cbn [negb map].
    + rewrite bind_ret. rewrite (bind_eq _ _ _ _ _ (IH w)). reflexivity.
    + rewrite bind_print. rewrite (bind_eq _ _ _ _ _ (IH _)).
      rewrite emit_events_cons. reflexivity.
    + rewrite bind_ret. rewrite (bind_eq _ _ _ _ _ (IH w)). reflexivity.
    + rewrite bind_print. rewrite (bind_eq _ _ _ _ _ (IH _)).
      rewrite emit_events_cons. reflexivity.
Qed.

Lemma first_fault_none pats :
  first_fault pats = None <-> forall pat, In pat pats -> re_fault pat = None.
Proof.
  induction pats as [|pat rest IH]; cbn [first_fault].
  - split; [intros _ pat [] | reflexivity].
  - destruct (re_fault pat) as [what|] eqn:E.
    + split; [discriminate|]. intros H. specialize (H pat (or_introl eq_refl)). congruence.
    + destruct (first_fault rest) as [[pre what]|].
      * split; [discriminate|]. intros H. exfalso.
        assert (Some (pre, what) = None) as Hn; [|discriminate].
        apply IH. intros q Hq. apply H. right. exact Hq.
      * split; [|reflexivity]. intros _ q [<-|Hq]; [exact E|].
        apply (proj1 IH eq_refl), Hq.
Qed.

Lemma first_fault_some pats pre what :
  first_fault pats = Some (pre, what) ->
  exists pat post,
    pats = pre ++ pat :: post /\ re_fault pat = Some what
    /\ forall q, In q pre -> re_fault q = None.
Proof.
  revert pre. induction pats as [|pat rest IH]; intros pre H; cbn [first_fault] in H;
    [discriminate|].
  destruct (re_fault pat) as [what'|] eqn:E.
  - injection H as <- <-. exists pat, rest. split; [reflexivity|]. split; [exact E|].
    intros q [].
  - destruct (first_fault rest) as [[pre' what']|]; [|discriminate].
    injection H as <- <-. destruct (IH pre' eq_refl) as (q & post & -> & Hq & Hpre).
    exists q, post. split; [reflexivity|]. split; [exact Hq|].
    intros x [<-|Hx]; [exact E | apply Hpre, Hx].
Qed.

Lemma scan_eq new w :
  scan new w
  = match fst (_load_repair_policy_patterns w) with
    | Ok pats =>
        match first_fault pats with
        | None => (Ok (hits_of new pats), emit_events (warnings pats) w)
        | Some (pre, what) => (Raise (ReFault what), emit_events (warnings pre) w)
        end
    | Raise e => (Raise e, w)
    end.
Proof.
  unfold scan. rewrite bind_ro by apply _.
  destruct (fst (_load_repair_policy_patterns w)) as [pats|e]; [|reflexivity].
  pose proof (validate_patterns_eq pats w) as H.
  destruct (first_fault pats) as [[pre what]|]; rewrite (bind_eq _ _ _ _ _ H); reflexivity.
Qed.

Lemma scan_trace new w r w2 :
  scan new w = (r, w2) ->
  fs w2 = fs w /\ audit_log w2 = audit_log w /\ snapshots w2 = snapshots w
  /\ exists evs, trace w2 = trace w ++ evs /\ forallb staging_event evs = true.
Proof.
  rewrite scan_eq. destruct (fst (_load_repair_policy_patterns w)) as [pats|e].
  - assert (forall l, forallb staging_event (warnings l) = true) as Hw.
    { intros l. apply forallb_forall. intros e He. unfold warnings in He.
      apply in_map_iff in He as (p & <- & _). reflexivity. }
    destruct (first_fault pats) as [[pre what]|]; intros H; injection H as <- <-;
      unfold emit_events; cbn [fs audit_log snapshots trace]; eauto 7.
  - intros H; injection H as <- <-. repeat (split; [reflexivity|]).
    exists []. split; [symmetry; apply app_nil_r | reflexivity].
Qed.

Lemma run_units_eq silent units ok w :
  run_units silent units ok w
  = (units_result (fs w) units ok, emit_events (units_events silent (fs w) units) w).
Proof.
  revert ok w. induction units as [|file rest IH]; intros ok w.
  - simpl. unfold ret. rewrite emit_events_nil. reflexivity.
  - cbn [run_units units_result units_events].
    unfold bind at 1. unfold load_and_run at 1. cbn beta iota.
    destruct (exec_unit (fs w) (TESTS_DIR ++ [file])) eqn:Ho;
      try (destruct silent; cbn [negb when];
           [ rewrite bind_ret | rewrite bind_print ];
           rewrite IH; cbn [fs emit_event app];
           rewrite ?emit_events_cons; reflexivity).
    unfold raise. rewrite <- emit_events_cons, emit_events_nil. reflexivity.
Qed.

Lemma run_tests_eq silent w :
  run_tests silent w
  = (units_result (fs w) (glob_tests (fs w) TESTS_DIR) true,
     emit_events (units_events silent (fs w) (glob_tests (fs w) TESTS_DIR)) w).
Proof. unfold run_tests. unfold bind. apply run_units_eq. Qed.

End RunFacts.

(** ** Frames of the file-system operations *)

Module FSFacts.

Import FS (outside).

Lemma outside_refl n t : outside n t t.
Proof. intros c p _. reflexivity. Qed.

Lemma outside_trans n t1 t2 t3 : outside n t1 t2 -> outside n t2 t3 -> outside n t1 t3.
Proof. intros H1 H2 c p Hc. rewrite H2, H1; auto. Qed.

Lemma entry_set_entry_ne c n x es :
  c <> n -> FS.entry c (FS.set_entry n x es) = FS.entry c es.
Proof.
  intros Hc. induction es as [|[m y] r IH]; simpl.
  - destruct (String.eqb_spec n c); congruence.
  - destruct (String.eqb_spec m n) as [->|Hmn]; simpl.
    + destruct (String.eqb_spec n c); congruence.
    + destruct (String.eqb_spec m c); auto.
Qed.

Lemma entry_del_entry_ne c n es :
  c <> n -> FS.entry c (FS.del_entry n es) = FS.entry c es.
Proof.
  intros Hc. induction es as [|[m y] r IH]; simpl; auto.
  destruct (String.eqb_spec m n) as [->|Hmn]; simpl.
  - destruct (String.eqb_spec n c); congruence.
  - destruct (String.eqb_spec m c); auto.
Qed.

Lemma outside_set_entry n x es : outside n (Dir es) (Dir (FS.set_entry n x es)).
Proof. intros c p Hc. simpl. rewrite entry_set_entry_ne; auto. Qed.

Lemma outside_del_entry n es : outside n (Dir es) (Dir (FS.del_entry n es)).
Proof. intros c p Hc. simpl. rewrite entry_del_entry_ne; auto. Qed.

Lemma write_file_dir c q d es :
  FS.write_file (c :: q) d (Dir es)
  = match q with
    | [] => match FS.entry c es with
            | Some (Dir _) => None
            | _ => Some (Dir (FS.set_entry c (File d) es))
            end
    | _ => match FS.entry c es with
           | Some x => match FS.write_file q d x with
                       | Some x' => Some (Dir (FS.set_entry c x' es))
                       | None => None
                       end
           | None => None
           end
    end.
Proof. destruct q; reflexivity. Qed.

Lemma rmtree_dir c q es :
  FS.rmtree (c :: q) (Dir es)
  = match q with
    | [] => match FS.entry c es with
            | Some (Dir _) => Some (Dir (FS.del_entry c es))
            | _ => None
            end
    | _ => match FS.entry c es with
           | Some x => match FS.rmtree q x with
                       | Some x' => Some (Dir (FS.set_entry c x' es))
                       | None => None
                       end
           | None => None
           end
    end.
Proof. destruct q; reflexivity. Qed.

Lemma put_dir c q x es :
  FS.put (c :: q) x (Dir es)
  = match q with
    | [] => match FS.entry c es with
            | Some _ => None
            | None => Some (Dir (FS.set_entry c x es))
            end
    | _ => match FS.put q x (match FS.entry c es with Some y => y | None => Dir [] end) with
           | Some y' => Some (Dir (FS.set_entry c y' es))
           | None => None
           end
    end.
Proof. destruct q; reflexivity. Qed.

Lemma mkdir_p_dir c q es :
  FS.mkdir_p (c :: q) (Dir es)
  = match FS.mkdir_p q (match FS.entry c es with Some x => x | None => Dir [] end) with
    | Some x' => Some (Dir (FS.set_entry c x' es))
    | None => None
    end.
Proof. reflexivity. Qed.

Lemma write_file_outside n q d t t' :
  FS.write_file (n :: q) d t = Some t' -> outside n t t'.
Proof.
  destruct t as [|es]; [destruct q; discriminate|].
  rewrite write_file_dir. intros H.
  destruct q; destruct (FS.entry n es) as [[]|]; simplify_eq;
    try apply outside_set_entry;
    match goal with
    | H : match ?x with _ => _ end = _ |- _ => destruct x; simplify_eq; apply outside_set_entry
    end.
Qed.

Lemma mkdir_p_outside n q t t' :
  FS.mkdir_p (n :: q) t = Some t' -> outside n t t'.
Proof.
  destruct t as [|es]; [discriminate|]. rewrite mkdir_p_dir. intros H.
  match goal with
  | H : match ?x with _ => _ end = _ |- _ => destruct x; simplify_eq; apply outside_set_entry
  end.
Qed.

Lemma rmtree_outside n q t t' :
  FS.rmtree (n :: q) t = Some t' -> outside n t t'.
Proof.
  destruct t as [|es]; [destruct q; discriminate|].
  rewrite rmtree_dir. intros H.
  destruct q; destruct (FS.entry n es) as [[]|]; simplify_eq;
    try apply outside_del_entry;
    match goal with
    | H : match ?x with _ => _ end = _ |- _ => destruct x; simplify_eq; apply outside_set_entry
    end.
Qed.

Lemma put_outside n q x t t' :
  FS.put (n :: q) x t = Some t' -> outside n t t'.
Proof.
  destruct t as [|es]; [destruct q; discriminate|].
  rewrite put_dir. intros H.
  destruct q.
  - destruct (FS.entry n es); simplify_eq. apply outside_set_entry.
  - match goal with
    | H : match ?x with _ => _ end = _ |- _ => destruct x; simplify_eq; apply outside_set_entry
    end.
Qed.

Lemma outside_exists n t t' c p :
  outside n t t' -> c <> n -> FS.exists_ t' (c :: p) = FS.exists_ t (c :: p).
Proof. intros H Hc. unfold FS.exists_. rewrite H; auto. Qed.

Lemma entry_set_entry_eq c x es : FS.entry c (FS.set_entry c x es) = Some x.
Proof.
  induction es as [|[m y] r IH]; simpl.
  - rewrite String.eqb_refl. reflexivity.
  - destruct (String.eqb_spec m c) as [->|Hmc]; simpl.
    + rewrite String.eqb_refl. reflexivity.
    + destruct (String.eqb_spec m c); [contradiction|]. exact IH.
Qed.

Lemma write_file_lookup p d t t' :
  FS.write_file p d t = Some t' -> FS.lookup t' p = Some (File d).
Proof.
  revert t t'. induction p as [|c q IH]; intros t t' H; [destruct t; discriminate|].
  destruct t as [|es]; [destruct q; discriminate|].
  rewrite write_file_dir in H.
  destruct q as [|c' q'].
  - destruct (FS.entry c es) as [[]|]; simplify_eq;
      cbn [FS.lookup]; rewrite entry_set_entry_eq; reflexivity.
  - destruct (FS.entry c es) as [x|]; [|discriminate].
    destruct (FS.write_file (c' :: q') d x) as [x'|] eqn:E; simplify_eq.
    change (FS.lookup (Dir (FS.set_entry c x' es)) (c :: c' :: q'))
      with (match FS.entry c (FS.set_entry c x' es) with
            | Some y => FS.lookup y (c' :: q')
            | None => None
            end).
    rewrite entry_set_entry_eq. eapply IH, E.
Qed.

Lemma entry_del_entry_eq c es : FS.entry c (FS.del_entry c es) = None.
Proof.
  induction es as [|[m y] r IH]; simpl; [reflexivity|].
  destruct (String.eqb_spec m c) as [->|Hmc]; [exact IH|]. simpl.
  destruct (String.eqb_spec m c); [contradiction | exact IH].
Qed.

Lemma unlink_dir c q es :
  FS.unlink (c :: q) (Dir es)
  = match q with
    | [] => match FS.entry c es with
            | Some (File _) => Some (Dir (FS.del_entry c es))
            | _ => None
            end
    | _ => match FS.entry c es with
           | Some x => match FS.unlink q x with
                       | Some x' => Some (Dir (FS.set_entry c x' es))
                       | None => None
                       end
           | None => None
           end
    end.
Proof. destruct q; reflexivity. Qed.

(** After [unlink] the path does not exist. *)
Lemma unlink_lookup p t t' : FS.unlink p t = Some t' -> FS.lookup t' p = None.
Proof.
  revert t t'. induction p as [|c q IH]; intros t t' H; [destruct t; discriminate|].
  destruct t as [|es]; [destruct q; discriminate|].
  rewrite unlink_dir in H.
  destruct q as [|c' q'].
  - destruct (FS.entry c es) as [[]|]; simplify_eq.
    cbn [FS.lookup]. rewrite entry_del_entry_eq. reflexivity.
  - destruct (FS.entry c es) as [x|]; [|discriminate].
    destruct (FS.unlink (c' :: q') x) as [x'|] eqn:E; simplify_eq.
    change (FS.lookup (Dir (FS.set_entry c x' es)) (c :: c' :: q'))
      with (match FS.entry c (FS.set_entry c x' es) with
            | Some y => FS.lookup y (c' :: q')
            | None => None
            end).
    rewrite entry_set_entry_eq. eapply IH, E.
Qed.

(** *** The walk *)

Lemma walk_dir here es :
  FS.walk here (Dir es)
  = (here, FS.files_of es) :: flat_map (fun '(n, x) => FS.walk (here ++ [n]) x) es.
Proof.
  cbn [FS.walk]. f_equal.
  induction es as [|[n x] r IH]; [reflexivity|]. cbn [flat_map]. rewrite <- IH. reflexivity.
Qed.

Lemma entry_In c es x : FS.entry c es = Some x -> In (c, x) es.
Proof.
  induction es as [|[n y] r IH]; [discriminate|]. cbn [FS.entry].
  destruct (String.eqb_spec n c) as [->|_].
  - intros [= ->]. left. reflexivity.
  - intros H. right. apply IH, H.
Qed.

Lemma files_of_entry f es d : FS.entry f es = Some (File d) -> In (f, d) (FS.files_of es).
Proof.
  induction es as [|[n y] r IH]; [discriminate|]. cbn [FS.entry FS.files_of].
  destruct (String.eqb_spec n f) as [->|_].
  - intros [= ->]. left. reflexivity.
  - intros H. destruct y; [right|]; apply IH, H.
Qed.

(** Every directory of the tree has its record in the walk. *)
Lemma walk_lookup folder : forall here t es,
  FS.lookup t folder = Some (Dir es) ->
  In (here ++ folder, FS.files_of es) (FS.walk here t).
Proof.
  induction folder as [|c q IH]; intros here t es H.
  - cbn [FS.lookup] in H. injection H as ->. rewrite app_nil_r, walk_dir. left. reflexivity.
  - destruct t as [|es0]; [discriminate|]. cbn [FS.lookup] in H.
    destruct (FS.entry c es0) as [x|] eqn:E; [|discriminate].
    rewrite walk_dir. right. apply in_flat_map. exists (c, x).
    split; [apply entry_In, E|].
    replace (here ++ c :: q) with ((here ++ [c]) ++ q) by (rewrite <- app_assoc; reflexivity).
    apply IH, H.
Qed.

Lemma lookup_app t p q :
  FS.lookup t (p ++ q) = match FS.lookup t p with Some x => FS.lookup x q | None => None end.
Proof.
  revert t. induction p as [|c p IH]; intros t; [reflexivity|].
  cbn [app FS.lookup]. destruct t as [|es]; [reflexivity|].
  destruct (FS.entry c es); [apply IH | reflexivity].
Qed.

End FSFacts.

(** ** The terminal states describe [run_repair] exactly *)

Section RunRelation.

Context `{RT : Runtime}.

Lemma ack_exists_eq r w : ack_exists r w = (Ok (ack_present (fs w) r), w).
Proof. unfold ack_exists, ack_present. destruct (inside_path r); reflexivity. Qed.

Lemma load_escalation_world b w : snd (load_escalation b w) = w.
Proof.
  unfold load_escalation.
  assert (ReadOnly (load_escalation b)) as H; [|apply H].
  unfold load_escalation. apply bind_ro_inst; [apply _|]. intros pol.
  apply bind_ro_inst; [apply _|]. intros; apply _.
Qed.

Lemma bind_load_escalation {B} b (k : escalation -> M B) w :
  bind (load_escalation b) k w
  = match fst (load_escalation b w) with
    | Ok esc => k esc w
    | Raise e => (Raise e, w)
    end.
Proof.
  unfold bind. pose proof (load_escalation_world b w) as H.
  destruct (load_escalation b w) as [[esc|e] w1]; simpl in *; subst; reflexivity.
Qed.

(** The part of [run_repair] after a scan without hits. *)
Lemma run_repair_after_scan strategy w a w1 w2 :
  frozen w = false ->
  prepare strategy w = (Ok a, w1) ->
  scan (new a) w1 = (Ok [], w2) ->
  run_repair strategy w
  = match fst (load_escalation (change_budget_pct a) w2) with
    | Raise e => (Raise e, w2)
    | Ok esc =>
        let pct := delta_pct (original a) (new a) in
        if need_ack strategy pct esc then
          (Ok 5%Z,
           if ack_present (fs w2) (req_path esc) then w2
           else logged "warden" "escalation_required" (escalation_detail strategy pct esc)
                  (emit_event (EvPrint (MsgEscalation (ack_name (req_path esc)) strategy
                                          pct (max_no_ack esc))) w2))
        else if (pct >? change_budget_pct a)%Z then
          (Ok 3%Z,
           logged "warden" "reject_change_budget" (reject_detail pct (change_budget_pct a))
             (emit_event (EvPrint (MsgReject pct (change_budget_pct a))) w2))
        else
          match stage_shadow (new a) w2 with
          | (Raise e, w3) => (Raise e, w3)
          | (Ok _, w3) =>
              match run_tests true w3 with
              | (Raise e, w4) => (Raise e, w4)
              | (Ok ok, w4) =>
                  if (require_green a && negb ok)%bool then
                    (Ok 4%Z, logged "tester" "fail" (Plain "golden")
                               (emit_event (EvPrint MsgTestsFail) w4))
                  else
                    match create_snapshot "auto-repair"
                            (emit_event (EvPrint MsgTestsOK) w4) with
                    | (Raise e, w5) => (Raise e, w5)
                    | (Ok _, w5) =>
                        match FS.write_file target_file (Text (new a)) (fs w5) with
                        | None => (Raise (OSError target_file), w5)
                        | Some t =>
                            (Ok 0%Z,
                             emit_event (EvPrint MsgApplied)
                               (logged "rewriter" "apply"
                                  (apply_detail (added_lines (original a) (new a)))
                                  (emit_event (EvWrite target_file (new a)) (set_fs t w5))))
                        end
                    end
              end
          end
    end.
Proof.
  intros Hf Hp Hs. unfold run_repair.
  rewrite bind_path_exists. fold (frozen w). rewrite Hf.
  rewrite (bind_eq _ _ _ _ _ Hp). cbv beta iota.
  rewrite (bind_eq _ _ _ _ _ Hs). cbv beta iota.
  rewrite bind_load_escalation.
  destruct (fst (load_escalation (change_budget_pct a) w2)) as [esc|e]; [|reflexivity].
  cbv zeta.
  destruct (need_ack strategy (delta_pct (original a) (new a)) esc) eqn:Hn.
  - rewrite (bind_eq _ _ _ _ _ (ack_exists_eq _ _)).
    destruct (ack_present (fs w2) (req_path esc)); reflexivity.
  - cbn [negb]. rewrite andb_true_r.
    destruct (delta_pct (original a) (new a) >? change_budget_pct a)%Z; [reflexivity|].
    unfold bind at 1.
    destruct (stage_shadow (new a) w2) as [[[]|e] w3]; [|reflexivity].
    unfold bind at 1.
    destruct (run_tests true w3) as [[ok|e] w4]; [|reflexivity].
    destruct (require_green a && negb ok)%bool; [reflexivity|].
    rewrite bind_print. unfold bind at 1.
    destruct (create_snapshot "auto-repair" _) as [[[]|e] w5]; [|reflexivity].
    rewrite bind_write_text.
    destruct (FS.write_file target_file (Text (new a)) (fs w5)); reflexivity.
Qed.

Theorem run_repair_run strategy w : repair_run strategy w (run_repair strategy w).
Proof.
  destruct (frozen w) eqn:Hf.
  - unfold run_repair. rewrite bind_path_exists. fold (frozen w). rewrite Hf.
    apply RunFrozen; assumption.
  - destruct (prepare strategy w) as [[a|e] w1] eqn:Hp.
    2:{ unfold run_repair. rewrite bind_path_exists. fold (frozen w). rewrite Hf.
        rewrite (bind_eq _ _ _ _ _ Hp). eapply RunPrepareFails; eauto. }
    destruct (scan (new a) w1) as [[hits|e] w2] eqn:Hs.
    2:{ unfold run_repair. rewrite bind_path_exists. fold (frozen w). rewrite Hf.
        rewrite (bind_eq _ _ _ _ _ Hp). cbv beta iota.
        rewrite (bind_eq _ _ _ _ _ Hs). eapply RunScanFails; eauto. }
    destruct hits as [|h hits].
    2:{ unfold run_repair. rewrite bind_path_exists. fold (frozen w). rewrite Hf.
        rewrite (bind_eq _ _ _ _ _ Hp). cbv beta iota.
        rewrite (bind_eq _ _ _ _ _ Hs). cbv beta iota.
        eapply RunBlocked; eauto; discriminate. }
    rewrite (run_repair_after_scan _ _ _ _ _ Hf Hp Hs).
    assert (passes_scan strategy w a w2) as Hps by (split; eauto).
    destruct (fst (load_escalation (change_budget_pct a) w2)) as [esc|e] eqn:He.
    2:{ eapply RunEscalationFails; eauto. }
    cbv zeta.
    destruct (need_ack strategy (delta_pct (original a) (new a)) esc) eqn:Hn.
    { eapply RunEscalation; eauto. }
    destruct (delta_pct (original a) (new a) >? change_budget_pct a)%Z eqn:Hb.
    { eapply RunRejected; eauto. }
    assert (passes_policy strategy w a w2 esc) as Hpp by (repeat split; eauto).
    destruct (stage_shadow (new a) w2) as [[[]|e] w3] eqn:Hst.
    2:{ eapply RunStageFails; eauto. }
    destruct (run_tests true w3) as [[ok|e] w4] eqn:Ht.
    2:{ eapply RunTestsAbort; eauto. }
    destruct (require_green a && negb ok)%bool eqn:Hg.
    { eapply RunTestsFailed; eauto. }
    destruct (create_snapshot "auto-repair" _) as [[[]|e] w5] eqn:Hsn.
    2:{ eapply RunSnapshotFails; eauto. }
    destruct (FS.write_file target_file (Text (new a)) (fs w5)) eqn:Hw.
    + eapply RunCommitted; eauto.
    + eapply RunCommitFails; eauto.
Qed.

Theorem repair_run_complete strategy w o :
  repair_run strategy w o -> run_repair strategy w = o.
Proof.
  intros H.
  destruct H; (* the premises determine the run *)
    repeat match goal with
    | H : passes_policy _ _ _ _ _ |- _ => destruct H as (? & ? & ? & ?)
    | H : passes_scan _ _ _ _ |- _ => destruct H as (? & ? & ? & ?)
    end;
    try (erewrite run_repair_after_scan by eassumption;
         repeat match goal with
         | H : ?x = _ |- context [?x] => rewrite H
         end; cbv zeta;
         repeat match goal with
         | H : ?x = _ |- context [?x] => rewrite H
         end; reflexivity).
  (* the runs that end before the policy checks *)
  all: unfold run_repair; rewrite bind_path_exists;
    repeat match goal with
    | H : frozen ?w0 = _ |- _ => fold (frozen w0); rewrite H; clear H
    | H : prepare _ _ = _ |- _ => rewrite (bind_eq _ _ _ _ _ H); cbv beta iota; clear H
    | H : scan _ _ = _ |- _ => rewrite (bind_eq _ _ _ _ _ H); cbv beta iota; clear H
    end;
    try reflexivity.
  destruct hits; [congruence | reflexivity].
Qed.

End RunRelation.

(** ** Footprints of the phases *)

(** One step of symbolic execution of a run described by hypothesis [H]. *)
Ltac run_step H :=
  lazymatch type of H with
  | bind (bind _ _) _ _ = _ => rewrite bind_assoc in H
  | bind (ret _) _ _ = _ => rewrite bind_ret in H
  | bind (raise _) _ _ = _ => rewrite bind_raise in H
  | bind (path_exists _) _ _ = _ => rewrite bind_path_exists in H
  | bind (print _) _ _ = _ => rewrite bind_print in H
  | bind tick _ _ = _ => rewrite bind_tick in H
  | bind (log _ _ _) _ _ = _ => rewrite bind_log in H
  | bind (write_text ?p ?s) _ ?w = _ =>
      rewrite bind_write_text in H;
      let E := fresh "Hwrite" in destruct (FS.write_file p (Text s) (fs w)) eqn:E
  | bind (mkdir ?p) _ ?w = _ =>
      rewrite bind_mkdir in H;
      let E := fresh "Hmkdir" in destruct (FS.mkdir_p p (fs w)) eqn:E
  | bind (rmtree ?p) _ ?w = _ =>
      rewrite bind_rmtree in H;
      let E := fresh "Hrmtree" in destruct (FS.rmtree p (fs w)) eqn:E
  | bind (unlink ?p) _ ?w = _ =>
      rewrite bind_unlink in H;
      let E := fresh "Hunlink" in destruct (FS.unlink p (fs w)) eqn:E
  | bind (copytree_to ?p) _ ?w = _ =>
      rewrite bind_copytree_to in H;
      let E := fresh "Hcopy" in
      destruct (FS.put p (copy_ignoring (path_name ROOT_parts) (fs w)) (fs w)) eqn:E
  | bind (when ?b _) _ _ = _ =>
      let E := fresh "Hwhen" in destruct b eqn:E; cbn [when] in H
  | bind (if ?b then _ else _) _ _ = _ =>
      let E := fresh "Hif" in destruct b eqn:E
  | bind ?m _ ?w = _ =>
      rewrite (bind_ro m) in H by apply _;
      let E := fresh "Hread" in destruct (fst (m w)) eqn:E
  | (if ?b then _ else _) _ = _ =>
      let E := fresh "Hif" in destruct b eqn:E
  | ret _ _ = _ => unfold ret in H
  | raise _ _ = _ => unfold raise in H
  | print _ _ = _ => unfold print in H
  end; cbv beta iota in H.

Ltac run_steps H := repeat run_step H.

(** Simplifies the projections of explicitly built worlds. *)
Ltac world_simpl :=
  unfold emit_event, emit_events, set_fs, ticked, logged in *;
  cbn [fs audit_log snapshots trace clock] in *.

Section Footprints.

Context `{RT : Runtime}.

Lemma prepare_footprint strategy w r w1 :
  prepare strategy w = (r, w1) ->
  audit_log w1 = audit_log w
  /\ snapshots w1 = snapshots w
  /\ FS.outside ".forge" (fs w) (fs w1)
  /\ exists evs, trace w1 = trace w ++ evs /\ forallb staging_event evs = true.
Proof.
  intros H. unfold prepare, propose in H.
  run_steps H; simplify_eq; world_simpl;
    repeat match goal with
    | H : FS.mkdir_p FORGE_TMP _ = Some _ |- _ => apply FSFacts.mkdir_p_outside in H
    | H : FS.write_file (FORGE_TMP ++ _) _ _ = Some _ |- _ =>
        apply FSFacts.write_file_outside in H
    end;
    (split; [reflexivity|]); (split; [reflexivity|]);
    (split; [eauto using FSFacts.outside_refl, FSFacts.outside_trans|]);
    first [ exists []; split; [symmetry; apply app_nil_r | reflexivity]
          | eexists; split; [reflexivity | reflexivity]
          | eexists; split; [rewrite <- ?app_assoc; reflexivity | reflexivity] ].
Qed.

End Footprints.

Section Footprints2.

Context `{RT : Runtime}.

Lemma bind_archive_members {B} (k : list (string * fdata) -> M B) w :
  bind archive_members k w = k (snapshot_members (fs w)) w.
Proof. reflexivity. Qed.

Lemma bind_insert_snapshot {B} row (k : unit -> M B) w :
  bind (insert_snapshot row) k w
  = k tt (emit_event (EvSnapshotRow row)
            (World (fs w) (audit_log w) (snapshots w ++ [row]) (trace w) (clock w))).
Proof. reflexivity. Qed.

Lemma bind_write_zip {B} p members (k : unit -> M B) w :
  bind (write_zip p members) k w
  = match FS.write_file p (Zip members) (fs w) with
    | Some t => k tt (emit_event (EvZip p members) (set_fs t w))
    | None => (Raise (OSError p), w)
    end.
Proof. unfold bind, write_zip. destruct (FS.write_file p (Zip members) (fs w)); reflexivity. Qed.

(** [create_snapshot] as a function of the world. *)
Lemma create_snapshot_eq label w :
  create_snapshot label w
  = match FS.mkdir_p SNAP_DIR (fs w) with
    | None => (Raise (OSError SNAP_DIR), ticked w)
    | Some t1 =>
        match FS.write_file (snapshot_zip label w) (Zip (snapshot_members t1)) t1 with
        | None => (Raise (OSError (snapshot_zip label w)),
                   emit_event (EvMkdir SNAP_DIR) (set_fs t1 (ticked w)))
        | Some t2 => (Ok tt, snapshotted label t1 t2 w)
        end
    end.
Proof.
  unfold create_snapshot. rewrite bind_tick. cbv zeta.
  rewrite bind_mkdir. cbn [fs ticked].
  destruct (FS.mkdir_p SNAP_DIR (fs w)) as [t1|]; [|reflexivity].
  rewrite bind_archive_members. cbn [fs emit_event set_fs].
  rewrite bind_write_zip. cbn [fs emit_event set_fs clock ticked].
  unfold snapshot_zip.
  destruct (FS.write_file _ _ t1) as [t2|]; [|reflexivity].
  rewrite bind_insert_snapshot, bind_log. unfold print.
  unfold snapshotted, snapshot_events, snapshot_row_of, snapshot_audit, snapshot_zip, logged.
  cbv beta iota delta [fs audit_log snapshots trace clock emit_event set_fs ticked].
  rewrite <- !app_assoc. cbn [app]. reflexivity.
Qed.

Lemma stage_shadow_footprint new w r w3 :
  stage_shadow new w = (r, w3) ->
  audit_log w3 = audit_log w
  /\ snapshots w3 = snapshots w
  /\ clock w3 = clock w
  /\ FS.outside ".forge" (fs w) (fs w3)
  /\ exists evs, trace w3 = trace w ++ evs /\ forallb staging_event evs = true.
Proof.
  intros H. unfold stage_shadow in H.
  run_steps H; simplify_eq; world_simpl;
    repeat match goal with
    | H : FS.rmtree shadow _ = Some _ |- _ => apply FSFacts.rmtree_outside in H
    | H : FS.put shadow _ _ = Some _ |- _ => apply FSFacts.put_outside in H
    | H : FS.write_file (shadow ++ _) _ _ = Some _ |- _ =>
        apply FSFacts.write_file_outside in H
    end;
    (split; [reflexivity|]); (split; [reflexivity|]); (split; [reflexivity|]);
    (split; [eauto using FSFacts.outside_refl, FSFacts.outside_trans|]);
    first [ exists []; split; [symmetry; apply app_nil_r | reflexivity]
          | eexists; split; [reflexivity | reflexivity]
          | eexists; split; [rewrite <- ?app_assoc; reflexivity | reflexivity] ].
Qed.

End Footprints2.

(** ** Strings *)

Module PyFacts.

Lemma append_cons c p b : String c p +:+ b = String c (p +:+ b).
Proof. reflexivity. Qed.

Lemma append_nil b : EmptyString +:+ b = b.
Proof. reflexivity. Qed.

Lemma prefix_spec p s : String.prefix p s = true <-> exists b, s = p +:+ b.
Proof.
  revert s. induction p as [|c p IH]; intros s; simpl.
  - destruct s; split; eauto.
  - destruct s as [|d s]; simpl.
    + split; [discriminate | intros [b Hb]; rewrite append_cons in Hb; discriminate].
    + destruct (ascii_dec c d) as [->|Hcd].
      * rewrite IH. split; intros [b Hb]; exists b; rewrite append_cons in *; congruence.
      * split; [discriminate | intros [b Hb]; rewrite append_cons in *; congruence].
Qed.

Lemma contains_spec p s : Py.contains p s = true <-> substring_of p s.
Proof.
  unfold substring_of. induction s as [|c s IH].
  - change (Py.contains p EmptyString) with (String.prefix p EmptyString || false).
    rewrite orb_false_r, prefix_spec. split.
    + intros [b Hb]. exists EmptyString, b. exact Hb.
    + intros ([|x a] & b & Hb); [exists b; exact Hb | rewrite append_cons in Hb; discriminate].
  - change (Py.contains p (String c s))
      with (String.prefix p (String c s) || Py.contains p s).
    rewrite orb_true_iff, IH, prefix_spec. split.
    + intros [[b Hb]|(a & b & Hb)].
      * exists EmptyString, b. exact Hb.
      * exists (String c a), b. rewrite append_cons. congruence.
    + intros ([|x a] & b & Hb).
      * left. exists b. exact Hb.
      * right. exists a, b. rewrite append_cons in Hb. congruence.
Qed.

Lemma lstrip_empty s : Py.lstrip s = EmptyString <-> blank s = true.
Proof.
  induction s as [|c s IH]; simpl; [tauto|].
  destruct (Py.isspace c); simpl; [exact IH | split; discriminate].
Qed.

Lemma rstrip_empty s : Py.rstrip s = EmptyString <-> blank s = true.
Proof.
  induction s as [|c s IH]; simpl; [tauto|].
  destruct (Py.rstrip s) eqn:E.
  - destruct (Py.isspace c); simpl.
    + split; [intros _; apply IH; reflexivity | reflexivity].
    + split; discriminate.
  - split; [discriminate|]. intros H. apply andb_true_iff in H as [_ H].
    apply IH in H. discriminate.
Qed.

Lemma blank_rstrip s : blank (Py.rstrip s) = true -> Py.rstrip s = EmptyString.
Proof.
  induction s as [|c s IH]; simpl; [reflexivity|].
  destruct (Py.rstrip s) eqn:E.
  - destruct (Py.isspace c) eqn:Hc; simpl; [reflexivity|]. rewrite Hc. discriminate.
  - simpl. intros H. apply andb_true_iff in H as [_ H].
    simpl in IH. specialize (IH H). discriminate.
Qed.

Lemma strip_empty s : Py.strip s = EmptyString <-> blank s = true.
Proof.
  unfold Py.strip. rewrite lstrip_empty. split.
  - intros H. apply rstrip_empty, blank_rstrip, H.
  - intros H. apply rstrip_empty in H. rewrite H. reflexivity.
Qed.

Lemma truthy_strip s : Py.truthy (Py.strip s) = negb (blank s).
Proof.
  destruct (blank s) eqn:E.
  - apply strip_empty in E. rewrite E. reflexivity.
  - destruct (Py.strip s) eqn:F; [|reflexivity].
    apply strip_empty in F. congruence.
Qed.

(** *** Lines *)

Lemma append_assoc (a b c : string) : (a +:+ b) +:+ c = a +:+ (b +:+ c).
Proof. induction a as [|x a IH]; [reflexivity|]. rewrite !append_cons, IH. reflexivity. Qed.

Lemma append_empty (a : string) : a +:+ EmptyString = a.
Proof. induction a as [|x a IH]; [reflexivity|]. rewrite append_cons, IH. reflexivity. Qed.

Lemma substring_refl s : substring_of s s.
Proof. exists EmptyString, EmptyString. rewrite append_nil, append_empty. reflexivity. Qed.

Lemma substring_prefix p b : substring_of p (p +:+ b).
Proof. exists EmptyString, b. reflexivity. Qed.

Lemma substring_prepend x p s : substring_of p s -> substring_of p (x +:+ s).
Proof.
  intros (a & b & ->). exists (x +:+ a), b. rewrite append_assoc. reflexivity.
Qed.

Lemma substring_trans p q s : substring_of p q -> substring_of q s -> substring_of p s.
Proof.
  intros (a & b & ->) (a' & b' & ->). exists (a' +:+ a), (b +:+ b').
  rewrite !append_assoc. reflexivity.
Qed.

Lemma splitlines_go_plain s : forall cur r,
  no_linebreak s = true ->
  Py.splitlines_go cur (s +:+ r) = Py.splitlines_go (cur +:+ s) r.
Proof.
  induction s as [|c s IH]; intros cur r H.
  - rewrite append_nil, append_empty. reflexivity.
  - cbn [no_linebreak] in H. apply andb_true_iff in H as [Hc Hs].
    apply negb_true_iff in Hc.
    rewrite append_cons. cbn [Py.splitlines_go]. rewrite Hc.
    rewrite IH by exact Hs. rewrite append_assoc. reflexivity.
Qed.

(** Every line of a text occurs in the text. *)
Lemma splitlines_go_sub n : forall s cur ln,
  (String.length s <= n)%nat ->
  In ln (Py.splitlines_go cur s) -> substring_of ln (cur +:+ s).
Proof.
  induction n as [|n IH]; intros s cur ln Hn Hin.
  - destruct s; [|simpl in Hn; lia]. rewrite append_empty.
    cbn [Py.splitlines_go] in Hin. destruct cur; [destruct Hin|].
    destruct Hin as [<-|[]]. apply substring_refl.
  - destruct s as [|c r].
    + rewrite append_empty.
      cbn [Py.splitlines_go] in Hin. destruct cur; [destruct Hin|].
      destruct Hin as [<-|[]]. apply substring_refl.
    + cbn [String.length] in Hn. cbn [Py.splitlines_go] in Hin.
      destruct (Py.is_linebreak c).
      * assert (In ln (Py.splitlines_go EmptyString r) -> substring_of ln (cur +:+ String c r)) as Hr.
        { intros H. apply (IH r EmptyString) in H; [|lia]. rewrite append_nil in H.
          apply substring_prepend. apply (substring_prepend (String c EmptyString) ln r), H. }
        destruct r as [|c2 r2]; [destruct Hin as [<-|Hin]; [apply substring_prefix | auto]|].
        destruct ((Py.ord c =? 13) && (Py.ord c2 =? 10))%N.
        -- destruct Hin as [<-|Hin]; [apply substring_prefix|].
           apply (IH r2 EmptyString) in Hin; [|cbn [String.length] in Hn; lia].
           rewrite append_nil in Hin. apply substring_prepend.
           apply (substring_prepend (String c (String c2 EmptyString)) ln r2), Hin.
        -- destruct Hin as [<-|Hin]; [apply substring_prefix | auto].
      * apply IH in Hin; [|lia]. rewrite append_assoc in Hin. exact Hin.
Qed.

Lemma splitlines_sub s ln : In ln (Py.splitlines s) -> substring_of ln s.
Proof. intros H. apply (splitlines_go_sub (String.length s) s EmptyString ln); [lia | exact H]. Qed.

(** The lines of a text followed by a fresh last line [T]. *)
Lemma splitlines_go_touch T n : forall o cur,
  no_linebreak T = true -> T <> EmptyString ->
  (String.length o <= n)%nat ->
  exists pre, Py.splitlines_go cur (o +:+ nl +:+ T +:+ nl) = pre ++ [T]
              /\ forall ln, In ln pre -> substring_of ln (cur +:+ o).
Proof.
  intros o cur HT HT0. revert o cur.
  assert (forall cur, Py.splitlines_go cur (nl +:+ T +:+ nl) = [cur; T]) as Hbase.
  { intros cur. unfold nl at 1. rewrite append_cons, append_nil.
    cbn [Py.splitlines_go]. change (Py.is_linebreak "010") with true. cbv iota.
    destruct T as [|t0 T']; [congruence|]. rewrite (append_cons t0 T').
    change ((Py.ord "010" =? 13) && (Py.ord t0 =? 10))%N with false. cbv iota.
    rewrite <- (append_cons t0 T'). rewrite splitlines_go_plain by exact HT.
    rewrite append_nil. unfold nl. cbn [Py.splitlines_go].
    change (Py.is_linebreak "010") with true. cbv iota. reflexivity. }
  assert (Py.splitlines_go EmptyString (T +:+ nl) = [T]) as HT1.
  { rewrite splitlines_go_plain by exact HT.
    rewrite append_nil. unfold nl. cbn [Py.splitlines_go].
    change (Py.is_linebreak "010") with true. cbv iota. reflexivity. }
  induction n as [|n IH]; intros o cur Hn.
  - destruct o; [|simpl in Hn; lia]. rewrite append_nil, Hbase.
    exists [cur]. split; [reflexivity|]. intros ln [<-|[]]. apply substring_prefix.
  - destruct o as [|c o].
    + rewrite append_nil, Hbase.
      exists [cur]. split; [reflexivity|]. intros ln [<-|[]]. apply substring_prefix.
    + cbn [String.length] in Hn. rewrite append_cons. cbn [Py.splitlines_go].
      destruct (Py.is_linebreak c).
      * assert (exists pre, cur :: Py.splitlines_go EmptyString (o +:+ nl +:+ T +:+ nl) = pre ++ [T]
                  /\ forall ln, In ln pre -> substring_of ln (cur +:+ String c o)) as Hr.
        { destruct (IH o EmptyString) as (pre & E & Hp); [lia|].
          exists (cur :: pre). rewrite E. split; [reflexivity|].
          intros ln [<-|Hin]; [apply substring_prefix|].
          apply Hp in Hin. rewrite append_nil in Hin.
          apply substring_prepend. apply (substring_prepend (String c EmptyString) ln o), Hin. }
        destruct o as [|c2 o2].
        -- rewrite append_nil. unfold nl at 1. rewrite append_cons, append_nil.
           destruct ((Py.ord c =? 13) && (Py.ord "010" =? 10))%N.
           ++ rewrite HT1. exists [cur]. split; [reflexivity|].
              intros ln [<-|[]]. apply substring_prefix.
           ++ rewrite append_nil in Hr. unfold nl at 1 in Hr.
              rewrite append_cons, append_nil in Hr. exact Hr.
        -- rewrite append_cons.
           destruct ((Py.ord c =? 13) && (Py.ord c2 =? 10))%N.
           ++ destruct (IH o2 EmptyString) as (pre & E & Hp); [cbn [String.length] in Hn; lia|].
              exists (cur :: pre). rewrite E. split; [reflexivity|].
              intros ln [<-|Hin]; [apply substring_prefix|].
              apply Hp in Hin. rewrite append_nil in Hin.
              apply substring_prepend.
              apply (substring_prepend (String c (String c2 EmptyString)) ln o2), Hin.
           ++ rewrite <- append_cons. exact Hr.
      * destruct (IH o (cur +:+ String c EmptyString)) as (pre & E & Hp); [lia|].
        exists pre. split; [exact E|]. intros ln Hin. apply Hp in Hin.
        rewrite append_assoc in Hin. exact Hin.
Qed.

Lemma filter_none {A} (f : A -> bool) l :
  (forall x, In x l -> f x = false) -> List.filter f l = [].
Proof.
  induction l as [|x l IH]; intros H; [reflexivity|]. cbn [List.filter].
  rewrite (H x) by (left; reflexivity). apply IH. intros y Hy. apply H. right. exact Hy.
Qed.

Lemma no_linebreak_app a b :
  no_linebreak (a +:+ b) = (no_linebreak a && no_linebreak b)%bool.
Proof.
  induction a as [|c a IH]; [reflexivity|]. rewrite append_cons. cbn [no_linebreak].
  rewrite IH, andb_assoc. reflexivity.
Qed.

(** A proposal equal to the original adds no line. *)
Lemma added_lines_same o : added_lines o o = [].
Proof.
  unfold added_lines. apply filter_none. intros ln Hin.
  apply splitlines_sub, contains_spec in Hin. rewrite Hin, andb_false_r. reflexivity.
Qed.

Lemma absent_lines_same o : absent_lines o o = [].
Proof.
  unfold absent_lines. apply filter_none. intros ln Hin.
  apply splitlines_sub, contains_spec in Hin. rewrite Hin. reflexivity.
Qed.

(** The lines of a touched text: lines that occur in the original,
    then the marker line, which is not blank and does not occur in it. *)
Lemma touch_lines o iso :
  no_linebreak iso = true ->
  Py.contains "# auto-repair touch" o = false ->
  let T := "# auto-repair touch: " +:+ iso in
  exists pre,
    Py.splitlines (o +:+ nl +:+ "# auto-repair touch: " +:+ iso +:+ nl) = pre ++ [T]
    /\ (forall ln, In ln pre -> Py.contains ln o = true)
    /\ Py.contains T o = false
    /\ blank T = false.
Proof.
  intros Hiso Hfresh T.
  replace ("# auto-repair touch: " +:+ iso +:+ nl) with (T +:+ nl)
    by (subst T; apply append_assoc).
  assert (no_linebreak T = true) as HT.
  { subst T. rewrite no_linebreak_app, Hiso. reflexivity. }
  assert (T <> EmptyString) as HT0 by (subst T; discriminate).
  destruct (splitlines_go_touch T (String.length o) o EmptyString HT HT0 (le_n _))
    as (pre & E & Hpre).
  exists pre. split; [exact E|]. split; [|split; [|reflexivity]].
  - intros ln Hin. apply Hpre in Hin. rewrite append_nil in Hin.
    apply contains_spec, Hin.
  - destruct (Py.contains T o) eqn:Hc; [exfalso|reflexivity].
    apply contains_spec in Hc.
    assert (substring_of "# auto-repair touch" T) as Hm.
    { exists EmptyString, (": " +:+ iso). reflexivity. }
    pose proof (substring_trans _ _ _ Hm Hc) as Hs.
    apply contains_spec in Hs. congruence.
Qed.

(** The touch of [run_repair] adds exactly its marker line. *)
Lemma added_lines_touch o iso :
  no_linebreak iso = true ->
  Py.contains "# auto-repair touch" o = false ->
  added_lines o (o +:+ nl +:+ "# auto-repair touch: " +:+ iso +:+ nl)
  = ["# auto-repair touch: " +:+ iso].
Proof.
  intros Hiso Hfresh.
  destruct (touch_lines o iso Hiso Hfresh) as (pre & E & Hpre & Hc & Hb).
  unfold added_lines. rewrite E, List.filter_app, filter_none.
  - cbn [List.filter app]. rewrite truthy_strip, Hb, Hc. reflexivity.
  - intros ln Hin. rewrite (Hpre _ Hin), andb_false_r. reflexivity.
Qed.

Lemma absent_lines_touch o iso :
  no_linebreak iso = true ->
  Py.contains "# auto-repair touch" o = false ->
  absent_lines o (o +:+ nl +:+ "# auto-repair touch: " +:+ iso +:+ nl)
  = ["# auto-repair touch: " +:+ iso].
Proof.
  intros Hiso Hfresh.
  destruct (touch_lines o iso Hiso Hfresh) as (pre & E & Hpre & Hc & _).
  unfold absent_lines. rewrite E, List.filter_app, filter_none.
  - cbn [List.filter app]. rewrite Hc. reflexivity.
  - intros ln Hin. rewrite (Hpre _ Hin). reflexivity.
Qed.

End PyFacts.

(** ** The added lines of a proposal *)

(** C10. A line of the proposal counts as added exactly when it is not
    blank (it is non-empty after stripping whitespace) and does not occur
    as a contiguous substring of the original text: blank lines never
    count, and neither does a line that occurs inside the original, even
    inside a longer line; the percentage is computed from the number of
    lines so counted. *)
Theorem added_lines_counts (original new : string) :
  added_lines original new
  = List.filter (fun ln => negb (blank ln) && negb (Py.contains ln original))
                (Py.splitlines new)
  /\ (forall ln, In ln (added_lines original new)
                 <-> In ln (Py.splitlines new) /\ blank ln = false
                     /\ ~ substring_of ln original)
  /\ (forall ln, blank ln = true -> ~ In ln (added_lines original new))
  /\ (forall ln, substring_of ln original -> ~ In ln (added_lines original new))
  /\ delta_pct original new
     = pct_of (Z.of_nat (List.length (added_lines original new))) (base_lines original).
Proof.
  assert (forall ln, In ln (added_lines original new)
                     <-> In ln (Py.splitlines new) /\ blank ln = false
                         /\ ~ substring_of ln original) as Hin.
  { intros ln. unfold added_lines. rewrite filter_In, andb_true_iff.
    rewrite PyFacts.truthy_strip, !negb_true_iff.
    rewrite <- PyFacts.contains_spec.
    destruct (Py.contains ln original); intuition congruence. }
  split; [|split; [exact Hin|split; [|split]]].
  - unfold added_lines. apply filter_ext. intros ln.
    rewrite PyFacts.truthy_strip. reflexivity.
  - intros ln Hb H. apply Hin in H. destruct H as (_ & H & _). congruence.
  - intros ln Hs H. apply Hin in H. tauto.
  - reflexivity.
Qed.

Example added_lines_example :
  added_lines ("alpha beta gamma" +:+ nl)
              ("alpha beta gamma" +:+ nl +:+ "beta" +:+ nl +:+ "   " +:+ nl +:+ "delta" +:+ nl)
  = ["delta"].
Proof. reflexivity. Qed.

(** ** The test gate *)

Section TestGate.

Context `{RT : Runtime}.

Lemma new_events_app w w' evs : trace w' = trace w ++ evs -> new_events w w' = evs.
Proof. intros H. unfold new_events. rewrite H. apply drop_app_length. Qed.

Lemma forallb_false {A} (f : A -> bool) l x :
  In x l -> f x = false -> forallb f l = false.
Proof.
  intros Hin Hf. destruct (forallb f l) eqn:E; [|reflexivity].
  rewrite forallb_forall in E. rewrite (E x Hin) in Hf. discriminate.
Qed.

Lemma staging_no_exec evs : forallb staging_event evs = true -> executed evs = [].
Proof.
  induction evs as [|e evs IH]; [reflexivity|]. cbn [forallb].
  intros H. apply andb_true_iff in H as [He H].
  destruct e; try discriminate; cbn [executed]; auto.
Qed.

Lemma executed_app l1 l2 : executed (l1 ++ l2) = executed l1 ++ executed l2.
Proof.
  induction l1 as [|e l1 IH]; [reflexivity|].
  destruct e; simpl; rewrite ?IH; reflexivity.
Qed.

Lemma units_result_no_abort t units ok :
  existsb aborts (map (fun file => exec_unit t (TESTS_DIR ++ [file])) units) = false ->
  units_result t units ok
  = Ok (ok && forallb unit_verdict (map (fun file => exec_unit t (TESTS_DIR ++ [file])) units)).
Proof.
  revert ok. induction units as [|file rest IH]; intros ok H;
    cbn [units_result map existsb forallb] in *.
  - rewrite andb_true_r. reflexivity.
  - apply orb_false_iff in H as [Ha Hr].
    destruct (exec_unit t (TESTS_DIR ++ [file])); cbn [aborts unit_verdict] in *;
      try discriminate; rewrite IH by assumption; f_equal;
      destruct ok; cbn [andb]; rewrite ?andb_true_r; reflexivity.
Qed.

Lemma units_events_no_abort silent t units :
  existsb aborts (map (fun file => exec_unit t (TESTS_DIR ++ [file])) units) = false ->
  executed (units_events silent t units) = map (fun file => TESTS_DIR ++ [file]) units.
Proof.
  induction units as [|file rest IH]; intros H;
    cbn [units_events map existsb executed] in *; [reflexivity|].
  apply orb_false_iff in H as [Ha Hr].
  destruct (exec_unit t (TESTS_DIR ++ [file])); cbn [aborts] in *; try discriminate;
    rewrite executed_app, IH by assumption; destruct silent; reflexivity.
Qed.

Lemma units_abort silent t pre file post what ok :
  existsb aborts (map (fun f => exec_unit t (TESTS_DIR ++ [f])) pre) = false ->
  exec_unit t (TESTS_DIR ++ [file]) = Aborted what ->
  units_result t (pre ++ file :: post) ok = Raise (Escaped what)
  /\ executed (units_events silent t (pre ++ file :: post))
     = map (fun f => TESTS_DIR ++ [f]) (pre ++ [file]).
Proof.
  revert ok. induction pre as [|f pre IH]; intros ok H Hf;
    cbn [units_result units_events map existsb executed app] in *.
  - rewrite Hf. split; reflexivity.
  - apply orb_false_iff in H as [Ha Hr].
    destruct (exec_unit t (TESTS_DIR ++ [f])); cbn [aborts] in *; try discriminate;
      (split; [apply IH; assumption|]);
      rewrite executed_app; destruct silent; cbn [executed app]; f_equal;
      apply (IH true); assumption.
Qed.

Lemma units_events_faulted t units file msg :
  existsb aborts (map (fun f => exec_unit t (TESTS_DIR ++ [f])) units) = false ->
  In file units ->
  exec_unit t (TESTS_DIR ++ [file]) = Faulted msg ->
  In (EvPrint (MsgTestExc (stem file) msg)) (units_events false t units).
Proof.
  induction units as [|f rest IH]; intros H Hin Hf;
    cbn [units_events map existsb In] in *; [contradiction|].
  apply orb_false_iff in H as [Ha Hr]. right.
  destruct Hin as [->|Hin].
  - rewrite Hf. left. reflexivity.
  - destruct (exec_unit t (TESTS_DIR ++ [f])); cbn [aborts app] in *; try discriminate;
      right; apply IH; assumption.
Qed.

(** C8, amended. When no unit raises a [BaseException] outside
    [Exception], [run_tests] returns normally; every discovered unit is
    loaded, in sorted order; a unit that raises an [Exception] counts as
    failed, its message being printed unless the run is silent; the
    verdict is the conjunction of the verdicts of all units, and it is
    true when no unit is discovered. A unit that raises [SystemExit] or
    another [BaseException] outside [Exception] is not caught: the
    exception reaches the caller and the later units are not loaded. *)
Theorem run_tests_verdict silent w :
  let t := fs w in
  let units := glob_tests t TESTS_DIR in
  let evs := new_events w (snd (run_tests silent w)) in
  (existsb aborts (unit_outcomes t) = false ->
     fst (run_tests silent w) = Ok (forallb unit_verdict (unit_outcomes t))
     /\ executed evs = map (fun file => TESTS_DIR ++ [file]) units
     /\ (forall file msg, In file units ->
           exec_unit t (TESTS_DIR ++ [file]) = Faulted msg ->
           forallb unit_verdict (unit_outcomes t) = false
           /\ (silent = false -> In (EvPrint (MsgTestExc (stem file) msg)) evs)))
  /\ (units = [] -> fst (run_tests silent w) = Ok true)
  /\ (forall pre file post what,
        units = pre ++ file :: post ->
        existsb aborts (map (fun f => exec_unit t (TESTS_DIR ++ [f])) pre) = false ->
        exec_unit t (TESTS_DIR ++ [file]) = Aborted what ->
        fst (run_tests silent w) = Raise (Escaped what)
        /\ executed evs = map (fun f => TESTS_DIR ++ [f]) (pre ++ [file])).
Proof.
  cbv zeta. rewrite run_tests_eq. cbn [fst snd].
  erewrite new_events_app by (unfold emit_events; cbn [trace]; reflexivity).
  unfold unit_outcomes. split; [|split].
  - intros H. split; [|split].
    + rewrite units_result_no_abort by assumption. reflexivity.
    + apply units_events_no_abort; assumption.
    + intros file msg Hin Hf. split.
      * apply forallb_false with (x := Faulted msg); [|reflexivity].
        rewrite <- Hf. apply in_map with (f := fun f => exec_unit (fs w) (TESTS_DIR ++ [f])).
        assumption.
      * intros ->. apply units_events_faulted; assumption.
  - intros ->. reflexivity.
  - intros pre file post what -> Hpre Hf.
    apply units_abort; assumption.
Qed.

End TestGate.

(** ** The content scan *)

Section ContentScan.

Context `{RT : Runtime}.

Lemma load_patterns_eq w :
  fst (_load_repair_policy_patterns w)
  = match FS.lookup (fs w) policy_yaml with
    | None => Ok builtin_patterns
    | Some (File (Text text)) =>
        Ok (omap policy_line_pattern (Py.splitlines text) ++ builtin_patterns)
    | Some _ => Raise (OSError policy_yaml)
    end.
Proof.
  unfold _load_repair_policy_patterns. cbv zeta. fold policy_yaml.
  rewrite bind_path_exists. unfold FS.exists_, read_text.
  destruct (FS.lookup (fs w) policy_yaml) as [[[text|]|]|] eqn:E.
  - rewrite bind_assoc. unfold bind at 1. rewrite E. reflexivity.
  - rewrite bind_assoc. unfold bind at 1. rewrite E. reflexivity.
  - rewrite bind_assoc. unfold bind at 1. rewrite E. reflexivity.
  - reflexivity.
Qed.

Lemma hits_of_spec new pats pat :
  In pat (hits_of new pats)
  <-> In pat pats /\ re_compiles pat = true /\ re_search pat new = true.
Proof. unfold hits_of. rewrite !filter_In. tauto. Qed.

Lemma first_fault_at pre pat post what :
  (forall q, In q pre -> re_fault q = None) ->
  re_fault pat = Some what ->
  first_fault (pre ++ pat :: post) = Some (pre, what).
Proof.
  intros Hpre Hpat. induction pre as [|q pre IH]; cbn [app first_fault].
  - rewrite Hpat. reflexivity.
  - rewrite (Hpre q (or_introl eq_refl)), IH; [reflexivity|].
    intros x Hx. apply Hpre. right. exact Hx.
Qed.

(** C6, amended. The patterns scanned are those of the policy file
    followed by the built-in safety rails, whatever the file holds and
    also when it is missing. A pattern that [re.compile] rejects with
    [re.error] is skipped with a printed warning and the scan goes on:
    when [re.compile] raises no other exception on a loaded pattern, the
    hits are exactly the loaded patterns that compile and match the whole
    proposal. When [re.compile] raises another exception on a loaded
    pattern, the scan ends with that exception after the warnings for the
    patterns in front of it, and so does the attempt: it writes no audit
    row and no snapshot, changes nothing outside [.forge] and loads no
    test unit. When there is a hit, the attempt ends with status 2 and one
    audit row that names all the hits. *)
Theorem content_scan_blocks :
  (forall w pats,
     fst (_load_repair_policy_patterns w) = Ok pats ->
     exists loaded, pats = loaded ++ builtin_patterns)
  /\ (forall w,
        match FS.lookup (fs w) policy_yaml with
        | None | Some (File (Text _)) =>
            exists pats, fst (_load_repair_policy_patterns w) = Ok pats
        | _ => True
        end)
  /\ (forall new w pats,
        fst (_load_repair_policy_patterns w) = Ok pats ->
        (forall pat, In pat pats -> re_fault pat = None) ->
        scan new w = (Ok (hits_of new pats), emit_events (warnings pats) w)
        /\ (forall pat, In pat pats -> re_compiles pat = false ->
              In (EvPrint (MsgWarnInvalidRegex pat)) (warnings pats)
              /\ ~ In pat (hits_of new pats))
        /\ (forall pat, In pat (hits_of new pats)
              <-> In pat pats /\ re_compiles pat = true /\ re_search pat new = true))
  /\ (forall new w pre pat post what,
        fst (_load_repair_policy_patterns w) = Ok (pre ++ pat :: post) ->
        (forall q, In q pre -> re_fault q = None) ->
        re_fault pat = Some what ->
        scan new w = (Raise (ReFault what), emit_events (warnings pre) w))
  /\ (forall strategy w a w1 e w2,
        frozen w = false ->
        prepare strategy w = (Ok a, w1) ->
        scan (new a) w1 = (Raise e, w2) ->
        run_repair strategy w = (Raise e, w2)
        /\ audit_log w2 = audit_log w
        /\ snapshots w2 = snapshots w
        /\ FS.outside ".forge" (fs w) (fs w2)
        /\ executed (new_events w w2) = [])
  /\ (forall strategy w a w1 hits w2,
        frozen w = false ->
        prepare strategy w = (Ok a, w1) ->
        scan (new a) w1 = (Ok hits, w2) ->
        hits <> [] ->
        exists w',
          run_repair strategy w = (Ok 2%Z, w')
          /\ audit_log w'
             = audit_log w
               ++ [AuditRow (now_iso (clock w2)) "warden" "block" (block_detail hits)]
          /\ In (EvPrint (MsgBlock hits)) (trace w')).
Proof.
  split; [|split; [|split; [|split; [|split]]]].
  - intros w pats. rewrite load_patterns_eq.
    destruct (FS.lookup (fs w) policy_yaml) as [[[text|]|]|]; intros H; simplify_eq.
    + eexists; reflexivity.
    + exists []; reflexivity.
  - intros w. pose proof (load_patterns_eq w) as H.
    destruct (FS.lookup (fs w) policy_yaml) as [[[text|]|]|]; eauto.
  - intros new w pats H Hnf. apply first_fault_none in Hnf.
    rewrite scan_eq, H, Hnf. split; [reflexivity|]. split.
    + intros pat Hin Hc. split.
      * unfold warnings. apply in_map with (f := fun p => EvPrint (MsgWarnInvalidRegex p)).
        apply filter_In. rewrite Hc. split; [assumption | reflexivity].
      * rewrite hits_of_spec. intros (_ & Hc' & _). congruence.
    + apply hits_of_spec.
  - intros new w pre pat post what H Hpre Hpat.
    rewrite scan_eq, H, (first_fault_at _ _ _ _ Hpre Hpat). reflexivity.
  - intros strategy w a w1 e w2 Hf Hp Hs.
    split; [apply repair_run_complete; eapply RunScanFails; eassumption|].
    destruct (prepare_footprint _ _ _ _ Hp) as (Ha & Hsn & Ho & evs & Ht & He).
    destruct (scan_trace _ _ _ _ Hs) as (Hf' & Ha' & Hsn' & evs' & Ht' & He').
    rewrite Ha', Hsn', Hf'. repeat (split; [assumption|]).
    assert (trace w2 = trace w ++ (evs ++ evs')) as Htr
        by (rewrite Ht', Ht, <- app_assoc; reflexivity).
    rewrite (new_events_app _ _ _ Htr), executed_app.
    rewrite (staging_no_exec _ He), (staging_no_exec _ He'). reflexivity.
  - intros strategy w a w1 hits w2 Hf Hp Hs Hh.
    eexists. split.
    + apply repair_run_complete. eapply RunBlocked; eassumption.
    + destruct (prepare_footprint _ _ _ _ Hp) as (Ha & _).
      destruct (scan_trace _ _ _ _ Hs) as (_ & Ha' & _).
      world_simpl. rewrite Ha', Ha. split; [reflexivity|].
      apply in_app_iff. left. apply in_app_iff. right. left. reflexivity.
Qed.

End ContentScan.

(** ** Status codes and audit rows *)

Section Statuses.

Context `{RT : Runtime}.

Lemma scan_footprint new w r w2 :
  scan new w = (r, w2) ->
  fs w2 = fs w /\ audit_log w2 = audit_log w /\ snapshots w2 = snapshots w
  /\ clock w2 = clock w
  /\ exists evs, trace w2 = trace w ++ evs /\ forallb staging_event evs = true.
Proof.
  rewrite scan_eq. destruct (fst (_load_repair_policy_patterns w)) as [pats|e];
    [destruct (first_fault pats) as [[pre what]|]|];
    intros H; simplify_eq; world_simpl; repeat (split; [reflexivity|]).
  - eexists; split; [reflexivity|]. unfold warnings.
    apply forallb_forall. intros e He. apply in_map_iff in He as (p & <- & _). reflexivity.
  - eexists; split; [reflexivity|]. unfold warnings.
    apply forallb_forall. intros e He. apply in_map_iff in He as (p & <- & _). reflexivity.
  - exists []. split; [symmetry; apply app_nil_r | reflexivity].
Qed.

Lemma passes_scan_footprint strategy w a w2 :
  passes_scan strategy w a w2 ->
  audit_log w2 = audit_log w
  /\ snapshots w2 = snapshots w
  /\ FS.outside ".forge" (fs w) (fs w2)
  /\ exists evs, trace w2 = trace w ++ evs /\ forallb staging_event evs = true.
Proof.
  intros (_ & w1 & Hp & Hs).
  destruct (prepare_footprint _ _ _ _ Hp) as (Ha & Hsn & Ho & evs & Ht & He).
  destruct (scan_footprint _ _ _ _ Hs) as (Hf' & Ha' & Hsn' & _ & evs' & Ht' & He').
  rewrite Ha', Hsn', Hf', Ht', Ht. repeat (split; [assumption|]).
  exists (evs ++ evs'). rewrite app_assoc. split; [reflexivity|].
  rewrite forallb_app, He, He'. reflexivity.
Qed.

Lemma run_tests_footprint silent w r w4 :
  run_tests silent w = (r, w4) ->
  fs w4 = fs w /\ audit_log w4 = audit_log w /\ snapshots w4 = snapshots w
  /\ clock w4 = clock w
  /\ trace w4 = trace w ++ units_events silent (fs w) (glob_tests (fs w) TESTS_DIR).
Proof. rewrite run_tests_eq. intros H; simplify_eq. world_simpl. repeat split. Qed.

Lemma create_snapshot_ok label w w5 :
  create_snapshot label w = (Ok tt, w5) ->
  exists t1 t2,
    FS.mkdir_p SNAP_DIR (fs w) = Some t1
    /\ FS.write_file (snapshot_zip label w) (Zip (snapshot_members t1)) t1 = Some t2
    /\ w5 = snapshotted label t1 t2 w.
Proof.
  rewrite create_snapshot_eq.
  destruct (FS.mkdir_p SNAP_DIR (fs w)) as [t1|]; [|discriminate].
  destruct (FS.write_file _ _ t1) as [t2|] eqn:E; [|discriminate].
  intros H; simplify_eq. eauto.
Qed.

End Statuses.

(** Collects the footprints of the phases named in the hypotheses. *)
Ltac footprints :=
  repeat match goal with
  | H : passes_policy _ _ _ _ _ |- _ => destruct H as (? & ? & ? & ?)
  end;
  try match goal with
  | H : passes_scan _ _ _ _ |- _ =>
      destruct (passes_scan_footprint _ _ _ _ H) as (? & ? & ? & ? & ? & ?)
  end;
  try match goal with
  | H : prepare _ _ = _ |- _ =>
      destruct (prepare_footprint _ _ _ _ H) as (? & ? & ? & ? & ? & ?)
  end;
  try match goal with
  | H : scan _ _ = _ |- _ =>
      destruct (scan_footprint _ _ _ _ H) as (? & ? & ? & ? & ? & ? & ?)
  end;
  try match goal with
  | H : stage_shadow _ _ = _ |- _ =>
      destruct (stage_shadow_footprint _ _ _ _ H) as (? & ? & ? & ? & ? & ? & ?)
  end;
  try match goal with
  | H : run_tests _ _ = _ |- _ =>
      destruct (run_tests_footprint _ _ _ _ H) as (? & ? & ? & ? & ?)
  end;
  try match goal with
  | H : create_snapshot _ _ = (Ok _, _) |- _ =>
      apply create_snapshot_ok in H as (? & ? & ? & ? & ->)
  end.

Ltac rewrite_audit :=
  repeat match goal with
  | H : audit_log _ = _ |- _ => rewrite H; clear H
  end.

Ltac rewrite_trace :=
  repeat match goal with
  | H : trace _ = _ |- _ => rewrite H; clear H
  end.

Section AuditRows.

Context `{RT : Runtime}.

(** The audit rows a completed attempt adds. *)
Lemma repair_run_audit strategy w r w' :
  repair_run strategy w (Ok r, w') ->
  match r with
  | 1%Z => audit_log w' = audit_log w
  | 2%Z => exists ts hits,
      hits <> [] /\ audit_log w' = audit_log w ++ [AuditRow ts "warden" "block" (block_detail hits)]
  | 3%Z => exists ts pct budget,
      audit_log w'
      = audit_log w ++ [AuditRow ts "warden" "reject_change_budget" (reject_detail pct budget)]
  | 4%Z => exists ts,
      audit_log w' = audit_log w ++ [AuditRow ts "tester" "fail" (Plain "golden")]
  | 5%Z => exists a w2 esc,
      passes_scan strategy w a w2
      /\ fst (load_escalation (change_budget_pct a) w2) = Ok esc
      /\ need_ack strategy (delta_pct (original a) (new a)) esc = true
      /\ audit_log w'
         = if ack_present (fs w2) (req_path esc) then audit_log w
           else audit_log w
                ++ [AuditRow (now_iso (clock w2)) "warden" "escalation_required"
                      (escalation_detail strategy (delta_pct (original a) (new a)) esc)]
  | 0%Z => exists ts1 zip ts2 added,
      audit_log w'
      = audit_log w ++ [AuditRow ts1 "forge" "snapshot" (snapshot_detail "auto-repair" zip);
                        AuditRow ts2 "rewriter" "apply" (apply_detail added)]
  | _ => False
  end.
Proof.
  intros H. inversion H; subst; clear H.
  - reflexivity.
  - footprints. world_simpl. rewrite_audit. eauto.
  - exists a, w2, esc. repeat (split; [assumption|]).
    footprints. destruct (ack_present (fs w2) (req_path esc));
      world_simpl; rewrite_audit; reflexivity.
  - footprints. world_simpl. rewrite_audit. eauto.
  - footprints. world_simpl. rewrite_audit. eauto.
  - footprints. unfold snapshotted, snapshot_audit. world_simpl.
    rewrite_audit. rewrite <- app_assoc. cbn [app]. eauto 10.
Qed.

End AuditRows.

Section StatusTheorems.

Context `{RT : Runtime}.

Lemma run_repair_frozen strategy w :
  frozen w = true ->
  run_repair strategy w = (Ok 1%Z, emit_event (EvPrint MsgFrozen) w).
Proof. intros H. apply repair_run_complete, RunFrozen, H. Qed.

Lemma repeat_repair_frozen n strategy w :
  frozen w = true ->
  repeat_repair n strategy w
  = (Ok (repeat 1%Z n), emit_events (repeat (EvPrint MsgFrozen) n) w).
Proof.
  revert w. induction n as [|n IH]; intros w H.
  - cbn [repeat_repair repeat]. unfold ret. rewrite emit_events_nil. reflexivity.
  - cbn [repeat_repair repeat].
    rewrite (bind_eq _ _ _ _ _ (run_repair_frozen strategy w H)). cbv beta iota.
    rewrite (bind_eq _ _ _ _ _ (IH (emit_event (EvPrint MsgFrozen) w) H)).
    cbv beta iota. unfold ret.
    rewrite emit_events_cons. reflexivity.
Qed.

(** Whenever acknowledgment is needed the attempt ends with status 5,
    whether or not the artifact exists. *)
Lemma need_ack_returns_5 strategy w a w2 esc :
  passes_scan strategy w a w2 ->
  fst (load_escalation (change_budget_pct a) w2) = Ok esc ->
  need_ack strategy (delta_pct (original a) (new a)) esc = true ->
  fst (run_repair strategy w) = Ok 5%Z.
Proof.
  intros Hps He Hn.
  erewrite repair_run_complete by (eapply RunEscalation; eassumption). reflexivity.
Qed.

(** C3, amended. A completed attempt that ends blocked, over budget or
    with failed tests adds exactly one audit row describing the outcome,
    and so does one that ends with escalation required while the
    acknowledgment artifact is absent; a frozen attempt adds no row; a
    successful attempt adds two rows, the snapshot and then the applied
    change. Invoking repair N times while frozen returns status 1 each
    time and leaves the audit log and every file unchanged. *)
Theorem audit_rows_per_outcome :
  (forall strategy w r w',
     run_repair strategy w = (Ok r, w') ->
     match r with
     | 1%Z => audit_log w' = audit_log w
     | 2%Z => exists ts hits,
         hits <> []
         /\ audit_log w' = audit_log w ++ [AuditRow ts "warden" "block" (block_detail hits)]
     | 3%Z => exists ts pct budget,
         audit_log w'
         = audit_log w
           ++ [AuditRow ts "warden" "reject_change_budget" (reject_detail pct budget)]
     | 4%Z => exists ts,
         audit_log w' = audit_log w ++ [AuditRow ts "tester" "fail" (Plain "golden")]
     | 5%Z => exists a w2 esc,
         passes_scan strategy w a w2
         /\ fst (load_escalation (change_budget_pct a) w2) = Ok esc
         /\ need_ack strategy (delta_pct (original a) (new a)) esc = true
         /\ (ack_present (fs w2) (req_path esc) = false ->
             audit_log w'
             = audit_log w
               ++ [AuditRow (now_iso (clock w2)) "warden" "escalation_required"
                     (escalation_detail strategy (delta_pct (original a) (new a)) esc)])
     | 0%Z => exists ts1 zip ts2 added,
         audit_log w'
         = audit_log w
           ++ [AuditRow ts1 "forge" "snapshot" (snapshot_detail "auto-repair" zip);
               AuditRow ts2 "rewriter" "apply" (apply_detail added)]
     | _ => False
     end)
  /\ (forall n strategy w,
        frozen w = true ->
        exists w',
          repeat_repair n strategy w = (Ok (repeat 1%Z n), w')
          /\ audit_log w' = audit_log w
          /\ fs w' = fs w
          /\ snapshots w' = snapshots w).
Proof.
  split.
  - intros strategy w r w' H.
    pose proof (run_repair_run strategy w) as R. rewrite H in R.
    apply repair_run_audit in R.
    destruct r as [|[[|[]|]|[|[]|]|]|]; try exact R.
    destruct R as (a & w2 & esc & Hps & He & Hn & Ha).
    exists a, w2, esc. repeat (split; [assumption|]).
    intros Hack. rewrite Hack in Ha. exact Ha.
  - intros n strategy w H. eexists. split; [apply repeat_repair_frozen, H|].
    repeat split.
Qed.

End StatusTheorems.

(** ** The order of snapshot and commit *)

Section Commit.

Context `{RT : Runtime}.

Lemma staging_quiet e : staging_event e = true -> quiet_event e = true.
Proof.
  destruct e as [| [|c q] s | | | | | | | |]; simpl; try reflexivity; try discriminate.
  intros H. apply String.eqb_eq in H as ->.
  apply negb_true_iff, bool_decide_eq_false. unfold target_file. intros [=].
Qed.

Lemma staging_all_quiet evs :
  forallb staging_event evs = true -> forallb quiet_event evs = true.
Proof.
  rewrite !forallb_forall. intros H e He. apply staging_quiet, H, He.
Qed.

Lemma units_events_quiet silent t units :
  forallb quiet_event (units_events silent t units) = true.
Proof.
  induction units as [|file rest IH]; [reflexivity|]. cbn [units_events forallb quiet_event].
  destruct (exec_unit t (TESTS_DIR ++ [file])); destruct silent;
    cbn [app forallb quiet_event andb]; auto.
Qed.

Lemma create_snapshot_fails label w e w5 :
  create_snapshot label w = (Raise e, w5) ->
  snapshots w5 = snapshots w
  /\ audit_log w5 = audit_log w
  /\ FS.outside "snapshots" (fs w) (fs w5)
  /\ exists evs, trace w5 = trace w ++ evs /\ forallb quiet_event evs = true.
Proof.
  rewrite create_snapshot_eq.
  destruct (FS.mkdir_p SNAP_DIR (fs w)) as [t1|] eqn:E1.
  - destruct (FS.write_file _ _ t1) as [t2|] eqn:E2; [discriminate|].
    intros H; simplify_eq. world_simpl. repeat (split; [reflexivity|]).
    split; [eapply FSFacts.mkdir_p_outside; exact E1|].
    eexists; split; reflexivity.
  - intros H; simplify_eq. world_simpl. repeat (split; [reflexivity|]).
    split; [apply FSFacts.outside_refl|].
    exists []. split; [symmetry; apply app_nil_r | reflexivity].
Qed.

Ltac quiet_case :=
  left; footprints;
  try match goal with
  | H : create_snapshot _ _ = (Raise _, _) |- _ =>
      apply create_snapshot_fails in H as (? & ? & ? & ? & ? & ?)
  end;
  world_simpl;
  repeat match goal with
  | H : forallb staging_event _ = true |- _ => apply staging_all_quiet in H
  end;
  eexists; split;
  [ rewrite_trace; rewrite <- ?app_assoc; first [reflexivity | symmetry; apply app_nil_r]
  | split;
    [ rewrite ?forallb_app, ?units_events_quiet;
      repeat match goal with
      | H : forallb quiet_event _ = true |- _ => rewrite H
      end; reflexivity
    | split; [discriminate|]; split;
      [ repeat match goal with
        | H : snapshots _ = _ |- _ => rewrite H; clear H
        end; reflexivity
      | unfold target_file;
        repeat first
          [ match goal with
            | H : fs ?x = fs _ |- FS.lookup (fs ?x) _ = _ => rewrite H
            end
          | match goal with
            | H : FS.outside _ _ ?t |- FS.lookup ?t _ = _ =>
                rewrite (H "core" ["registry.py"]) by discriminate
            end ];
        reflexivity ] ] ].

Ltac commit_case :=
  right;
  match goal with
  | Hpp : passes_policy _ _ ?a ?w2 ?esc,
    Hst : stage_shadow _ _ = _,
    Hte : run_tests _ ?w3 = (Ok ?ok, ?w4),
    Hsn : create_snapshot _ _ = _ |- _ =>
      apply create_snapshot_ok in Hsn as (t1 & t2 & ? & ? & ->);
      exists a, w2, esc, w3, ok, w4, t1, t2;
      pose proof Hpp as (Hps & _);
      destruct (passes_scan_footprint _ _ _ _ Hps) as (? & ? & ? & ? & ? & ?);
      destruct (stage_shadow_footprint _ _ _ _ Hst) as (? & ? & ? & ? & ? & ? & ?);
      destruct (run_tests_footprint _ _ _ _ Hte) as (? & ? & ? & ? & ?);
      repeat match goal with
      | H : forallb staging_event _ = true |- _ => apply staging_all_quiet in H
      end;
      eexists;
      split; [exact Hpp|]; split; [exact Hst|]; split; [exact Hte|]
  end;
  split; [eassumption|]; split; [eassumption|];
  split; [rewrite_trace; rewrite <- ?app_assoc; reflexivity|];
  split; [rewrite ?forallb_app, ?units_events_quiet;
          repeat match goal with
          | H : forallb quiet_event _ = true |- _ => rewrite H
          end; reflexivity|];
  split; [repeat match goal with
          | H : snapshots _ = _ |- _ => rewrite H; clear H
          end; reflexivity|];
  split; [match goal with
          | H : fs _ = fs _ |- _ => rewrite H
          end; eauto using FSFacts.outside_trans|];
  cbv zeta.

(** The events of a run: either nothing is committed and no snapshot is
    completed, or the tests passed, the snapshot was taken in the tree
    [t1] and archived in [t2], and the commit follows at once. *)
Lemma repair_run_events strategy w r w' :
  repair_run strategy w (r, w') ->
  (exists evs,
     trace w' = trace w ++ evs /\ forallb quiet_event evs = true /\ r <> Ok 0%Z
     /\ snapshots w' = snapshots w
     /\ FS.lookup (fs w') target_file = FS.lookup (fs w) target_file)
  \/ (exists a w2 esc w3 ok w4 t1 t2 pre,
        passes_policy strategy w a w2 esc
        /\ stage_shadow (new a) w2 = (Ok tt, w3)
        /\ run_tests true w3 = (Ok ok, w4)
        /\ FS.mkdir_p SNAP_DIR (fs w4) = Some t1
        /\ FS.write_file (snapshot_zip "auto-repair" w4) (Zip (snapshot_members t1)) t1
           = Some t2
        /\ trace w4 = trace w ++ pre
        /\ forallb quiet_event pre = true
        /\ snapshots w4 = snapshots w
        /\ FS.outside ".forge" (fs w) (fs w4)
        /\ let w5 := snapshotted "auto-repair" t1 t2 (emit_event (EvPrint MsgTestsOK) w4) in
           (r = Raise (OSError target_file) /\ w' = w5
            /\ FS.write_file target_file (Text (new a)) t2 = None)
           \/ (exists t,
                 r = Ok 0%Z
                 /\ FS.write_file target_file (Text (new a)) t2 = Some t
                 /\ w' = emit_event (EvPrint MsgApplied)
                           (logged "rewriter" "apply"
                              (apply_detail (added_lines (original a) (new a)))
                              (emit_event (EvWrite target_file (new a)) (set_fs t w5))))).
Proof.
  intros H. inversion H; subst; clear H.
  - quiet_case.
  - quiet_case.
  - quiet_case.
  - quiet_case.
  - quiet_case.
  - destruct (ack_present (fs w2) (req_path esc)); quiet_case.
  - quiet_case.
  - quiet_case.
  - quiet_case.
  - quiet_case.
  - quiet_case.
  - commit_case. left. repeat split; assumption.
  - commit_case. right. eexists. repeat split; eassumption.
Qed.

End Commit.

Section CommitOrder.

Context `{RT : Runtime}.

Lemma quiet_no_live_write evs s :
  forallb quiet_event evs = true -> ~ In (EvWrite target_file s) evs.
Proof.
  rewrite forallb_forall. intros H Hin. specialize (H _ Hin).
  cbn [quiet_event] in H. rewrite bool_decide_eq_true_2 in H by reflexivity. discriminate.
Qed.

(** A regular file outside the two skipped folders and outside every
    [__pycache__] is a member of the archive, under its relative path. *)
Lemma snapshot_members_lookup t folder file d :
  FS.lookup t (folder ++ [file]) = Some (File d) ->
  folder <> SNAP_DIR -> folder <> FORGE_TMP ->
  existsb (String.eqb "__pycache__") (ROOT_parts ++ folder ++ [file]) = false ->
  In (as_posix (folder ++ [file]), d) (snapshot_members t).
Proof.
  intros H Hs Hf Hc. rewrite FSFacts.lookup_app in H.
  destruct (FS.lookup t folder) as [[|es]|] eqn:E; try discriminate.
  cbn [FS.lookup] in H. destruct (FS.entry file es) as [x|] eqn:Ef; [|discriminate].
  injection H as ->.
  unfold snapshot_members. apply in_flat_map.
  exists (folder, FS.files_of es). split; [apply (FSFacts.walk_lookup folder [] t es E)|].
  unfold snapshot_folder.
  rewrite (bool_decide_eq_false_2 _ Hs), (bool_decide_eq_false_2 _ Hf). cbn [orb].
  apply in_flat_map. exists (file, d). split; [apply FSFacts.files_of_entry, Ef|].
  rewrite Hc. left. reflexivity.
Qed.

(** C9. A run that is frozen writes nothing. In every run that writes the
    proposal to the live target, the attempt was not frozen and ends with
    status 0; the events of the snapshot (the archive, its index row and
    its audit row) come immediately before that write; no other write to
    the target and no other snapshot occurs in the run, before or after;
    the archived tree agrees with the workspace the attempt started from
    everywhere outside the staging and snapshot directories, and the
    archive holds the target with the content it had before the attempt.
    A run that does not end with status 0 leaves the target as it was. *)
Theorem snapshot_precedes_commit strategy w r w' :
  run_repair strategy w = (r, w') ->
  (frozen w = true ->
     r = Ok 1%Z /\ fs w' = fs w /\ new_events w w' = [EvPrint MsgFrozen])
  /\ (forall s, In (EvWrite target_file s) (new_events w w') ->
        frozen w = false /\ r = Ok 0%Z
        /\ exists pre ws t1 rest,
             new_events w w'
             = pre ++ snapshot_events "auto-repair" t1 ws ++ EvWrite target_file s :: rest
             /\ forallb quiet_event pre = true
             /\ forallb quiet_event rest = true
             /\ snapshots w' = snapshots w ++ [snapshot_row_of "auto-repair" t1 ws]
             /\ (forall c p, c <> ".forge" -> c <> "snapshots" ->
                   FS.lookup t1 (c :: p) = FS.lookup (fs w) (c :: p))
             /\ (forall d, FS.lookup (fs w) target_file = Some (File d) ->
                   existsb (String.eqb "__pycache__") ROOT_parts = false ->
                   In (as_posix target_file, d) (snapshot_members t1))
             /\ FS.lookup (fs w') target_file = Some (File (Text s)))
  /\ (r <> Ok 0%Z -> FS.lookup (fs w') target_file = FS.lookup (fs w) target_file).
Proof.
  intros Hrun. pose proof (run_repair_run strategy w) as R. rewrite Hrun in R.
  split; [|split].
  - intros Hf. rewrite (run_repair_frozen _ _ Hf) in Hrun. simplify_eq.
    split; [reflexivity|]. split; [reflexivity|].
    apply new_events_app. reflexivity.
  - intros s Hin.
    assert (frozen w = false) as Hnf.
    { destruct (frozen w) eqn:Hf; [|reflexivity].
      rewrite (run_repair_frozen _ _ Hf) in Hrun. simplify_eq.
      erewrite new_events_app in Hin by reflexivity.
      destruct Hin as [Hin|[]]. discriminate. }
    split; [exact Hnf|].
    apply repair_run_events in R
      as [(evs & Ht & Hq & _) |
          (a & w2 & esc & w3 & ok & w4 & t1 & t2 & pre
           & Hpp & Hst & Hte & Hm & Hz & Ht & Hq & Hsn & Ho & Hc)].
    { rewrite (new_events_app _ _ _ Ht) in Hin.
      exfalso. eapply quiet_no_live_write; eassumption. }
    cbv zeta in Hc. destruct Hc as [(-> & -> & Hw) | (t & -> & Hw & ->)].
    { exfalso. unfold snapshotted in Hin.
      erewrite new_events_app in Hin
        by (world_simpl; rewrite Ht, <- !app_assoc; reflexivity).
      apply in_app_iff in Hin as [Hin|Hin].
      - eapply quiet_no_live_write; eassumption.
      - cbn in Hin. intuition discriminate. }
    split; [reflexivity|].
    exists (pre ++ [EvPrint MsgTestsOK]), (emit_event (EvPrint MsgTestsOK) w4), t1,
      [EvAudit (AuditRow (now_iso (S (S (clock w4)))) "rewriter" "apply"
                  (apply_detail (added_lines (original a) (new a))));
       EvPrint MsgApplied].
    assert (new_events w
              (emit_event (EvPrint MsgApplied)
                 (logged "rewriter" "apply" (apply_detail (added_lines (original a) (new a)))
                    (emit_event (EvWrite target_file (new a))
                       (set_fs t (snapshotted "auto-repair" t1 t2
                                    (emit_event (EvPrint MsgTestsOK) w4))))))
            = (pre ++ [EvPrint MsgTestsOK])
              ++ snapshot_events "auto-repair" t1 (emit_event (EvPrint MsgTestsOK) w4)
              ++ EvWrite target_file (new a)
                 :: [EvAudit (AuditRow (now_iso (S (S (clock w4)))) "rewriter" "apply"
                                (apply_detail (added_lines (original a) (new a))));
                     EvPrint MsgApplied]) as Hev.
    { apply new_events_app. unfold snapshotted. world_simpl.
      rewrite Ht, <- !app_assoc. reflexivity. }
    rewrite Hev in Hin |- *.
    assert (s = new a) as ->.
    { rewrite !in_app_iff in Hin. destruct Hin as [[Hin|Hin]|[Hin|Hin]].
      - exfalso. eapply quiet_no_live_write; eassumption.
      - cbn in Hin. intuition discriminate.
      - cbn in Hin. intuition discriminate.
      - cbn in Hin. destruct Hin as [Hin|Hin]; [congruence | intuition discriminate]. }
    split; [reflexivity|].
    split; [rewrite forallb_app, Hq; reflexivity|].
    split; [reflexivity|].
    split; [unfold snapshotted; world_simpl; rewrite Hsn; reflexivity|].
    assert (forall c p, c <> ".forge" -> c <> "snapshots" ->
              FS.lookup t1 (c :: p) = FS.lookup (fs w) (c :: p)) as Hsame.
    { intros c p Hc1 Hc2.
      rewrite (FSFacts.mkdir_p_outside _ _ _ _ Hm c p Hc2). apply Ho, Hc1. }
    split; [exact Hsame|]. split.
    + intros d Hd Hroot.
      apply (snapshot_members_lookup t1 ["core"] "registry.py" d); try discriminate.
      * cbn [app]. rewrite Hsame by discriminate. exact Hd.
      * rewrite existsb_app, Hroot. reflexivity.
    + world_simpl. eapply FSFacts.write_file_lookup, Hw.
  - intros Hr.
    apply repair_run_events in R
      as [(evs & _ & _ & _ & _ & Hl) |
          (a & w2 & esc & w3 & ok & w4 & t1 & t2 & pre
           & Hpp & Hst & Hte & Hm & Hz & Ht & Hq & Hsn & Ho & Hc)];
      [exact Hl|].
    cbv zeta in Hc. destruct Hc as [(-> & -> & Hw) | (t & -> & Hw & ->)];
      [|congruence].
    unfold snapshotted. world_simpl. unfold target_file.
    rewrite (FSFacts.write_file_outside _ _ _ _ _ Hz "core" ["registry.py"]) by discriminate.
    rewrite (FSFacts.mkdir_p_outside _ _ _ _ Hm "core" ["registry.py"]) by discriminate.
    apply Ho. discriminate.
Qed.

End CommitOrder.

(** ** The freeze flag *)

Section FreezeFlag.

Context `{RT : Runtime}.

Lemma freeze_sets_flag w w' : freeze w = (Ok tt, w') -> frozen w' = true.
Proof.
  unfold freeze. intros H. run_steps H; simplify_eq. world_simpl.
  unfold frozen, FS.exists_. cbn [fs].
  erewrite FSFacts.write_file_lookup by eassumption. reflexivity.
Qed.

Lemma thaw_clears_flag w w' : thaw w = (Ok tt, w') -> frozen w' = false.
Proof.
  unfold thaw. intros H. run_steps H; simplify_eq; world_simpl;
    unfold frozen, FS.exists_; cbn [fs].
  - erewrite FSFacts.unlink_lookup by eassumption. reflexivity.
  - assumption.
Qed.

(** Between [freeze] and the next [thaw] every repair attempt is refused
    with status 1 and changes nothing but the console. *)
Lemma freeze_stops_repair w w1 strategy :
  freeze w = (Ok tt, w1) ->
  run_repair strategy w1 = (Ok 1%Z, emit_event (EvPrint MsgFrozen) w1).
Proof. intros H. apply run_repair_frozen, (freeze_sets_flag _ _ H). Qed.

End FreezeFlag.

Section StatusCodes.

Context `{RT : Runtime}.

(** The conditions under which a completed attempt returns each status. *)
Lemma repair_run_status strategy w r w' :
  repair_run strategy w (Ok r, w') ->
  match r with
  | 1%Z => frozen w = true
  | 2%Z => frozen w = false
           /\ exists a w1 hits w2,
                prepare strategy w = (Ok a, w1) /\ scan (new a) w1 = (Ok hits, w2)
                /\ hits <> []
  | 5%Z => exists a w2 esc,
             passes_scan strategy w a w2
             /\ fst (load_escalation (change_budget_pct a) w2) = Ok esc
             /\ need_ack strategy (delta_pct (original a) (new a)) esc = true
  | 3%Z => exists a w2 esc,
             passes_scan strategy w a w2
             /\ fst (load_escalation (change_budget_pct a) w2) = Ok esc
             /\ need_ack strategy (delta_pct (original a) (new a)) esc = false
             /\ (delta_pct (original a) (new a) > change_budget_pct a)%Z
  | 4%Z => exists a w2 esc w3 w4,
             passes_policy strategy w a w2 esc
             /\ stage_shadow (new a) w2 = (Ok tt, w3)
             /\ run_tests true w3 = (Ok false, w4)
             /\ require_green a = true
  | 0%Z => exists a w2 esc w3 ok w4,
             passes_policy strategy w a w2 esc
             /\ stage_shadow (new a) w2 = (Ok tt, w3)
             /\ run_tests true w3 = (Ok ok, w4)
             /\ (require_green a = false \/ ok = true)
  | _ => False
  end.
Proof.
  intros H. inversion H; subst; clear H.
  - assumption.
  - split; [assumption|]. eauto 10.
  - eauto 10.
  - do 3 eexists. repeat (split; [eassumption|]).
    match goal with
    | H : (_ >? _)%Z = true |- _ => apply Z.gtb_lt in H; lia
    end.
  - match goal with
    | H : (require_green _ && negb ?ok)%bool = true |- _ =>
        apply andb_true_iff in H as [Hg Hok]; apply negb_true_iff in Hok; subst ok
    end.
    eauto 10.
  - match goal with
    | H : (require_green ?a && negb ?ok)%bool = false |- _ =>
        assert (require_green a = false \/ ok = true)
          by (destruct (require_green a), ok; simpl in H; auto; discriminate)
    end.
    eauto 12.
Qed.

Lemma frozen_passes_scan strategy w a w2 :
  passes_scan strategy w a w2 -> frozen w = false.
Proof. intros (H & _). exact H. Qed.

(** The six status codes. A call of [run_repair] that returns yields one
    of the six status codes, and each code stands for its own condition: 1 exactly when the
    freeze flag is set; 2 when a loaded or built-in pattern that compiles
    matches the proposal; 5 when acknowledgment is needed and the
    artifact is absent; 3 when no acknowledgment is needed and the change
    percentage exceeds the budget; 4 when green tests are required and a
    test unit fails; 0 exactly when the proposal was written to the live
    target. Conversely a returned code 2, 3 or 4 implies its condition,
    and a returned 5 implies that acknowledgment was needed; it does not
    imply that the artifact is absent. *)
Theorem run_repair_status_codes :
  (forall strategy w r w',
     run_repair strategy w = (Ok r, w') ->
     In r [0; 1; 2; 3; 4; 5]%Z
     /\ (r = 1%Z <-> frozen w = true)
     /\ (r = 0%Z <-> exists s, In (EvWrite target_file s) (new_events w w'))
     /\ match r with
        | 2%Z => exists a w1 hits w2,
                   prepare strategy w = (Ok a, w1) /\ scan (new a) w1 = (Ok hits, w2)
                   /\ hits <> []
        | 5%Z => exists a w2 esc,
                   passes_scan strategy w a w2
                   /\ fst (load_escalation (change_budget_pct a) w2) = Ok esc
                   /\ need_ack strategy (delta_pct (original a) (new a)) esc = true
        | 3%Z => exists a w2 esc,
                   passes_scan strategy w a w2
                   /\ fst (load_escalation (change_budget_pct a) w2) = Ok esc
                   /\ need_ack strategy (delta_pct (original a) (new a)) esc = false
                   /\ (delta_pct (original a) (new a) > change_budget_pct a)%Z
        | 4%Z => exists a w2 esc w3 w4,
                   passes_policy strategy w a w2 esc
                   /\ stage_shadow (new a) w2 = (Ok tt, w3)
                   /\ run_tests true w3 = (Ok false, w4)
                   /\ require_green a = true
        | _ => True
        end)
  /\ (forall strategy w, frozen w = true -> fst (run_repair strategy w) = Ok 1%Z)
  /\ (forall strategy w a w1 hits w2,
        frozen w = false ->
        prepare strategy w = (Ok a, w1) ->
        scan (new a) w1 = (Ok hits, w2) ->
        hits <> [] ->
        fst (run_repair strategy w) = Ok 2%Z)
  /\ (forall strategy w a w2 esc,
        passes_scan strategy w a w2 ->
        fst (load_escalation (change_budget_pct a) w2) = Ok esc ->
        need_ack strategy (delta_pct (original a) (new a)) esc = true ->
        ack_present (fs w2) (req_path esc) = false ->
        fst (run_repair strategy w) = Ok 5%Z)
  /\ (forall strategy w a w2 esc,
        passes_scan strategy w a w2 ->
        fst (load_escalation (change_budget_pct a) w2) = Ok esc ->
        need_ack strategy (delta_pct (original a) (new a)) esc = false ->
        (delta_pct (original a) (new a) > change_budget_pct a)%Z ->
        fst (run_repair strategy w) = Ok 3%Z)
  /\ (forall strategy w a w2 esc w3,
        passes_policy strategy w a w2 esc ->
        stage_shadow (new a) w2 = (Ok tt, w3) ->
        existsb aborts (unit_outcomes (fs w3)) = false ->
        forallb unit_verdict (unit_outcomes (fs w3)) = false ->
        require_green a = true ->
        fst (run_repair strategy w) = Ok 4%Z)
  /\ (forall strategy w a w2 esc w3 ok w4 w5 t,
        passes_policy strategy w a w2 esc ->
        stage_shadow (new a) w2 = (Ok tt, w3) ->
        run_tests true w3 = (Ok ok, w4) ->
        (require_green a = false \/ ok = true) ->
        create_snapshot "auto-repair" (emit_event (EvPrint MsgTestsOK) w4) = (Ok tt, w5) ->
        FS.write_file target_file (Text (new a)) (fs w5) = Some t ->
        fst (run_repair strategy w) = Ok 0%Z).
Proof.
  split; [|split; [|split; [|split; [|split; [|split]]]]].
  - intros strategy w r w' Hrun.
    pose proof (run_repair_run strategy w) as R. rewrite Hrun in R.
    pose proof (repair_run_status _ _ _ _ R) as S.
    pose proof (repair_run_events _ _ _ _ R) as E.
    split; [|split; [|split]].
    + destruct r as [|[[|[]|]|[|[]|]|]|]; cbn; try contradiction; auto 10.
    + split.
      * intros ->. exact S.
      * intros Hf. rewrite (run_repair_frozen _ _ Hf) in Hrun. congruence.
    + split.
      * intros ->.
        destruct E as [(evs & _ & _ & Hne & _) |
          (a & w2 & esc & w3 & ok & w4 & t1 & t2 & pre
           & _ & _ & _ & _ & _ & Ht & _ & _ & _ & Hc)]; [congruence|].
        cbv zeta in Hc. destruct Hc as [(? & _) | (t & _ & _ & ->)]; [discriminate|].
        exists (new a). erewrite new_events_app
          by (unfold snapshotted; world_simpl; rewrite Ht, <- !app_assoc; reflexivity).
        rewrite !in_app_iff. cbn [In]. intuition auto.
      * intros (s & Hin).
        destruct E as [(evs & Ht & Hq & _) |
          (a & w2 & esc & w3 & ok & w4 & t1 & t2 & pre
           & _ & _ & _ & _ & _ & Ht & Hq & _ & _ & Hc)].
        { rewrite (new_events_app _ _ _ Ht) in Hin.
          exfalso. eapply quiet_no_live_write; eassumption. }
        cbv zeta in Hc. destruct Hc as [(? & _) | (t & ? & _)]; [discriminate|congruence].
    + destruct r as [|[[|[]|]|[|[]|]|]|]; try exact I; try exact S.
      destruct S as (_ & S). exact S.
  - intros strategy w Hf. rewrite (run_repair_frozen _ _ Hf). reflexivity.
  - intros strategy w a w1 hits w2 Hf Hp Hs Hh.
    erewrite repair_run_complete by (eapply RunBlocked; eassumption). reflexivity.
  - intros strategy w a w2 esc Hps He Hn _.
    eapply need_ack_returns_5; eassumption.
  - intros strategy w a w2 esc Hps He Hn Hb.
    erewrite repair_run_complete
      by (eapply RunRejected; try eassumption; apply Z.gtb_lt; lia).
    reflexivity.
  - intros strategy w a w2 esc w3 Hpp Hst Hab Hv Hg.
    assert (run_tests true w3
            = (Ok false,
               emit_events (units_events true (fs w3) (glob_tests (fs w3) TESTS_DIR)) w3))
      as Hte.
    { rewrite run_tests_eq. f_equal.
      unfold unit_outcomes in Hab, Hv.
      rewrite units_result_no_abort by assumption. rewrite Hv. reflexivity. }
    erewrite repair_run_complete
      by (eapply RunTestsFailed with (ok := false); try eassumption;
          rewrite Hg; reflexivity).
    reflexivity.
  - intros strategy w a w2 esc w3 ok w4 w5 t Hpp Hst Hte Hg Hsn Hw.
    erewrite repair_run_complete
      by (eapply RunCommitted; try eassumption;
          destruct Hg as [-> | ->]; [reflexivity | apply andb_false_r]).
    reflexivity.
Qed.

End StatusCodes.

(** ** Where the test gate finds its units *)

Section LiveTests.

Context `{RT : Runtime}.

Lemma glob_tests_outside t t' :
  FS.outside ".forge" t t' -> glob_tests t' TESTS_DIR = glob_tests t TESTS_DIR.
Proof.
  intros H. unfold glob_tests, TESTS_DIR. rewrite (H "tests" []) by discriminate. reflexivity.
Qed.

Lemma executed_units_events silent t units p :
  In p (executed (units_events silent t units)) ->
  exists file, p = TESTS_DIR ++ [file] /\ In file units.
Proof.
  induction units as [|file rest IH]; cbn [units_events executed]; [contradiction|].
  intros [<-|Hin]; [exists file; split; [reflexivity | left; reflexivity]|].
  assert (In p (executed (units_events silent t rest))) as Hin'.
  { destruct (exec_unit t (TESTS_DIR ++ [file])); try contradiction;
      rewrite executed_app in Hin; destruct silent; cbn [executed app] in Hin; exact Hin. }
  destruct (IH Hin') as (f & -> & Hf). exists f. split; [reflexivity | right; exact Hf].
Qed.

Ltac exec_case :=
  footprints;
  try match goal with
  | H : create_snapshot _ _ = (Raise _, _) |- _ =>
      rewrite create_snapshot_eq in H;
      repeat match type of H with
      | context [match ?x with _ => _ end] => destruct x
      end; simplify_eq
  end;
  unfold snapshotted, snapshot_events in *; world_simpl;
  (eexists; split;
   [ rewrite_trace; rewrite <- ?app_assoc; first [reflexivity | symmetry; apply app_nil_r]
   | rewrite ?executed_app;
     repeat match goal with
     | H : forallb staging_event _ = true |- _ =>
         rewrite (staging_no_exec _ H); clear H
     end;
     cbn [executed app]; rewrite ?app_nil_r ]).

(** The units a run loads are units of the tests directory of some tree
    that agrees with the initial workspace outside [.forge]. *)
Lemma repair_run_executed strategy w r w' :
  repair_run strategy w (r, w') ->
  exists evs,
    trace w' = trace w ++ evs
    /\ (executed evs = []
        \/ exists t, FS.outside ".forge" (fs w) t
                     /\ executed evs
                        = executed (units_events true t (glob_tests t TESTS_DIR))).
Proof.
  intros H. inversion H; subst; clear H.
  - exec_case. left; reflexivity.
  - exec_case. left; reflexivity.
  - exec_case. left; reflexivity.
  - exec_case. left; reflexivity.
  - exec_case. left; reflexivity.
  - destruct (ack_present (fs w2) (req_path esc)); exec_case; left; reflexivity.
  - exec_case. left; reflexivity.
  - exec_case. left; reflexivity.
  - exec_case. right. eexists. split; [|reflexivity]. eauto using FSFacts.outside_trans.
  - exec_case. right. eexists. split; [|reflexivity]. eauto using FSFacts.outside_trans.
  - exec_case; right; eexists; (split; [|reflexivity]); eauto using FSFacts.outside_trans.
  - exec_case. right. eexists. split; [|reflexivity]. eauto using FSFacts.outside_trans.
  - exec_case. right. eexists. split; [|reflexivity]. eauto using FSFacts.outside_trans.
Qed.

(** C2, amended. The test gate discovers and executes its units in the
    tests directory of the live workspace, never in the staged copy: every
    unit a repair attempt loads is a file [tests/test_*.py] of the
    workspace the attempt started from, addressed relative to [ROOT];
    when the attempt reaches the tests, the staged copy exists but the
    verdict is the one of the live units, run while the live target
    still has its content from before the attempt. *)
Theorem tests_run_from_live_workspace strategy w r w' :
  run_repair strategy w = (r, w') ->
  (forall p, In p (executed (new_events w w')) ->
     (exists file, p = TESTS_DIR ++ [file] /\ In file (glob_tests (fs w) TESTS_DIR))
     /\ firstn 2 p <> shadow)
  /\ (forall a w2 esc w3,
        passes_policy strategy w a w2 esc ->
        stage_shadow (new a) w2 = (Ok tt, w3) ->
        FS.lookup (fs w3) (shadow ++ target_file) = Some (File (Text (new a)))
        /\ FS.lookup (fs w3) target_file = FS.lookup (fs w) target_file
        /\ run_tests true w3
           = (units_result (fs w3) (glob_tests (fs w) TESTS_DIR) true,
              emit_events (units_events true (fs w3) (glob_tests (fs w) TESTS_DIR)) w3)).
Proof.
  intros Hrun. pose proof (run_repair_run strategy w) as R. rewrite Hrun in R.
  split.
  - intros p Hin.
    assert (exists file, p = TESTS_DIR ++ [file] /\ In file (glob_tests (fs w) TESTS_DIR))
      as (file & -> & Hf).
    { apply repair_run_executed in R as (evs & Ht & [He | (t & Ho & He)]);
        rewrite (new_events_app _ _ _ Ht), He in Hin; [contradiction|].
      apply executed_units_events in Hin as (file & -> & Hf).
      rewrite (glob_tests_outside _ _ Ho) in Hf. eauto. }
    split; [eauto|]. cbn. discriminate.
  - intros a w2 esc w3 (Hps & _) Hst.
    destruct (passes_scan_footprint _ _ _ _ Hps) as (_ & _ & Ho & _).
    destruct (stage_shadow_footprint _ _ _ _ Hst) as (_ & _ & _ & Ho' & _).
    assert (FS.outside ".forge" (fs w) (fs w3)) as Ho3
        by eauto using FSFacts.outside_trans.
    split; [|split].
    + unfold stage_shadow in Hst. run_steps Hst; simplify_eq; world_simpl;
        eapply FSFacts.write_file_lookup; eassumption.
    + unfold target_file. apply Ho3. discriminate.
    + rewrite run_tests_eq, (glob_tests_outside _ _ Ho3). reflexivity.
Qed.

End LiveTests.

(** ** The change percentage and the budget *)

(** *** Rounding in binary64 *)

Module F64Facts.

Local Open Scope Z_scope.

Lemma shr_1_m mrs : 0 <= shr_m mrs -> shr_m (shr_1 mrs) = shr_m mrs / 2.
Proof.
  destruct mrs as [m r s]. cbn [shr_m]. intros Hm.
  destruct m as [|[p|p|]|p]; cbn [shr_1 shr_m]; try lia; try reflexivity.
  - rewrite Pos2Z.inj_xI. apply Z.div_unique with (r := 1); lia.
  - rewrite Pos2Z.inj_xO. apply Z.div_unique with (r := 0); lia.
Qed.

Lemma div_div_pos a b c : 0 < b -> 0 < c -> a / b / c = a / (b * c).
Proof. intros Hb Hc. apply Z.div_div; lia. Qed.

Lemma pow2_pos n : 0 <= n -> 0 < 2 ^ n.
Proof. intros H. apply Z.pow_pos_nonneg; lia. Qed.

Lemma iter_shr_1_m p : forall mrs,
  0 <= shr_m mrs -> shr_m (SpecFloat.iter_pos shr_1 p mrs) = shr_m mrs / 2 ^ Z.pos p.
Proof.
  induction p as [p IH|p IH|]; intros mrs Hm; cbn [SpecFloat.iter_pos].
  - assert (0 <= shr_m (shr_1 mrs)) as H1
        by (rewrite shr_1_m by exact Hm; apply Z.div_pos; lia).
    assert (0 <= shr_m (SpecFloat.iter_pos shr_1 p (shr_1 mrs))) as H2
        by (rewrite IH by exact H1; apply Z.div_pos; [exact H1 | apply Z.pow_pos_nonneg; lia]).
    rewrite IH by exact H2. rewrite IH by exact H1. rewrite shr_1_m by exact Hm.
    rewrite !div_div_pos by (try apply pow2_pos; lia).
    f_equal. replace (Z.pos p~1) with (1 + Z.pos p + Z.pos p) by lia.
    rewrite !Z.pow_add_r by lia. change (2 ^ 1) with 2. lia.
  - assert (0 <= shr_m (SpecFloat.iter_pos shr_1 p mrs)) as H2
        by (rewrite IH by exact Hm; apply Z.div_pos; [exact Hm | apply Z.pow_pos_nonneg; lia]).
    rewrite IH by exact H2. rewrite IH by exact Hm.
    rewrite !div_div_pos by (apply pow2_pos; lia).
    f_equal. replace (Z.pos p~0) with (Z.pos p + Z.pos p) by lia.
    rewrite !Z.pow_add_r by lia. reflexivity.
  - rewrite shr_1_m by exact Hm. reflexivity.
Qed.

Lemma shr_record_of_loc_m m l : shr_m (shr_record_of_loc m l) = m.
Proof. destruct l as [|[]]; reflexivity. Qed.

(** The mantissa and the exponent after [shr_fexp]. *)
Lemma shr_fexp_spec prec emax m e l :
  0 <= m ->
  let n := Z.max 0 (fexp prec emax (Zdigits2 m + e) - e) in
  shr_m (fst (shr_fexp prec emax m e l)) = m / 2 ^ n
  /\ snd (shr_fexp prec emax m e l) = e + n.
Proof.
  intros Hm n. unfold shr_fexp, shr. subst n.
  destruct (fexp prec emax (Zdigits2 m + e) - e) as [|p|p] eqn:E; cbn [fst snd].
  - rewrite shr_record_of_loc_m. change (Z.max 0 0) with 0.
    rewrite Z.div_1_r. split; [reflexivity | lia].
  - rewrite iter_shr_1_m by (rewrite shr_record_of_loc_m; exact Hm).
    rewrite shr_record_of_loc_m. rewrite Z.max_r by lia. split; reflexivity.
  - rewrite shr_record_of_loc_m. rewrite Z.max_l by lia.
    rewrite Z.div_1_r. split; [reflexivity | lia].
Qed.

Lemma round_nearest_even_bounds m l :
  m <= round_nearest_even m l <= m + 1.
Proof. destruct l as [|[]]; cbn [round_nearest_even]; try lia. destruct (Z.even m); lia. Qed.

(** The result of rounding a non-negative mantissa: its value is at most
    the value rounded plus one unit of the first shift. *)
Lemma binary_round_aux_upper prec emax m e l :
  0 <= m ->
  exists M e2,
    e <= e2 /\ 0 <= M
    /\ M * 2 ^ (e2 - e) <= m + 2 ^ Z.max 0 (fexp prec emax (Zdigits2 m + e) - e)
    /\ binary_round_aux prec emax false m e l
       = match M with
         | Z0 => S754_zero false
         | Zpos p => if e2 <=? emax - prec then S754_finite false p e2
                     else S754_infinity false
         | Zneg _ => S754_nan
         end.
Proof.
  intros Hm. unfold binary_round_aux.
  destruct (shr_fexp_spec prec emax m e l Hm) as [Hm1 He1].
  destruct (shr_fexp prec emax m e l) as [mrs1 e1]. cbn [fst snd] in Hm1, He1.
  set (n1 := Z.max 0 (fexp prec emax (Zdigits2 m + e) - e)) in *.
  set (m2 := round_nearest_even (shr_m mrs1) (loc_of_shr_record mrs1)).
  assert (0 < 2 ^ n1) as Hp1 by (apply Z.pow_pos_nonneg; lia).
  assert (0 <= m / 2 ^ n1) as Hq1 by (apply Z.div_pos; lia).
  assert (0 <= m2 <= m / 2 ^ n1 + 1) as Hm2.
  { pose proof (round_nearest_even_bounds (shr_m mrs1) (loc_of_shr_record mrs1)).
    subst m2. rewrite Hm1 in *. lia. }
  destruct (shr_fexp_spec prec emax m2 e1 loc_Exact (proj1 Hm2)) as [Hm3 He3].
  destruct (shr_fexp prec emax m2 e1 loc_Exact) as [mrs2 e2]. cbn [fst snd] in Hm3, He3.
  set (n2 := Z.max 0 (fexp prec emax (Zdigits2 m2 + e1) - e1)) in *.
  assert (0 < 2 ^ n2) as Hp2 by (apply Z.pow_pos_nonneg; lia).
  exists (shr_m mrs2), e2.
  assert (0 <= shr_m mrs2) as H0 by (rewrite Hm3; apply Z.div_pos; lia).
  split; [lia|]. split; [exact H0|]. split.
  - rewrite Hm3, He3, He1.
    replace (e + n1 + n2 - e) with (n2 + n1) by lia.
    rewrite Z.pow_add_r by lia.
    pose proof (Z.mul_div_le m2 (2 ^ n2) Hp2).
    pose proof (Z.mul_div_le m (2 ^ n1) Hp1).
    nia.
  - destruct (shr_m mrs2); reflexivity.
Qed.

Lemma digits2_pos_bounds p :
  2 ^ (Z.pos (digits2_pos p) - 1) <= Z.pos p < 2 ^ Z.pos (digits2_pos p).
Proof.
  induction p as [p IH|p IH|]; cbn [digits2_pos]; [| |simpl; lia].
  - rewrite Pos2Z.inj_succ, Pos2Z.inj_xI.
    replace (Z.succ (Z.pos (digits2_pos p)) - 1) with (1 + (Z.pos (digits2_pos p) - 1)) by lia.
    rewrite Z.pow_succ_r by lia. rewrite Z.pow_add_r by lia. change (2 ^ 1) with 2. lia.
  - rewrite Pos2Z.inj_succ. replace (Z.pos p~0) with (2 * Z.pos p) by lia.
    replace (Z.succ (Z.pos (digits2_pos p)) - 1) with (1 + (Z.pos (digits2_pos p) - 1)) by lia.
    rewrite Z.pow_succ_r by lia. rewrite Z.pow_add_r by lia. change (2 ^ 1) with 2. lia.
Qed.

Lemma Zdigits2_nonneg m : 0 <= Zdigits2 m.
Proof. destruct m; simpl; lia. Qed.

Lemma Zdigits2_le m k : 0 <= k -> 0 <= m < 2 ^ k -> Zdigits2 m <= k.
Proof.
  intros Hk [H0 H]. destruct m as [|p|p]; [simpl; lia| |lia].
  cbn [Zdigits2]. pose proof (digits2_pos_bounds p) as [Hl _].
  destruct (Z_le_gt_dec (Z.pos (digits2_pos p)) k) as [|Hgt]; [assumption|exfalso].
  assert (2 ^ k <= 2 ^ (Z.pos (digits2_pos p) - 1)) by (apply Z.pow_le_mono_r; lia).
  lia.
Qed.

Lemma Zdigits2_pow m : 0 < m -> 2 ^ (Zdigits2 m - 1) <= m.
Proof. destruct m as [|p|p]; try lia. intros _. apply digits2_pos_bounds. Qed.


(** The quotient and the exponent [SFdiv] rounds for [1 / b]. *)
Lemma div_core_one b :
  0 < b ->
  exists s l, 53 <= s <= 1074
    /\ SFdiv_core_binary F64.prec F64.emax 1 0 b 0 = (2 ^ s / b, - s, l).
Proof.
  intros Hb. unfold SFdiv_core_binary.
  change (Zdigits2 1) with 1.
  pose proof (Zdigits2_pow b Hb) as Hd.
  assert (1 <= Zdigits2 b) as Hd1.
  { destruct b; try lia. simpl. lia. }
  set (e' := Z.min (fexp F64.prec F64.emax (1 + 0 - (Zdigits2 b + 0))) (0 - 0)).
  assert (-1074 <= e' <= -53) as He.
  { subst e'. unfold fexp, emin, F64.prec, F64.emax. lia. }
  cbv zeta. replace (0 - 0 - e') with (- e') by lia.
  destruct (- e') as [|ps|ps] eqn:Es; try lia.
  rewrite Z.shiftl_1_l.
  destruct (Z.div_eucl (2 ^ Z.pos ps) b) as [q r] eqn:E.
  exists (Z.pos ps), (new_location b r). split; [lia|].
  replace e' with (- Z.pos ps) by lia.
  assert (q = 2 ^ Z.pos ps / b) as -> by (unfold Z.div; rewrite E; reflexivity).
  reflexivity.
Qed.

(** [1 / b] is zero or a float below [1 / b + 2 ^ -52]. *)
Lemma truediv_one_upper b :
  256 <= b ->
  F64.truediv 1 b = S754_zero false
  \/ exists s p e2,
       53 <= s <= 1074 /\ - s <= e2 <= -8
       /\ Z.pos p * 2 ^ (e2 + s) <= 2 ^ (s - 8) + 2 ^ (s - 52)
       /\ F64.truediv 1 b = S754_finite false p e2.
Proof.
  intros Hb. unfold F64.truediv.
  destruct b as [|pb|pb]; try lia.
  cbn [F64.of_Z SFdiv xorb].
  destruct (div_core_one (Z.pos pb)) as (s & l & Hs & E); [lia|].
  rewrite E.
  assert (0 < 2 ^ s) as Hps by (apply pow2_pos; lia).
  assert (0 <= 2 ^ s / Z.pos pb) as Hq by (apply Z.div_pos; lia).
  assert (2 ^ s / Z.pos pb <= 2 ^ (s - 8)) as Hq8.
  { replace (2 ^ (s - 8)) with (2 ^ s / 256).
    - apply Z.div_le_compat_l; lia.
    - replace s with (s - 8 + 8) at 1 by lia.
      rewrite Z.pow_add_r by lia. change (2 ^ 8) with 256. apply Z.div_mul. lia. }
  assert (2 ^ s / Z.pos pb < 2 ^ (s - 7)) as Hq7.
  { replace (s - 7) with (1 + (s - 8)) by lia. rewrite Z.pow_add_r by lia.
    change (2 ^ 1) with 2. pose proof (pow2_pos (s - 8)). lia. }
  destruct (binary_round_aux_upper F64.prec F64.emax (2 ^ s / Z.pos pb) (- s) l Hq)
    as (M & e2 & He2 & HM & Hle & ->).
  assert (Z.max 0 (fexp F64.prec F64.emax (Zdigits2 (2 ^ s / Z.pos pb) + - s) - - s) <= s - 52) as Hn.
  { pose proof (Zdigits2_le (2 ^ s / Z.pos pb) (s - 7)).
    pose proof (Zdigits2_nonneg (2 ^ s / Z.pos pb)).
    unfold fexp, emin, F64.prec, F64.emax. lia. }
  assert (2 ^ Z.max 0 (fexp F64.prec F64.emax (Zdigits2 (2 ^ s / Z.pos pb) + - s) - - s)
          <= 2 ^ (s - 52)) as Hpn by (apply Z.pow_le_mono_r; lia).
  replace (e2 - - s) with (e2 + s) in Hle by lia.
  destruct M as [|p|p]; [left; reflexivity| |lia].
  right. exists s, p, e2.
  assert (e2 <= -8) as He9.
  { destruct (Z_le_gt_dec e2 (-8)) as [|Hgt]; [assumption|exfalso].
    assert (2 ^ (s - 7) <= 2 ^ (e2 + s)) by (apply Z.pow_le_mono_r; lia).
    assert (2 ^ (s - 52) < 2 ^ (s - 8)) by (apply Z.pow_lt_mono_r; lia).
    assert (2 ^ (s - 7) = 2 * 2 ^ (s - 8)).
    { replace (s - 7) with (1 + (s - 8)) by lia. rewrite Z.pow_add_r by lia. reflexivity. }
    assert (2 ^ (e2 + s) <= Z.pos p * 2 ^ (e2 + s)) by nia.
    lia. }
  split; [exact Hs|]. split; [lia|]. split; [lia|].
  replace (e2 <=? F64.emax - F64.prec) with true; [reflexivity|].
  symmetry. apply Z.leb_le. unfold F64.emax, F64.prec. lia.
Qed.


(** One added line among at least 256 is less than one percent. *)
Lemma pct_of_one_large b : 256 <= b -> pct_of 1 b = 0.
Proof.
  intros Hb. unfold pct_of.
  destruct (truediv_one_upper b Hb) as [-> | (s & p & e2 & Hs & He2 & Hp & ->)];
    [reflexivity|].
  unfold F64.mul. cbn [F64.of_Z SFmul xorb].
  set (m := Z.pos (p * 100)).
  assert (0 < m) as Hm by (subst m; lia).
  destruct (binary_round_aux_upper F64.prec F64.emax m (e2 + 0) loc_Exact (Z.lt_le_incl _ _ Hm))
    as (M & ey & Hey & HM & Hle & ->).
  replace (ey - (e2 + 0)) with (ey - e2) in Hle by lia.
  assert (2 ^ Z.max 0 (fexp F64.prec F64.emax (Zdigits2 m + (e2 + 0)) - (e2 + 0)) <= m) as Hn.
  { pose proof (Zdigits2_pow m Hm) as Hd.
    assert (1 <= Zdigits2 m) by (subst m; simpl; lia).
    etransitivity; [|exact Hd]. apply Z.pow_le_mono_r; [lia|].
    unfold fexp, emin, F64.prec, F64.emax. lia. }
  assert (0 < 2 ^ (e2 + s)) as Hk by (apply pow2_pos; lia).
  assert (0 < 2 ^ (ey - e2)) as Hk2 by (apply pow2_pos; lia).
  assert (2 ^ s = 2 ^ (- e2) * 2 ^ (e2 + s)) as Hs1.
  { rewrite <- Z.pow_add_r by lia. f_equal. lia. }
  assert (2 ^ s = 256 * 2 ^ (s - 8)) as Hs2.
  { replace s with (8 + (s - 8)) at 1 by lia. rewrite Z.pow_add_r by lia. reflexivity. }
  assert (2 ^ (s - 52) <= 2 ^ (s - 8)) as Hs3 by (apply Z.pow_le_mono_r; lia).
  assert (2 ^ (s - 8) = 2 ^ 44 * 2 ^ (s - 52)) as Hs4.
  { rewrite <- Z.pow_add_r by lia. f_equal. lia. }
  assert (0 < 2 ^ (s - 52)) as Hs5 by (apply pow2_pos; lia).
  assert (2 * m < 2 ^ (- e2)) as H200.
  { subst m. rewrite Pos2Z.inj_mul.
    change (2 ^ 44) with 17592186044416 in Hs4.
    assert (200 * Z.pos p * 2 ^ (e2 + s) < 2 ^ (- e2) * 2 ^ (e2 + s)) by lia.
    nia. }
  destruct M as [|p'|p']; [reflexivity| |lia].
  assert (ey < 0) as Hey0.
  { destruct (Z_lt_ge_dec ey 0) as [|Hge]; [assumption|exfalso].
    assert (2 ^ (- e2) <= 2 ^ (ey - e2)) by (apply Z.pow_le_mono_r; lia).
    assert (2 ^ (ey - e2) <= Z.pos p' * 2 ^ (ey - e2)) by nia.
    lia. }
  replace (ey <=? F64.emax - F64.prec) with true
    by (symmetry; apply Z.leb_le; unfold F64.emax, F64.prec; lia).
  assert (0 < 2 ^ (- ey)) as Hk3 by (apply pow2_pos; lia).
  assert (Z.pos p' < 2 ^ (- ey)) as Hsmall.
  { assert (2 ^ (- e2) = 2 ^ (- ey) * 2 ^ (ey - e2)) as E.
    { rewrite <- Z.pow_add_r by lia. f_equal. lia. }
    assert (Z.pos p' * 2 ^ (ey - e2) < 2 ^ (- ey) * 2 ^ (ey - e2)) by lia.
    nia. }
  unfold F64.int_min_100, F64.ltb_Z, F64.trunc.
  replace (0 <=? ey) with false by (symmetry; apply Z.leb_gt; exact Hey0).
  replace (Z.pos p' <? 100 * 2 ^ (- ey)) with true by (symmetry; apply Z.ltb_lt; lia).
  apply Z.div_small. lia.
Qed.

Lemma pct_of_zero b : 0 < b -> pct_of 0 b = 0.
Proof. intros Hb. destruct b; try lia. reflexivity. Qed.

End F64Facts.

Section Budget.

Context `{RT : Runtime}.

Lemma int_min_100_le x : (F64.int_min_100 x <= 100)%Z.
Proof.
  unfold F64.int_min_100. destruct (F64.ltb_Z x 100) eqn:E; [|lia].
  destruct x as [s|s| |s m e]; cbn [F64.trunc F64.ltb_Z] in *; try lia.
  destruct (0 <=? e)%Z eqn:He.
  - destruct s; [pose proof (Z.pow_nonneg 2 e); lia|].
    apply Z.ltb_lt in E. lia.
  - apply Z.leb_gt in He. assert (0 < 2 ^ (- e))%Z by (apply Z.pow_pos_nonneg; lia).
    destruct s.
    + pose proof (Z.div_pos (Z.pos m) (2 ^ (- e))). lia.
    + apply Z.ltb_lt in E. apply Z.lt_le_incl, Z.div_lt_upper_bound; lia.
Qed.

Lemma pct_of_le_100 a b : (pct_of a b <= 100)%Z.
Proof. apply int_min_100_le. Qed.

Lemma pct_exact_upto_spec n :
  pct_exact_upto n = true ->
  forall a b, (a = 0 \/ a = 1)%Z -> (1 <= b <= Z.of_nat n)%Z ->
    pct_of a b = Z.min 100 (100 * a / b).
Proof.
  unfold pct_exact_upto. intros H a b Ha Hb.
  rewrite forallb_forall in H.
  assert (In (Z.to_nat (b - 1)) (seq 0 n)) as Hin by (apply in_seq; lia).
  specialize (H _ Hin). cbv beta zeta in H.
  replace (Z.of_nat (S (Z.to_nat (b - 1)))) with b in H by lia.
  apply andb_true_iff in H as [H0 H1].
  apply Z.eqb_eq in H0, H1.
  destruct Ha as [-> | ->].
  - rewrite H0. rewrite Z.mul_0_r, Z.div_0_l by lia. reflexivity.
  - rewrite H1, Z.mul_1_r. reflexivity.
Qed.

Lemma pct_exact_checked : pct_exact_upto 255 = true.
Proof. vm_compute. reflexivity. Qed.

(** For no or one added line the float computation gives the integer
    part of the exact percentage, whatever the number of lines. *)
Lemma pct_exact a b :
  (a = 0 \/ a = 1)%Z -> (1 <= b)%Z ->
  pct_of a b = Z.min 100 (100 * a / b).
Proof.
  intros Ha Hb. destruct (Z_le_gt_dec b 255) as [Hs|Hl].
  - apply (pct_exact_upto_spec _ pct_exact_checked); [exact Ha | lia].
  - destruct Ha as [-> | ->].
    + rewrite F64Facts.pct_of_zero by lia. reflexivity.
    + rewrite F64Facts.pct_of_one_large by lia.
      rewrite Z.mul_1_r, Z.div_small by lia. reflexivity.
Qed.

(** The proposal [prepare] builds: the original, touched unless it
    already carries the marker. *)
Lemma prepare_proposal strategy w a w1 :
  prepare strategy w = (Ok a, w1) ->
  if Py.contains "# auto-repair touch" (original a) then new a = original a
  else exists n, new a = original a +:+ nl +:+ "# auto-repair touch: " +:+ now_iso n +:+ nl.
Proof.
  intros H. unfold prepare, propose in H.
  run_steps H; simplify_eq; cbn [original new].
  all: match goal with
       | E : Py.contains _ _ = _ |- _ => rewrite E
       end; eauto.
Qed.

Lemma prepare_added strategy w a w1 :
  (forall n, no_linebreak (now_iso n) = true) ->
  prepare strategy w = (Ok a, w1) ->
  added_lines (original a) (new a) = absent_lines (original a) (new a)
  /\ (List.length (added_lines (original a) (new a)) <= 1)%nat.
Proof.
  intros Hiso H. apply prepare_proposal in H.
  destruct (Py.contains _ (original a)) eqn:E.
  - rewrite H, PyFacts.added_lines_same, PyFacts.absent_lines_same.
    split; [reflexivity | simpl; lia].
  - destruct H as (n & ->).
    rewrite PyFacts.added_lines_touch, PyFacts.absent_lines_touch by auto.
    split; [reflexivity | simpl; lia].
Qed.

(** In [run_repair] the percentage is the integer part of the exact
    percentage of the added lines. *)
Lemma prepare_delta strategy w a w1 :
  (forall n, no_linebreak (now_iso n) = true) ->
  prepare strategy w = (Ok a, w1) ->
  delta_pct (original a) (new a)
  = Z.min 100 (100 * Z.of_nat (List.length (added_lines (original a) (new a)))
               / Z.max 1 (Z.of_nat (List.length (Py.splitlines (original a))))).
Proof.
  intros Hiso H. destruct (prepare_added _ _ _ _ Hiso H) as [_ Hle].
  unfold delta_pct, base_lines. apply pct_exact; lia.
Qed.

(** After a scan without hits, an attempt whose strategy triggers no
    escalation and whose percentage is within both thresholds passes the
    policy checks and is neither rejected nor sent to escalation. *)
Lemma within_budget_passes strategy w a w2 esc :
  passes_scan strategy w a w2 ->
  fst (load_escalation (change_budget_pct a) w2) = Ok esc ->
  existsb (String.eqb strategy) (triggers esc) = false ->
  (delta_pct (original a) (new a) <= max_no_ack esc)%Z ->
  (delta_pct (original a) (new a) <= change_budget_pct a)%Z ->
  passes_policy strategy w a w2 esc
  /\ fst (run_repair strategy w) <> Ok 3%Z
  /\ fst (run_repair strategy w) <> Ok 5%Z.
Proof.
  intros Hps He Ht Hm Hb.
  assert (need_ack strategy (delta_pct (original a) (new a)) esc = false) as Hn.
  { unfold need_ack. rewrite Ht. cbn [orb]. rewrite Z.gtb_ltb. apply Z.ltb_ge. lia. }
  assert ((delta_pct (original a) (new a) >? change_budget_pct a)%Z = false) as Hg.
  { rewrite Z.gtb_ltb. apply Z.ltb_ge. lia. }
  split; [exact (conj Hps (conj He (conj Hn Hg)))|].
  destruct Hps as (Hf & w1 & Hp & Hs).
  rewrite (run_repair_after_scan _ _ _ _ _ Hf Hp Hs), He. cbv zeta. rewrite Hn, Hg.
  destruct (stage_shadow (new a) w2) as [[[]|e] w3]; [|split; discriminate].
  destruct (run_tests true w3) as [[ok|e] w4]; [|split; discriminate].
  destruct (require_green a && negb ok)%bool; [split; discriminate|].
  destruct (create_snapshot "auto-repair" _) as [[[]|e] w5]; [|split; discriminate].
  destruct (FS.write_file target_file (Text (new a)) (fs w5)); split; discriminate.
Qed.

(** C7. The change percentage is the number of added lines divided by
    the number of lines of the original, at least 1, multiplied by 100
    in binary64 arithmetic, truncated to an integer and capped at 100.
    In every attempt of [run_repair] the added lines are the lines of the
    proposal that are absent verbatim from the original content, there
    is at most one of them, and the percentage is the integer part of
    the exact percentage, capped at 100. The comparisons with the
    thresholds are strict: a percentage equal to the budget passes, a
    larger one without escalation is rejected with status 3. With 20
    original lines and 1 added line the percentage is 5, which a budget
    of 5 allows. *)
Theorem change_percentage_and_budget :
  (forall original new,
     delta_pct original new
     = F64.int_min_100
         (F64.mul (F64.truediv (Z.of_nat (List.length (added_lines original new)))
                               (Z.max 1 (Z.of_nat (List.length (Py.splitlines original)))))
                  (F64.of_Z 100)))
  /\ (forall original new, (delta_pct original new <= 100)%Z)
  /\ (forall a b, (a = 0 \/ a = 1)%Z -> (1 <= b)%Z ->
        pct_of a b = Z.min 100 (100 * a / b))
  /\ (forall strategy w a w1,
        (forall n, no_linebreak (now_iso n) = true) ->
        prepare strategy w = (Ok a, w1) ->
        added_lines (original a) (new a) = absent_lines (original a) (new a)
        /\ (List.length (absent_lines (original a) (new a)) <= 1)%nat
        /\ delta_pct (original a) (new a)
           = Z.min 100 (100 * Z.of_nat (List.length (absent_lines (original a) (new a)))
                        / Z.max 1 (Z.of_nat (List.length (Py.splitlines (original a))))))
  /\ (forall original new,
        List.length (Py.splitlines original) = 20 ->
        List.length (added_lines original new) = 1 ->
        delta_pct original new = 5%Z)
  /\ (forall strategy w a w2 esc,
        passes_scan strategy w a w2 ->
        fst (load_escalation (change_budget_pct a) w2) = Ok esc ->
        existsb (String.eqb strategy) (triggers esc) = false ->
        (delta_pct (original a) (new a) <= max_no_ack esc)%Z ->
        (delta_pct (original a) (new a) <= change_budget_pct a)%Z ->
        passes_policy strategy w a w2 esc
        /\ fst (run_repair strategy w) <> Ok 3%Z
        /\ fst (run_repair strategy w) <> Ok 5%Z)
  /\ (forall strategy w a w2 esc,
        passes_scan strategy w a w2 ->
        fst (load_escalation (change_budget_pct a) w2) = Ok esc ->
        need_ack strategy (delta_pct (original a) (new a)) esc = false ->
        (delta_pct (original a) (new a) > change_budget_pct a)%Z ->
        fst (run_repair strategy w) = Ok 3%Z).
Proof.
  split; [reflexivity|]. split; [intros; apply pct_of_le_100|].
  split; [apply pct_exact|]. split; [|split; [|split]].
  - intros strategy w a w1 Hiso H.
    destruct (prepare_added _ _ _ _ Hiso H) as [Heq Hle].
    pose proof (prepare_delta _ _ _ _ Hiso H) as Hd.
    rewrite Heq in Hle, Hd. auto.
  - intros original new Ho Ha. unfold delta_pct, base_lines. rewrite Ho, Ha.
    vm_compute. reflexivity.
  - apply within_budget_passes.
  - intros strategy w a w2 esc Hps He Hn Hb.
    erewrite repair_run_complete
      by (eapply RunRejected; try eassumption; apply Z.gtb_lt; lia).
    reflexivity.
Qed.

End Budget.

(** * Further properties of the code

    The functions around the repair pipeline: the readers, the freeze
    flag, the bootstrap, the snapshots and the scaffolding of agents. *)

(** ** Quotes *)

Module StripFacts.
Import PyFacts.

Lemma last_char_snoc s c : Py.last_char (s +:+ String c EmptyString) = Some c.
Proof.
  induction s as [|a s IH]; [reflexivity|]. rewrite append_cons. cbn [Py.last_char].
  destruct (s +:+ String c EmptyString) eqn:E; [destruct s; discriminate|]. exact IH.
Qed.

Lemma init_snoc s c : Py.init (s +:+ String c EmptyString) = s.
Proof.
  induction s as [|a s IH]; [reflexivity|]. rewrite append_cons. cbn [Py.init].
  destruct (s +:+ String c EmptyString) eqn:E; [destruct s; discriminate|].
  rewrite IH. reflexivity.
Qed.

Lemma last_char_init s c : Py.last_char s = Some c -> s = Py.init s +:+ String c EmptyString.
Proof.
  induction s as [|a s IH]; [discriminate|]. cbn [Py.last_char Py.init].
  destruct s as [|b s]; [intros [= ->]; reflexivity|].
  intros H. rewrite append_cons. f_equal. apply IH, H.
Qed.

Lemma rstrip_snoc s c :
  Py.isspace c = false -> Py.rstrip (s +:+ String c EmptyString) = s +:+ String c EmptyString.
Proof.
  intros Hc. induction s as [|a s IH].
  - rewrite append_nil. cbn [Py.rstrip]. rewrite Hc. reflexivity.
  - rewrite append_cons. cbn [Py.rstrip]. rewrite IH.
    destruct (s +:+ String c EmptyString) eqn:E; [destruct s; discriminate|]. reflexivity.
Qed.

Lemma rstrip_app_blank s ws : blank ws = true -> Py.rstrip (s +:+ ws) = Py.rstrip s.
Proof.
  intros Hw. induction s as [|a s IH].
  - rewrite append_nil. apply rstrip_empty, Hw.
  - rewrite append_cons. cbn [Py.rstrip]. rewrite IH. reflexivity.
Qed.

Lemma lstrip_blank_app ws s : blank ws = true -> Py.lstrip (ws +:+ s) = Py.lstrip s.
Proof.
  induction ws as [|a ws IH]; [reflexivity|]. cbn [blank]. intros H.
  apply andb_true_iff in H as [Ha Hw]. rewrite append_cons. cbn [Py.lstrip]. rewrite Ha. auto.
Qed.

Lemma lstrip_nonspace c s : Py.isspace c = false -> Py.lstrip (String c s) = String c s.
Proof. intros H. cbn [Py.lstrip]. rewrite H. reflexivity. Qed.

(** Stripping removes the surrounding whitespace of a text that starts
    and ends with other characters. *)
Lemma strip_around ws1 c s l ws2 :
  blank ws1 = true -> blank ws2 = true ->
  Py.isspace c = false -> Py.isspace l = false ->
  Py.strip (ws1 +:+ String c (s +:+ String l EmptyString) +:+ ws2)
  = String c (s +:+ String l EmptyString).
Proof.
  intros H1 H2 Hc Hl. unfold Py.strip.
  rewrite <- append_assoc, rstrip_app_blank by exact H2.
  replace (ws1 +:+ String c (s +:+ String l EmptyString))
    with ((ws1 +:+ String c s) +:+ String l EmptyString)
    by (rewrite append_assoc; reflexivity).
  rewrite rstrip_snoc by exact Hl.
  rewrite append_assoc, lstrip_blank_app by exact H1.
  rewrite append_cons. apply lstrip_nonspace, Hc.
Qed.

Lemma trimmed_shape s :
  trimmed s = true ->
  exists c r, s = String c r /\ Py.isspace c = false
              /\ exists l, Py.last_char s = Some l /\ Py.isspace l = false.
Proof.
  unfold trimmed. destruct s as [|c r]; [discriminate|].
  destruct (Py.last_char (String c r)) as [l|]; [|discriminate].
  intros H. apply andb_true_iff in H as [Hc Hl]. apply negb_true_iff in Hc, Hl.
  eauto 8.
Qed.

Lemma strip_trimmed s : trimmed s = true -> Py.strip s = s.
Proof.
  intros H. destruct (trimmed_shape s H) as (c & r & -> & Hc & l & Hl & Hls).
  unfold Py.strip. rewrite (last_char_init _ _ Hl), rstrip_snoc by exact Hls.
  rewrite <- (last_char_init _ _ Hl). apply lstrip_nonspace, Hc.
Qed.

Lemma strip_trimmed_around ws1 s ws2 :
  blank ws1 = true -> blank ws2 = true -> trimmed s = true ->
  Py.strip (ws1 +:+ s +:+ ws2) = s.
Proof.
  intros H1 H2 H. unfold Py.strip.
  rewrite <- append_assoc, rstrip_app_blank by exact H2.
  destruct (trimmed_shape s H) as (c & r & E & Hc & l & Hl & Hls).
  rewrite (last_char_init _ _ Hl), <- append_assoc, rstrip_snoc by exact Hls.
  rewrite append_assoc, lstrip_blank_app by exact H1.
  rewrite <- (last_char_init _ _ Hl), E. apply lstrip_nonspace, Hc.
Qed.

End StripFacts.

Section Quotes.

Import StripFacts PyFacts.

Lemma quote_nonspace q : q = quote \/ q = apostrophe -> Py.isspace q = false.
Proof. intros [-> | ->]; reflexivity. Qed.

Lemma strip_quotes_wrapped s q body :
  q = quote \/ q = apostrophe ->
  Py.strip s = String q (body +:+ String q EmptyString) ->
  _strip_quotes s = body.
Proof.
  intros Hq E. unfold _strip_quotes. rewrite E.
  destruct (body +:+ String q EmptyString) as [|b r] eqn:Eb; [destruct body; discriminate|].
  rewrite <- Eb, last_char_snoc, init_snoc.
  destruct Hq as [-> | ->]; reflexivity.
Qed.

(** X1. [_strip_quotes] removes exactly one pair of matching quotes: for
    a body between two double quotes or between two apostrophes, with any
    whitespace around the pair, the result is the body as it is, inner
    quotes and inner whitespace included. A text that, once stripped, is
    not of that shape is only stripped. *)
Theorem strip_quotes_unwraps_one_pair :
  (forall q body ws1 ws2,
     q = quote \/ q = apostrophe ->
     blank ws1 = true -> blank ws2 = true ->
     _strip_quotes (ws1 +:+ String q (body +:+ String q EmptyString) +:+ ws2) = body)
  /\ (forall s,
        (forall q body, q = quote \/ q = apostrophe ->
                        Py.strip s <> String q (body +:+ String q EmptyString)) ->
        _strip_quotes s = Py.strip s).
Proof.
  split.
  - intros q body ws1 ws2 Hq H1 H2. apply (strip_quotes_wrapped _ q); [exact Hq|].
    apply strip_around; auto using quote_nonspace.
  - intros s H. unfold _strip_quotes.
    destruct (Py.strip s) as [|c [|c2 r]] eqn:E; try reflexivity.
    destruct (Py.last_char (String c2 r)) as [l|] eqn:El; [|reflexivity].
    destruct ((Ascii.eqb c quote && Ascii.eqb l quote)
              || (Ascii.eqb c apostrophe && Ascii.eqb l apostrophe))%bool eqn:B;
      [exfalso|reflexivity].
    apply last_char_init in El.
    apply orb_true_iff in B as [B|B]; apply andb_true_iff in B as [B1 B2];
      apply Ascii.eqb_eq in B1, B2; subst c l.
    + apply (H quote (Py.init (String c2 r))); [left; reflexivity|].
      rewrite <- El. reflexivity.
    + apply (H apostrophe (Py.init (String c2 r))); [right; reflexivity|].
      rewrite <- El. reflexivity.
Qed.

End Quotes.

(** ** The regular expressions of the reader *)

Module RxFacts.
Import PyFacts StripFacts.

Lemma space_not_key c : Py.isspace c = true -> Rx.is_key_char c = false.
Proof.
  destruct c as [[] [] [] [] [] [] [] []]; vm_compute; intros H;
    first [reflexivity | discriminate].
Qed.

Lemma span_key_app k rest :
  forallb Rx.is_key_char (list_ascii_of_string k) = true ->
  match rest with EmptyString => True | String c _ => Rx.is_key_char c = false end ->
  Rx.span_key (k +:+ rest) = (k, rest).
Proof.
  intros Hk Hr. induction k as [|c k IH].
  - rewrite append_nil. destruct rest as [|c r]; [reflexivity|].
    cbn [Rx.span_key]. rewrite Hr. reflexivity.
  - cbn [list_ascii_of_string forallb] in Hk. apply andb_true_iff in Hk as [Hc Hk].
    rewrite append_cons. cbn [Rx.span_key]. rewrite Hc, (IH Hk). reflexivity.
Qed.

Lemma ws_colon_app {A} ws r (k : string -> option A) :
  blank ws = true -> Rx.ws_colon (ws +:+ String ":" r) k = k r.
Proof.
  intros H. unfold Rx.ws_colon. rewrite lstrip_blank_app by exact H. reflexivity.
Qed.

Lemma dot_eol_value b v :
  line_value v = true -> (b = true \/ v <> EmptyString) -> Rx.dot_eol b v = Some v.
Proof.
  unfold line_value, Rx.dot_eol. destruct v as [|c r]; intros H Hb.
  - cbn. destruct Hb as [-> | Hb]; [reflexivity | congruence].
  - apply andb_true_iff in H as [Ht Hn]. apply negb_true_iff in Hn.
    destruct (trimmed_shape _ Ht) as (c' & r' & _ & _ & l & Hl & Hls).
    rewrite Hl.
    replace (Ascii.eqb l "010") with false
      by (symmetry; apply Ascii.eqb_neq; intros ->; discriminate).
    rewrite Hn. cbn [Py.truthy negb andb]. rewrite andb_false_r. reflexivity.
Qed.

Lemma ws_group_value b ws v :
  blank ws = true -> line_value v = true -> (b = true \/ v <> EmptyString) ->
  Rx.ws_group b (ws +:+ v) = Some v.
Proof.
  intros Hw Hv Hb. induction ws as [|c ws IH].
  - rewrite append_nil. destruct v as [|c r]; [apply dot_eol_value; assumption|].
    cbn [Rx.ws_group].
    assert (Py.isspace c = false) as Hc.
    { unfold line_value in Hv. apply andb_true_iff in Hv as [Ht _].
      destruct (trimmed_shape _ Ht) as (c' & r' & [= <- <-] & Hc & _). exact Hc. }
    rewrite Hc. apply dot_eol_value; assumption.
  - cbn [blank] in Hw. apply andb_true_iff in Hw as [Hc Hw].
    rewrite append_cons. cbn [Rx.ws_group]. rewrite Hc, (IH Hw). reflexivity.
Qed.

Lemma rstrip_rstrip_newline s : Py.rstrip (rstrip_newline s) = Py.rstrip s.
Proof.
  induction s as [|a r IH]; [reflexivity|]. cbn [rstrip_newline].
  destruct (rstrip_newline r) as [|b r'] eqn:E.
  - cbn [Py.rstrip] in IH |- *. rewrite <- IH.
    destruct (Ascii.eqb_spec a "010") as [->|Hne]; reflexivity.
  - cbn [Py.rstrip] in IH |- *. rewrite <- IH. reflexivity.
Qed.

Lemma strip_rstrip_newline s : Py.strip (rstrip_newline s) = Py.strip s.
Proof. unfold Py.strip. rewrite rstrip_rstrip_newline. reflexivity. Qed.

Lemma skip_dashes_app d rest :
  dashes d = true ->
  match rest with String "-" _ => False | _ => True end ->
  Rx.skip_dashes (d +:+ rest) = rest.
Proof.
  intros Hd Hr. induction d as [|c d IH].
  - rewrite append_nil. destruct rest as [|c r]; [reflexivity|].
    destruct (Ascii.eqb_spec c "-") as [->|Hne]; [contradiction|].
    cbn [Rx.skip_dashes].
    destruct c as [[] [] [] [] [] [] [] []]; first [reflexivity | congruence].
  - cbn [dashes] in Hd. apply andb_true_iff in Hd as [Hc Hd].
    apply Ascii.eqb_eq in Hc as ->. rewrite append_cons. cbn [Rx.skip_dashes]. auto.
Qed.

End RxFacts.

(** ** The reader, line by line *)

Section YamlFacts.
Import PyFacts StripFacts RxFacts.

Lemma yaml_line_eq data raw :
  yaml_line data raw
  = let s := Py.strip raw in
    if (negb (Py.truthy s) || Py.startswith "#" s)%bool then data
    else
      match Rx.match_run s with
      | Some g => <["steps" := YSteps (steps_of data ++ [_strip_quotes g])]> data
      | None =>
          match Rx.match_kv s with
          | Some (k, v0) =>
              let v := _strip_quotes v0 in
              if (String.eqb k "steps" && (String.eqb v EmptyString || String.eqb v "[]"))%bool
              then <["steps" := YSteps []]> data
              else <[k := if String.eqb v EmptyString then YNone else YStr v]> data
          | None => data
          end
      end.
Proof. unfold yaml_line. cbv zeta. rewrite strip_rstrip_newline. reflexivity. Qed.

Lemma key_text_shape k :
  key_text k = true ->
  exists c r, k = String c r /\ c <> "-"%char /\ Rx.is_key_char c = true
              /\ forallb Rx.is_key_char (list_ascii_of_string k) = true.
Proof.
  unfold key_text. destruct k as [|c r]; [discriminate|]. intros H.
  apply andb_true_iff in H as [Hc Hk]. apply negb_true_iff, Ascii.eqb_neq in Hc.
  exists c, r. repeat split; try assumption.
  cbn [list_ascii_of_string forallb] in Hk. apply andb_true_iff in Hk as [Hk _]. exact Hk.
Qed.

Lemma match_run_other c r : c <> "-"%char -> Rx.match_run (String c r) = None.
Proof.
  intros H. destruct c as [[] [] [] [] [] [] [] []]; first [reflexivity | congruence].
Qed.

Lemma match_kv_line k ws1 ws2 v :
  key_text k = true -> blank ws1 = true -> blank ws2 = true -> line_value v = true ->
  Rx.match_kv (k +:+ ws1 +:+ ":" +:+ ws2 +:+ v) = Some (k, v).
Proof.
  intros Hk H1 H2 Hv.
  destruct (key_text_shape k Hk) as (c & r & -> & _ & _ & Hall).
  unfold Rx.match_kv. rewrite span_key_app.
  - change (":" +:+ ws2 +:+ v) with (String ":" (ws2 +:+ v)).
    rewrite ws_colon_app by exact H1.
    rewrite ws_group_value by auto. reflexivity.
  - exact Hall.
  - destruct ws1 as [|a ws1]; [reflexivity|].
    cbn [blank] in H1. apply andb_true_iff in H1 as [Ha _].
    rewrite append_cons. apply space_not_key, Ha.
Qed.

Lemma yaml_line_kv data raw k v :
  kv_line raw k v ->
  yaml_line data raw
  = let v' := _strip_quotes v in
    if (String.eqb k "steps" && (String.eqb v' EmptyString || String.eqb v' "[]"))%bool
    then <["steps" := YSteps []]> data
    else <[k := if String.eqb v' EmptyString then YNone else YStr v']> data.
Proof.
  intros (ws1 & ws2 & E & Hk & H1 & H2 & Hv).
  rewrite yaml_line_eq, E. cbv zeta.
  destruct (key_text_shape k Hk) as (c & r & -> & Hc & Hkc & _).
  rewrite append_cons.
  replace (Py.startswith "#" (String c (r +:+ ws1 +:+ ":" +:+ ws2 +:+ v))) with false.
  2:{ unfold Py.startswith. cbn [String.prefix].
      destruct (ascii_dec "#" c) as [<-|]; [vm_compute in Hkc; discriminate | reflexivity]. }
  cbn [Py.truthy negb orb].
  rewrite match_run_other by exact Hc.
  rewrite <- append_cons, match_kv_line by assumption. reflexivity.
Qed.

Lemma match_run_line d ws0 ws1 ws2 v :
  dashes d = true -> blank ws0 = true -> blank ws1 = true -> blank ws2 = true ->
  line_value v = true -> v <> EmptyString ->
  Rx.match_run ("-" +:+ d +:+ ws0 +:+ "run" +:+ ws1 +:+ ":" +:+ ws2 +:+ v) = Some v.
Proof.
  intros Hd H0 H1 H2 Hv Hne.
  change ("-" +:+ d +:+ ws0 +:+ "run" +:+ ws1 +:+ ":" +:+ ws2 +:+ v)
    with (String "-" (d +:+ ws0 +:+ String "r" (String "u" (String "n"
            (ws1 +:+ String ":" (ws2 +:+ v)))))).
  cbn [Rx.match_run]. rewrite skip_dashes_app.
  - rewrite lstrip_blank_app by exact H0. cbn [Py.lstrip].
    change (Py.isspace "r") with false. cbv iota.
    rewrite ws_colon_app by exact H1. apply ws_group_value; auto.
  - exact Hd.
  - destruct ws0 as [|a ws0]; [exact I|].
    cbn [blank] in H0. apply andb_true_iff in H0 as [Ha _].
    rewrite append_cons.
    destruct a as [[] [] [] [] [] [] [] []]; first [exact I | discriminate Ha].
Qed.

Lemma yaml_line_step data raw v :
  step_line raw v ->
  yaml_line data raw = <["steps" := YSteps (steps_of data ++ [_strip_quotes v])]> data.
Proof.
  intros (d & ws0 & ws1 & ws2 & E & Hd & H0 & H1 & H2 & Hv & Hne).
  rewrite yaml_line_eq, E. cbv zeta.
  rewrite match_run_line by assumption. reflexivity.
Qed.

Lemma yaml_line_skipped data raw : skipped_line raw = true -> yaml_line data raw = data.
Proof.
  unfold skipped_line. intros H. rewrite yaml_line_eq. cbv zeta.
  apply orb_true_iff in H as [H|H].
  - apply strip_empty in H. rewrite H. reflexivity.
  - rewrite H, orb_true_r. reflexivity.
Qed.

Lemma steps_of_insert_steps l (data : gmap string yvalue) :
  steps_of (<["steps" := YSteps l]> data) = l.
Proof. unfold steps_of. rewrite lookup_insert_eq. reflexivity. Qed.

Lemma yaml_line_lists data raw :
  lists_only_under_steps data -> lists_only_under_steps (yaml_line data raw).
Proof.
  intros H. rewrite yaml_line_eq. cbv zeta.
  destruct (negb _ || _)%bool; [exact H|].
  assert (forall l, lists_only_under_steps (<["steps" := YSteps l]> data)) as Hs.
  { intros l k l' Hk. destruct (decide (k = "steps")) as [->|Hne]; [reflexivity|].
    rewrite lookup_insert_ne in Hk by congruence. eapply H, Hk. }
  destruct (Rx.match_run _); [apply Hs|].
  destruct (Rx.match_kv _) as [[k v0]|]; [|exact H].
  destruct (_ && _)%bool; [apply Hs|].
  intros k' l Hk'. destruct (decide (k' = k)) as [->|Hne].
  - rewrite lookup_insert_eq in Hk'. destruct (String.eqb _ _); discriminate.
  - rewrite lookup_insert_ne in Hk' by congruence. eapply H, Hk'.
Qed.

Lemma fold_yaml_lists lines : forall data,
  lists_only_under_steps data -> lists_only_under_steps (fold_left yaml_line lines data).
Proof.
  induction lines as [|raw lines IH]; intros data H; [exact H|].
  cbn [fold_left]. apply IH, yaml_line_lists, H.
Qed.

End YamlFacts.

Section ReaderTheorems.
Context `{RT : Runtime}.

(** X2. A line that reads as a key, a colon and a value binds the key to
    the value without its surrounding quotes, or to [None] when the value
    is empty (the key [steps] is excluded). The binding replaces whatever
    the earlier lines gave the key, and every other key keeps what the
    earlier lines gave it. *)
Theorem yaml_key_value_binds (lines : list string) (data : gmap string yvalue)
    (raw k v : string) :
  kv_line raw k v -> k <> "steps" ->
  let after := fold_left yaml_line (lines ++ [raw]) data in
  let v' := _strip_quotes v in
  after !! k = Some (if String.eqb v' EmptyString then YNone else YStr v')
  /\ (forall k', k' <> k -> after !! k' = fold_left yaml_line lines data !! k').
Proof.
  intros Hl Hk. cbv zeta. rewrite fold_left_app. cbn [fold_left].
  rewrite (yaml_line_kv _ _ _ _ Hl). cbv zeta.
  replace (String.eqb k "steps") with false by (symmetry; apply String.eqb_neq, Hk).
  cbn [andb]. split.
  - apply lookup_insert_eq.
  - intros k' Hne. apply lookup_insert_ne. congruence.
Qed.

Lemma fold_steps raws : forall vs data,
  Forall2 step_line raws vs ->
  fold_left yaml_line raws data
  = match raws with
    | [] => data
    | _ => <["steps" := YSteps (steps_of data ++ map _strip_quotes vs)]> data
    end.
Proof.
  induction raws as [|raw raws IH]; intros vs data H; inversion H as [|? v ? vs' Hs Hr]; subst;
    [reflexivity|].
  cbn [fold_left map]. rewrite (yaml_line_step _ _ _ Hs), (IH _ _ Hr).
  destruct raws as [|raw2 raws].
  - inversion Hr; subst. reflexivity.
  - rewrite steps_of_insert_steps, insert_insert_eq, <- app_assoc. reflexivity.
Qed.

(** X3. Step lines accumulate: a run of step lines appends their
    values, each without its surrounding quotes, to the list under
    [steps], in order, and changes no other key. A line for the key
    [steps] whose value is empty or the empty list in brackets empties
    the list. *)
Theorem yaml_steps_accumulate :
  (forall raws vs data,
     Forall2 step_line raws vs ->
     let after := fold_left yaml_line raws data in
     steps_of after = steps_of data ++ map _strip_quotes vs
     /\ forall k, k <> "steps" -> after !! k = data !! k)
  /\ (forall raw v data,
        kv_line raw "steps" v ->
        _strip_quotes v = EmptyString \/ _strip_quotes v = "[]" ->
        steps_of (yaml_line data raw) = []).
Proof.
  split.
  - intros raws vs data H. cbv zeta. rewrite (fold_steps _ _ _ H).
    destruct raws as [|raw raws].
    + inversion H; subst. rewrite app_nil_r. split; reflexivity.
    + rewrite steps_of_insert_steps. split; [reflexivity|].
      intros k Hk. apply lookup_insert_ne. congruence.
  - intros raw v data Hl Hv. rewrite (yaml_line_kv _ _ _ _ Hl). cbv zeta.
    replace (String.eqb (_strip_quotes v) EmptyString || String.eqb (_strip_quotes v) "[]")%bool
      with true by (destruct Hv as [-> | ->]; reflexivity).
    cbn [String.eqb Ascii.eqb Bool.eqb andb]. apply steps_of_insert_steps.
Qed.

Lemma fold_skipped lines : forall data,
  forallb skipped_line lines = true -> fold_left yaml_line lines data = data.
Proof.
  induction lines as [|raw lines IH]; intros data H; [reflexivity|].
  cbn [forallb] in H. apply andb_true_iff in H as [Hr Hl].
  cbn [fold_left]. rewrite (yaml_line_skipped _ _ Hr). apply IH, Hl.
Qed.

(** X4. Blank lines and comment lines contribute nothing: removing one
    from a file does not change what the reader returns, and a file made
    of such lines only reads as the empty dictionary. A path that does not
    exist also reads as the empty dictionary, without any effect, and a
    path that is a directory raises an [OSError]. *)
Theorem yaml_skips_comments_and_missing_file :
  (forall pre raw post data,
     skipped_line raw = true ->
     fold_left yaml_line (pre ++ raw :: post) data = fold_left yaml_line (pre ++ post) data)
  /\ (forall text,
        forallb skipped_line (Py.splitlines text) = true -> parse_yaml_like text = ∅)
  /\ (forall p w, FS.lookup (fs w) p = None -> load_yaml_like p w = (Ok ∅, w))
  /\ (forall p w es,
        FS.lookup (fs w) p = Some (Dir es) -> load_yaml_like p w = (Raise (OSError p), w)).
Proof.
  split; [|split; [|split]].
  - intros pre raw post data H. rewrite !fold_left_app. cbn [fold_left].
    rewrite (yaml_line_skipped _ _ H). reflexivity.
  - intros text H. apply fold_skipped, H.
  - intros p w H. unfold load_yaml_like. rewrite bind_path_exists.
    unfold FS.exists_. rewrite H. reflexivity.
  - intros p w es H. unfold load_yaml_like. rewrite bind_path_exists.
    unfold FS.exists_. rewrite H. unfold bind, read_text. rewrite H. reflexivity.
Qed.

(** X5. A list is only ever stored under the key [steps]: the reader
    keeps this invariant line by line, so no other key of a parsed file
    holds a list, and [get] on another key returns a list only if its
    default is one. *)
Theorem yaml_lists_only_under_steps :
  (forall data raw, lists_only_under_steps data -> lists_only_under_steps (yaml_line data raw))
  /\ (forall text, lists_only_under_steps (parse_yaml_like text))
  /\ (forall text k default l,
        k <> "steps" -> default <> VList l ->
        dict_get (parse_yaml_like text) k default <> VList l).
Proof.
  assert (forall text, lists_only_under_steps (parse_yaml_like text)) as H.
  { intros text. apply fold_yaml_lists. intros k l Hk. rewrite lookup_empty in Hk. discriminate. }
  split; [apply yaml_line_lists|]. split; [exact H|].
  intros text k default l Hk Hd. unfold dict_get.
  destruct (parse_yaml_like text !! k) as [y|] eqn:E; [|exact Hd].
  destruct y as [s| |l']; cbn [of_yvalue]; try discriminate.
  apply H in E. contradiction.
Qed.

End ReaderTheorems.

(** ** Lines of the policy file *)

Section PolicyLines.
Import PyFacts StripFacts RxFacts.

Lemma search_pattern_skip pre rest :
  Rx.has_char "p" pre = false ->
  Rx.search_pattern (pre +:+ rest) = Rx.search_pattern rest.
Proof.
  intros H. induction pre as [|c pre IH]; [reflexivity|].
  cbn [Rx.has_char] in H. apply orb_false_iff in H as [Hc Hp].
  rewrite append_cons. cbn [Rx.search_pattern].
  destruct c as [[] [] [] [] [] [] [] []]; try discriminate Hc; apply IH, Hp.
Qed.

Lemma search_pattern_here ws1 ws2 v :
  blank ws1 = true -> blank ws2 = true -> line_value v = true -> v <> EmptyString ->
  Rx.search_pattern ("pattern" +:+ ws1 +:+ ":" +:+ ws2 +:+ v) = Some v.
Proof.
  intros H1 H2 Hv Hne.
  change ("pattern" +:+ ws1 +:+ ":" +:+ ws2 +:+ v)
    with (String "p" (String "a" (String "t" (String "t" (String "e" (String "r" (String "n"
            (ws1 +:+ String ":" (ws2 +:+ v))))))))).
  cbn [Rx.search_pattern]. rewrite ws_colon_app by exact H1.
  rewrite ws_group_value by auto. reflexivity.
Qed.

Ltac next_char H s lit :=
  let c := fresh "c" in
  destruct s as [|c s]; [discriminate H|];
  destruct (ascii_dec c lit) as [->|?];
  [| exfalso; destruct c as [[] [] [] [] [] [] [] []];
     first [discriminate H | congruence]].

Lemma search_pattern_contains s g :
  Rx.search_pattern s = Some g -> Py.contains "pattern" s = true.
Proof.
  induction s as [|c s IH]; [discriminate|].
  intros H.
  change (Py.contains "pattern" (String c s))
    with (String.prefix "pattern" (String c s) || Py.contains "pattern" s)%bool.
  cbn [Rx.search_pattern] in H.
  match type of H with
  | match ?h with _ => _ end = _ => destruct h as [g'|] eqn:Eh
  end.
  - clear H IH. apply orb_true_iff. left.
    destruct (ascii_dec c "p") as [->|?];
      [| exfalso; destruct c as [[] [] [] [] [] [] [] []];
         first [discriminate Eh | congruence]].
    next_char Eh s "a"%char. next_char Eh s "t"%char. next_char Eh s "t"%char.
    next_char Eh s "e"%char. next_char Eh s "r"%char. next_char Eh s "n"%char.
    apply prefix_spec. exists s. reflexivity.
  - rewrite (IH H). apply orb_true_r.
Qed.

Lemma lstrip_suffix s : exists a, s = a +:+ Py.lstrip s.
Proof.
  induction s as [|c s [a IH]]; [exists EmptyString; reflexivity|].
  cbn [Py.lstrip]. destruct (Py.isspace c).
  - exists (String c a). rewrite append_cons. f_equal. exact IH.
  - exists EmptyString. reflexivity.
Qed.

Lemma rstrip_prefix s : exists b, s = Py.rstrip s +:+ b.
Proof.
  induction s as [|c s [b IH]]; [exists EmptyString; reflexivity|].
  cbn [Py.rstrip]. destruct (Py.rstrip s) as [|c' r] eqn:E.
  - destruct (Py.isspace c).
    + exists (String c s). reflexivity.
    + exists s. reflexivity.
  - exists b. rewrite append_cons. f_equal. exact IH.
Qed.

Lemma strip_substring s : substring_of (Py.strip s) s.
Proof.
  unfold Py.strip. destruct (rstrip_prefix s) as [b Hb].
  destruct (lstrip_suffix (Py.rstrip s)) as [a Ha].
  exists a, b. rewrite <- append_assoc, <- Ha. exact Hb.
Qed.

(** X6. A line of the policy file contributes a pattern as soon as the
    word [pattern], a colon and a value occur in it: the text before the
    word is arbitrary, a comment sign included, as long as it holds no
    letter p, and the pattern is the value without its surrounding quotes.
    Conversely every line that contributes a pattern contains the word
    [pattern]. *)
Theorem policy_line_patterns :
  (forall line pre ws1 ws2 v,
     Py.strip line = pre +:+ "pattern" +:+ ws1 +:+ ":" +:+ ws2 +:+ v ->
     Rx.has_char "p" pre = false ->
     blank ws1 = true -> blank ws2 = true ->
     line_value v = true -> v <> EmptyString ->
     policy_line_pattern line = Some (_strip_quotes v))
  /\ (forall line p,
        policy_line_pattern line = Some p -> substring_of "pattern" line).
Proof.
  split.
  - intros line pre ws1 ws2 v E Hp H1 H2 Hv Hne.
    unfold policy_line_pattern. rewrite E, search_pattern_skip by exact Hp.
    rewrite search_pattern_here by assumption. reflexivity.
  - intros line p H. unfold policy_line_pattern in H.
    destruct (Rx.search_pattern (Py.strip line)) as [g|] eqn:E; [|discriminate].
    apply search_pattern_contains, contains_spec in E.
    eapply substring_trans; [exact E | apply strip_substring].
Qed.

End PolicyLines.

(** ** The frame of a repair attempt *)

Lemma write_file2_frame c f d t t' :
  FS.write_file [c; f] d t = Some t' ->
  FS.outside c t t'
  /\ forall g p, g <> f -> FS.lookup t' (c :: g :: p) = FS.lookup t (c :: g :: p).
Proof.
  intros H. split; [eapply FSFacts.write_file_outside, H|].
  destruct t as [|es]; [discriminate|].
  rewrite FSFacts.write_file_dir in H.
  destruct (FS.entry c es) as [x|] eqn:Ec; [|discriminate].
  destruct (FS.write_file [f] d x) as [x'|] eqn:Ef; [|discriminate].
  injection H as <-. intros g p Hg.
  cbn [FS.lookup]. rewrite FSFacts.entry_set_entry_eq, Ec.
  pose proof (FSFacts.write_file_outside _ _ _ _ _ Ef g p Hg) as Ho.
  exact Ho.
Qed.

Ltac frame_chain :=
  repeat first
    [ match goal with
      | H : fs ?x = fs _ |- FS.lookup (fs ?x) _ = _ => rewrite H
      end
    | match goal with
      | H : forall g p, g <> _ -> FS.lookup ?t _ = _ |- FS.lookup ?t (_ :: ?f :: ?p) = _ =>
          rewrite (H f p) by assumption
      end
    | match goal with
      | H : FS.outside _ _ ?t |- FS.lookup ?t (?c :: ?p) = _ =>
          rewrite (H c p) by (first [assumption | discriminate])
      end ];
  try reflexivity.

Section Frame.
Context `{RT : Runtime}.

Lemma repair_run_frame strategy w r w' :
  repair_run strategy w (r, w') ->
  same_but_repair_area (fs w) (fs w')
  /\ (exists rows, audit_log w' = audit_log w ++ rows /\ (List.length rows <= 2)%nat)
  /\ (exists rows, snapshots w' = snapshots w ++ rows /\ (List.length rows <= 1)%nat).
Proof.
  intros H. inversion H; subst; clear H.
  all: footprints;
    try match goal with
    | H : create_snapshot _ _ = (Raise _, _) |- _ =>
        apply create_snapshot_fails in H as (? & ? & ? & ? & ? & ?)
    end;
    repeat match goal with
    | H : FS.mkdir_p SNAP_DIR _ = Some _ |- _ => apply FSFacts.mkdir_p_outside in H
    | H : FS.write_file (snapshot_zip _ _) _ _ = Some _ |- _ =>
        apply FSFacts.write_file_outside in H
    | H : FS.write_file target_file _ _ = Some _ |- _ =>
        apply write_file2_frame in H as [? ?]
    end;
    try (destruct (ack_present _ _));
    unfold snapshotted in *; world_simpl.
  all: split; [split; [intros c p ? ? ? | intros f p ?]|].
  all: try (frame_chain; fail).
  all: rewrite_audit;
    repeat match goal with
    | H : snapshots _ = _ |- _ => rewrite H; clear H
    end;
    split; eexists;
    (split; [first [ symmetry; apply app_nil_r
                   | rewrite <- ?app_assoc; reflexivity ]
            | simpl; lia]).
Qed.


Lemma staging_area evs :
  forallb staging_event evs = true -> forallb repair_area_event evs = true.
Proof.
  intros H. apply forallb_forall. intros e He.
  pose proof (proj1 (forallb_forall _ _) H e He) as Hs.
  destruct e as [m|p s|p|p|p|p|p|p ms|r|r]; try destruct p as [|c p];
    cbn in Hs |- *; try discriminate; try reflexivity; rewrite Hs;
    rewrite ?orb_true_r; reflexivity.
Qed.

Lemma units_events_area silent t units :
  forallb repair_area_event (units_events silent t units) = true.
Proof.
  induction units as [|file rest IH]; [reflexivity|].
  cbn [units_events forallb]. unfold TESTS_DIR at 1. cbn [app repair_area_event].
  destruct (exec_unit t (TESTS_DIR ++ [file])); destruct silent;
    cbn [app forallb repair_area_event andb]; try exact IH; reflexivity.
Qed.

Ltac area_case :=
  footprints;
  try match goal with
  | H : create_snapshot _ _ = (Raise _, _) |- _ =>
      rewrite create_snapshot_eq in H;
      repeat match type of H with
      | context [match ?x with _ => _ end] => destruct x
      end; simplify_eq
  end;
  unfold snapshotted, snapshot_events in *; world_simpl;
  erewrite new_events_app
    by (rewrite_trace; rewrite <- ?app_assoc;
        first [reflexivity | symmetry; apply app_nil_r]);
  rewrite ?forallb_app;
  repeat match goal with
  | H : forallb staging_event _ = true |- _ =>
      rewrite (staging_area _ H); clear H
  end;
  rewrite ?units_events_area; reflexivity.

Lemma repair_run_area strategy w r w' :
  repair_run strategy w (r, w') ->
  forallb repair_area_event (new_events w w') = true.
Proof.
  intros H. inversion H; subst; clear H.
  - area_case.
  - area_case.
  - area_case.
  - area_case.
  - area_case.
  - destruct (ack_present (fs w2) (req_path esc)); area_case.
  - area_case.
  - area_case.
  - area_case.
  - area_case.
  - area_case.
  - area_case.
  - area_case.
Qed.

(** X7. Whatever its outcome, every step [run_repair] itself takes is
    in the repair area: it prints, it adds rows to the database, it
    changes the tree below [.forge] and below [snapshots], it writes
    [core/registry.py], and it loads units of [tests]; what a loaded unit
    and its loader do to the workspace is outside this statement. When
    the attempt loads no unit, the tree is as it was outside [.forge],
    [snapshots] and [core/registry.py]. The attempt appends at most two
    rows to the audit log and at most one row to the snapshot index. *)
Theorem run_repair_touches_only_repair_area strategy w r w' :
  run_repair strategy w = (r, w') ->
  forallb repair_area_event (new_events w w') = true
  /\ (executed (new_events w w') = [] -> same_but_repair_area (fs w) (fs w'))
  /\ (exists rows, audit_log w' = audit_log w ++ rows /\ (List.length rows <= 2)%nat)
  /\ (exists rows, snapshots w' = snapshots w ++ rows /\ (List.length rows <= 1)%nat).
Proof.
  intros H. pose proof (run_repair_run strategy w) as R. rewrite H in R.
  split; [apply (repair_run_area strategy w r w' R)|].
  destruct (repair_run_frame strategy w r w' R) as (Hf & Ha & Hs). auto.
Qed.

Lemma load_escalation_threshold budget w esc :
  fst (load_escalation budget w) = Ok esc ->
  max_no_ack esc <> budget ->
  exists text,
    FS.lookup (fs w) policy_yaml = Some (File (Text text))
    /\ is_Some (parse_yaml_like text !! "escalation.max_budget_pct_without_ack").
Proof.
  unfold load_escalation, load_yaml_like. fold policy_yaml.
  rewrite bind_assoc, bind_path_exists. unfold FS.exists_.
  destruct (FS.lookup (fs w) policy_yaml) as [[[text|m]|es]|] eqn:E;
    try (unfold bind, read_text; rewrite E; discriminate).
  - unfold bind at 1. unfold bind at 1. unfold read_text. rewrite E. unfold ret at 1.
    intros H Hne. exists text. split; [reflexivity|].
    unfold dict_get in H.
    destruct (parse_yaml_like text !! "escalation.max_budget_pct_without_ack") as [y|];
      [eauto|].
    exfalso. apply Hne. cbn in H. injection H as <-. reflexivity.
  - intros H Hne. exfalso. apply Hne. cbn in H. injection H as <-. reflexivity.
Qed.

(** X8. Status 3 is returned only under a policy file that sets
    [escalation.max_budget_pct_without_ack]: the proposal passed the
    content scan, and its change percentage is above the budget and at
    most the threshold of the policy. *)
Theorem reject_needs_threshold_above_budget strategy w w' :
  run_repair strategy w = (Ok 3%Z, w') ->
  exists a w2 esc text,
    passes_scan strategy w a w2
    /\ fst (load_escalation (change_budget_pct a) w2) = Ok esc
    /\ (change_budget_pct a < delta_pct (original a) (new a) <= max_no_ack esc)%Z
    /\ FS.lookup (fs w) policy_yaml = Some (File (Text text))
    /\ is_Some (parse_yaml_like text !! "escalation.max_budget_pct_without_ack").
Proof.
  intros H. pose proof (run_repair_run strategy w) as R. rewrite H in R.
  apply repair_run_status in R as (a & w2 & esc & Hps & He & Hn & Hb).
  unfold need_ack in Hn. apply orb_false_iff in Hn as [_ Hn].
  rewrite Z.gtb_ltb in Hn. apply Z.ltb_ge in Hn.
  destruct (load_escalation_threshold _ _ _ He) as (text & Hl & Hk); [lia|].
  exists a, w2, esc, text. repeat (split; [first [assumption | lia]|]).
  split; [|exact Hk].
  destruct (passes_scan_footprint _ _ _ _ Hps) as (_ & _ & Ho & _).
  rewrite <- Hl. symmetry. apply Ho. discriminate.
Qed.

End Frame.

(** ** Guards and verdicts *)

Section More.
Context `{RT : Runtime}.

Lemma units_result_true t units ok :
  units_result t units ok = Ok true ->
  ok = true
  /\ forall file, In file units -> unit_verdict (exec_unit t (TESTS_DIR ++ [file])) = true.
Proof.
  revert ok. induction units as [|file rest IH]; intros ok H; cbn [units_result] in H.
  - injection H as ->. split; [reflexivity|]. intros file [].
  - destruct (exec_unit t (TESTS_DIR ++ [file])) as [|b|msg|what] eqn:E;
      try discriminate; apply IH in H as [Hok Hr]; try discriminate.
    + apply andb_true_iff in Hok as [-> _]. split; [reflexivity|].
      intros f [<-|Hf]; [rewrite E; reflexivity | auto].
    + apply andb_true_iff in Hok as [-> ->]. split; [reflexivity|].
      intros f [<-|Hf]; [rewrite E; reflexivity | auto].
Qed.

(** X9. Status 0 means the tests were green when they are required:
    after a committed attempt, with green tests required, every unit that
    the glob finds in [tests] of the live workspace has a passing verdict
    in the tree in which the units ran, a tree that differs from the
    initial one only below [.forge]. *)
Theorem commit_needs_green_tests strategy w w' :
  run_repair strategy w = (Ok 0%Z, w') ->
  exists a w1 t3,
    prepare strategy w = (Ok a, w1)
    /\ FS.outside ".forge" (fs w) t3
    /\ (require_green a = true ->
        forall file, In file (glob_tests (fs w) TESTS_DIR) ->
          unit_verdict (exec_unit t3 (TESTS_DIR ++ [file])) = true).
Proof.
  intros H. pose proof (run_repair_run strategy w) as R. rewrite H in R.
  apply repair_run_status in R as (a & w2 & esc & w3 & ok & w4 & Hpp & Hst & Hte & Hg).
  pose proof Hpp as ((_ & w1 & Hp & _) & _).
  destruct Hpp as (Hps & _).
  destruct (passes_scan_footprint _ _ _ _ Hps) as (_ & _ & Ho & _).
  destruct (stage_shadow_footprint _ _ _ _ Hst) as (_ & _ & _ & Ho' & _).
  assert (FS.outside ".forge" (fs w) (fs w3)) as Ho3 by eauto using FSFacts.outside_trans.
  exists a, w1, (fs w3). split; [exact Hp|]. split; [exact Ho3|].
  intros Hr file Hin. destruct Hg as [Hg | ->]; [congruence|].
  rewrite run_tests_eq in Hte. injection Hte as Hte _.
  apply units_result_true in Hte as [_ Hall]. apply Hall.
  rewrite (glob_tests_outside _ _ Ho3). exact Hin.
Qed.

(** X10. A budget that is not an integer aborts the attempt before any
    effect: in an unfrozen workspace whose command file gives
    [guards.change_budget_pct] a text that [int] rejects, [run_repair]
    raises [ValueError] with that text, and for an empty value it raises
    [TypeError]; the world is left as it was. *)
Theorem malformed_budget_aborts_before_any_effect strategy w text :
  frozen w = false ->
  FS.lookup (fs w) (CMD_DIR ++ ["core.repair.yaml"]) = Some (File (Text text)) ->
  (forall s, parse_yaml_like text !! "guards.change_budget_pct" = Some (YStr s) ->
             Py.int_of_str s = None ->
             run_repair strategy w = (Raise (ValueError s), w))
  /\ (parse_yaml_like text !! "guards.change_budget_pct" = Some YNone ->
      run_repair strategy w = (Raise TypeError, w)).
Proof.
  intros Hf Hl.
  assert (forall v e,
            dict_get (parse_yaml_like text) "guards.change_budget_pct" (VInt 5) = v ->
            py_int v = raise e ->
            run_repair strategy w = (Raise e, w)) as Hgen.
  { intros v e Hv He. unfold run_repair. rewrite bind_path_exists. fold (frozen w).
    rewrite Hf. unfold prepare, load_yaml_like.
    rewrite !bind_assoc, bind_path_exists. unfold FS.exists_. rewrite Hl.
    rewrite !bind_assoc. unfold bind at 1. unfold read_text. rewrite Hl.
    rewrite bind_ret, bind_assoc, Hv, He. reflexivity. }
  split.
  - intros s Hk Hi. apply (Hgen (VStr s)).
    + unfold dict_get. rewrite Hk. reflexivity.
    + cbn [py_int]. rewrite Hi. reflexivity.
  - intros Hk. apply (Hgen VNone).
    + unfold dict_get. rewrite Hk. reflexivity.
    + reflexivity.
Qed.

Lemma prepare_guards strategy w a w1 :
  prepare strategy w = (Ok a, w1) ->
  exists spec,
    fst (load_yaml_like (CMD_DIR ++ ["core.repair.yaml"]) w) = Ok spec
    /\ py_int (dict_get spec "guards.change_budget_pct" (VInt 5)) w
       = (Ok (change_budget_pct a), w)
    /\ require_green a
       = _boolish (dict_get spec "guards.require_green_tests" (VBool true)) true.
Proof.
  intros H. unfold prepare, propose in H.
  rewrite (bind_ro (load_yaml_like _)) in H by apply _.
  destruct (fst (load_yaml_like (CMD_DIR ++ ["core.repair.yaml"]) w)) as [spec|e] eqn:E;
    [|discriminate].
  exists spec. split; [reflexivity|].
  rewrite (bind_ro (py_int _)) in H by apply _.
  pose proof (read_only (m := py_int (dict_get spec "guards.change_budget_pct" (VInt 5))) w) as Hro.
  destruct (py_int (dict_get spec "guards.change_budget_pct" (VInt 5)) w) as [[b|e] wb] eqn:Eb;
    cbn [fst snd] in *; [|discriminate]. subst wb.
  run_steps H; simplify_eq; cbn [change_budget_pct require_green]; split; reflexivity.
Qed.

(** X11. The guards default safely: without a command file the
    specification is empty; without the budget key the budget is 5;
    without the key [guards.require_green_tests], or with an empty value
    for it, green tests are required; with a value they are required
    exactly when the value, stripped and in lower case, is one of 1, true,
    yes, y and on. *)
Theorem repair_guard_defaults strategy w a w1 :
  prepare strategy w = (Ok a, w1) ->
  exists spec,
    fst (load_yaml_like (CMD_DIR ++ ["core.repair.yaml"]) w) = Ok spec
    /\ (FS.lookup (fs w) (CMD_DIR ++ ["core.repair.yaml"]) = None -> spec = ∅)
    /\ (spec !! "guards.change_budget_pct" = None -> change_budget_pct a = 5%Z)
    /\ (spec !! "guards.require_green_tests" = None
        \/ spec !! "guards.require_green_tests" = Some YNone ->
        require_green a = true)
    /\ (forall s, spec !! "guards.require_green_tests" = Some (YStr s) ->
          (require_green a = true
           <-> In (Py.lower (Py.strip s)) ["1"; "true"; "yes"; "y"; "on"])).
Proof.
  intros H. destruct (prepare_guards _ _ _ _ H) as (spec & Hs & Hb & Hg).
  exists spec. split; [exact Hs|]. split; [|split; [|split]].
  - intros Hl. unfold load_yaml_like in Hs. rewrite bind_path_exists in Hs.
    unfold FS.exists_ in Hs. rewrite Hl in Hs. injection Hs as <-. reflexivity.
  - intros Hk. unfold dict_get in Hb. rewrite Hk in Hb. injection Hb as <-. reflexivity.
  - intros Hk. rewrite Hg. unfold dict_get. destruct Hk as [-> | ->]; reflexivity.
  - intros s Hk. rewrite Hg. unfold dict_get. rewrite Hk. cbn [of_yvalue _boolish].
    unfold boolish_words. rewrite existsb_exists. split.
    + intros (x & Hin & Hx). apply String.eqb_eq in Hx as <-. exact Hin.
    + intros Hin. eexists. split; [exact Hin | apply String.eqb_refl].
Qed.

End More.

(** ** A second attempt *)

Section Idem.
Context `{RT : Runtime}.

Lemma read_original_text w s :
  FS.lookup (fs w) target_file = Some (File (Text s)) -> read_original w = (Ok s, w).
Proof.
  intros H. unfold read_original. rewrite bind_path_exists.
  unfold FS.exists_, read_text. rewrite !H. reflexivity.
Qed.

(** The original of an attempt is the text of the live target. *)
Lemma prepare_original strategy w a w1 s :
  prepare strategy w = (Ok a, w1) ->
  FS.lookup (fs w) target_file = Some (File (Text s)) ->
  original a = s.
Proof.
  intros H Hl. unfold prepare, propose in H.
  run_steps H; simplify_eq; cbn [original].
  all: match goal with
       | Hr : fst (read_original ?w0) = Ok ?o |- ?o = _ =>
           rewrite (read_original_text w0 s) in Hr; [cbn in Hr; congruence|];
           world_simpl;
           repeat match goal with
           | Hm : FS.mkdir_p FORGE_TMP _ = Some _ |- _ =>
               apply FSFacts.mkdir_p_outside in Hm
           | Hw : FS.write_file (FORGE_TMP ++ _) _ _ = Some _ |- _ =>
               apply FSFacts.write_file_outside in Hw
           end;
           unfold target_file in *;
           repeat match goal with
           | Ho : FS.outside _ _ ?t |- FS.lookup ?t _ = _ =>
               rewrite (Ho "core" ["registry.py"]) by discriminate
           end;
           exact Hl
       end.
Qed.

Lemma proposal_carries_marker strategy w a w1 :
  prepare strategy w = (Ok a, w1) -> Py.contains "# auto-repair touch" (new a) = true.
Proof.
  intros H. apply prepare_proposal in H.
  destruct (Py.contains "# auto-repair touch" (original a)) eqn:E.
  - rewrite H. exact E.
  - destruct H as (n & ->). apply PyFacts.contains_spec.
    exists (original a +:+ nl), (": " +:+ now_iso n +:+ nl).
    rewrite PyFacts.append_assoc. reflexivity.
Qed.

Lemma touched_proposal_unchanged strategy w a w1 :
  prepare strategy w = (Ok a, w1) ->
  Py.contains "# auto-repair touch" (original a) = true ->
  new a = original a /\ delta_pct (original a) (new a) = 0%Z.
Proof.
  intros H Hc. apply prepare_proposal in H. rewrite Hc in H.
  split; [exact H|]. rewrite H. unfold delta_pct.
  rewrite PyFacts.added_lines_same. apply F64Facts.pct_of_zero.
  unfold base_lines. lia.
Qed.

(** X12. A committed repair is not repeated: after an attempt that ended
    with status 0, a further attempt, with any strategy and any outcome,
    leaves the target file as the first attempt wrote it, and the proposal
    it prepares is the current content, a change of 0 percent. *)
Theorem repair_twice_keeps_target s1 s2 w w1 r w2 :
  run_repair s1 w = (Ok 0%Z, w1) ->
  run_repair s2 w1 = (r, w2) ->
  FS.lookup (fs w2) target_file = FS.lookup (fs w1) target_file
  /\ (forall a2 w', prepare s2 w1 = (Ok a2, w') ->
        new a2 = original a2 /\ delta_pct (original a2) (new a2) = 0%Z).
Proof.
  intros H1 H2.
  pose proof (run_repair_run s1 w) as R1. rewrite H1 in R1.
  pose proof (run_repair_run s2 w1) as R2. rewrite H2 in R2.
  apply repair_run_events in R1
    as [(evs & _ & _ & Hne & _) |
        (a & w2' & esc & w3 & ok & w4 & t1 & t2 & pre
         & Hpp & _ & _ & _ & _ & _ & _ & _ & _ & Hc)]; [congruence|].
  cbv zeta in Hc. destruct Hc as [(Hr & _) | (t & _ & Hw & ->)]; [discriminate|].
  destruct Hpp as ((_ & w1' & Hp & _) & _).
  pose proof (proposal_carries_marker _ _ _ _ Hp) as Hm.
  assert (FS.lookup
            (fs (emit_event (EvPrint MsgApplied)
                   (logged "rewriter" "apply"
                      (apply_detail (added_lines (original a) (new a)))
                      (emit_event (EvWrite target_file (new a))
                         (set_fs t
                            (snapshotted "auto-repair" t1 t2
                               (emit_event (EvPrint MsgTestsOK) w4)))))))
            target_file = Some (File (Text (new a)))) as Hl.
  { world_simpl. eapply FSFacts.write_file_lookup, Hw. }
  set (wa := emit_event (EvPrint MsgApplied) _) in *. clearbody wa. clear Hw.
  assert (forall a2 w', prepare s2 wa = (Ok a2, w') ->
            new a2 = original a2 /\ delta_pct (original a2) (new a2) = 0%Z) as Hsecond.
  { intros a2 w' Hp2. apply (touched_proposal_unchanged _ _ _ _ Hp2).
    rewrite (prepare_original _ _ _ _ _ Hp2 Hl). exact Hm. }
  split; [|exact Hsecond].
  apply repair_run_events in R2
    as [(evs & _ & _ & _ & _ & Hsame) |
        (a2 & w2'' & esc2 & w3' & ok' & w4' & t1' & t2' & pre'
         & Hpp2 & Hst2 & Hte2 & Hmk & Hz & _ & _ & _ & Ho & Hc)]; [exact Hsame|].
  cbv zeta in Hc. destruct Hc as [(-> & -> & _) | (t' & -> & Hw' & ->)].
  - unfold snapshotted. world_simpl. unfold target_file.
    rewrite (FSFacts.write_file_outside _ _ _ _ _ Hz "core" ["registry.py"]) by discriminate.
    rewrite (FSFacts.mkdir_p_outside _ _ _ _ Hmk "core" ["registry.py"]) by discriminate.
    apply Ho. discriminate.
  - destruct Hpp2 as ((_ & w1'' & Hp2 & _) & _).
    destruct (Hsecond _ _ Hp2) as [Hn _].
    world_simpl. rewrite (FSFacts.write_file_lookup _ _ _ _ Hw'), Hl.
    rewrite Hn, (prepare_original _ _ _ _ _ Hp2 Hl). reflexivity.
Qed.

End Idem.

(** ** Directories *)

Module TreeFacts.
Import FSFacts.

Lemma set_entry_same c x es : FS.entry c es = Some x -> FS.set_entry c x es = es.
Proof.
  induction es as [|[m y] r IH]; [discriminate|]. cbn [FS.entry FS.set_entry].
  destruct (String.eqb_spec m c) as [->|Hne].
  - intros [= ->]. reflexivity.
  - intros H. rewrite (IH H). reflexivity.
Qed.

Lemma set_entry_twice c x y es :
  FS.set_entry c y (FS.set_entry c x es) = FS.set_entry c y es.
Proof.
  induction es as [|[m z] r IH]; cbn [FS.set_entry].
  - rewrite String.eqb_refl. reflexivity.
  - destruct (String.eqb_spec m c) as [->|Hne]; cbn [FS.set_entry].
    + rewrite String.eqb_refl. reflexivity.
    + destruct (String.eqb_spec m c); [contradiction|]. rewrite IH. reflexivity.
Qed.

Lemma del_entry_set_entry c x es :
  FS.entry c es = None -> FS.del_entry c (FS.set_entry c x es) = es.
Proof.
  induction es as [|[m y] r IH]; cbn [FS.entry FS.set_entry FS.del_entry].
  - rewrite String.eqb_refl. reflexivity.
  - destruct (String.eqb_spec m c) as [->|Hne]; [discriminate|].
    intros H. cbn [FS.del_entry]. destruct (String.eqb_spec m c); [contradiction|].
    rewrite (IH H). reflexivity.
Qed.

(** [mkdir_p] of a path that is a directory changes nothing. *)
Lemma mkdir_p_id p : forall t es, FS.lookup t p = Some (Dir es) -> FS.mkdir_p p t = Some t.
Proof.
  induction p as [|c q IH]; intros t es H.
  - cbn [FS.lookup] in H. injection H as ->. reflexivity.
  - destruct t as [|es0]; [discriminate|]. cbn [FS.lookup] in H.
    destruct (FS.entry c es0) as [x|] eqn:E; [|discriminate].
    rewrite mkdir_p_dir, E, (IH _ _ H), (set_entry_same _ _ _ E). reflexivity.
Qed.

(** [mkdir_p] leaves a directory at its path. *)
Lemma mkdir_p_creates p : forall t t',
  FS.mkdir_p p t = Some t' -> exists es, FS.lookup t' p = Some (Dir es).
Proof.
  induction p as [|c q IH]; intros t t' H.
  - destruct t as [|es]; [discriminate|]. injection H as <-. eauto.
  - destruct t as [|es]; [discriminate|]. rewrite mkdir_p_dir in H.
    destruct (FS.mkdir_p q _) as [x'|] eqn:E; [|discriminate]. injection H as <-.
    cbn [FS.lookup]. rewrite entry_set_entry_eq. eapply IH, E.
Qed.

(** [mkdir_p] keeps every file, and every directory stays a directory. *)
Lemma mkdir_p_keeps q : forall t t' p x,
  FS.mkdir_p q t = Some t' -> FS.lookup t p = Some x ->
  match x with
  | File d => FS.lookup t' p = Some (File d)
  | Dir _ => exists es, FS.lookup t' p = Some (Dir es)
  end.
Proof.
  induction q as [|c q IH]; intros t t' p x H Hl.
  - destruct t as [|es]; [discriminate|]. injection H as <-.
    rewrite Hl. destruct x; eauto.
  - destruct t as [|es]; [discriminate|]. rewrite mkdir_p_dir in H.
    destruct (FS.mkdir_p q _) as [x'|] eqn:E; [|discriminate]. injection H as <-.
    destruct p as [|c0 p].
    + cbn [FS.lookup] in Hl |- *. injection Hl as <-. eauto.
    + cbn [FS.lookup] in Hl |- *.
      destruct (String.eqb_spec c0 c) as [->|Hne].
      * rewrite entry_set_entry_eq.
        destruct (FS.entry c es) as [y|] eqn:Ey; [|discriminate].
        eapply IH; eassumption.
      * rewrite entry_set_entry_ne by exact Hne.
        destruct (FS.entry c0 es) as [y|]; [|discriminate].
        rewrite Hl. destruct x; eauto.
Qed.

Lemma mkdir_p_keeps_file q t t' p d :
  FS.mkdir_p q t = Some t' -> FS.lookup t p = Some (File d) ->
  FS.lookup t' p = Some (File d).
Proof. intros H Hl. exact (mkdir_p_keeps q t t' p (File d) H Hl). Qed.

Lemma mkdir_p_keeps_dir q t t' p es :
  FS.mkdir_p q t = Some t' -> FS.lookup t p = Some (Dir es) ->
  exists es', FS.lookup t' p = Some (Dir es').
Proof. intros H Hl. exact (mkdir_p_keeps q t t' p (Dir es) H Hl). Qed.

End TreeFacts.

(** *** Trees without repeated names *)

Module UniqueFacts.
Import FSFacts TreeFacts.

Lemma node_induction (P : node -> Prop) :
  (forall d, P (File d)) ->
  (forall es, (forall n x, In (n, x) es -> P x) -> P (Dir es)) ->
  forall t, P t.
Proof.
  intros Hf Hd. fix IH 1. intros [d|es]; [apply Hf|]. apply Hd.
  induction es as [|[m y] r IHr]; intros n x Hin; [destruct Hin|].
  destruct Hin as [[= _ <-]|Hin]; [apply IH | exact (IHr n x Hin)].
Qed.

Lemma unique_cons n x r :
  FS.unique_names (Dir ((n, x) :: r)) = true
  <-> FS.entry n r = None /\ FS.unique_names x = true /\ FS.unique_names (Dir r) = true.
Proof.
  cbn [FS.unique_names]. rewrite !andb_true_iff, negb_true_iff.
  assert (existsb (String.eqb n) (map fst r) = false <-> FS.entry n r = None) as ->; [|tauto].
  induction r as [|[m y] r IH]; [tauto|]. cbn [map fst existsb FS.entry].
  rewrite String.eqb_sym.
  destruct (String.eqb m n); cbn [orb]; [split; discriminate | exact IH].
Qed.

Lemma entry_of_In n x es :
  FS.unique_names (Dir es) = true -> In (n, x) es -> FS.entry n es = Some x.
Proof.
  induction es as [|[m y] r IH]; [contradiction|].
  intros H Hin. apply unique_cons in H as (Hn & _ & Hr). cbn [FS.entry].
  destruct Hin as [[= -> ->]|Hin].
  - rewrite String.eqb_refl. reflexivity.
  - destruct (String.eqb_spec m n) as [->|_]; [|apply IH; assumption].
    rewrite (IH Hr Hin) in Hn. discriminate.
Qed.

Lemma unique_entry n x es :
  FS.unique_names (Dir es) = true -> FS.entry n es = Some x -> FS.unique_names x = true.
Proof.
  induction es as [|[m y] r IH]; [discriminate|].
  intros H. apply unique_cons in H as (_ & Hy & Hr). cbn [FS.entry].
  destruct (String.eqb m n); [intros [= <-]; exact Hy | apply IH, Hr].
Qed.

Lemma files_of_In f d es : In (f, d) (FS.files_of es) -> In (f, File d) es.
Proof.
  induction es as [|[m [d'|es']] r IH]; cbn [FS.files_of]; [contradiction| |].
  - intros [[= -> ->]|H]; [left; reflexivity | right; apply IH, H].
  - intros H. right. apply IH, H.
Qed.

(** Every record of the walk is a directory of the tree. *)
Lemma walk_sound t : forall here folder files,
  FS.unique_names t = true ->
  In (folder, files) (FS.walk here t) ->
  exists p es,
    folder = here ++ p /\ FS.lookup t p = Some (Dir es) /\ files = FS.files_of es
    /\ FS.unique_names (Dir es) = true.
Proof.
  induction t as [d|es IH] using node_induction; intros here folder files Hu Hin;
    [destruct Hin|].
  rewrite walk_dir in Hin. destruct Hin as [[= <- <-]|Hin].
  - exists [], es. rewrite app_nil_r. auto.
  - apply in_flat_map in Hin as ([n x] & Hnx & Hin).
    pose proof (entry_of_In n x es Hu Hnx) as He.
    destruct (IH n x Hnx (here ++ [n]) folder files (unique_entry _ _ _ Hu He) Hin)
      as (p & es' & -> & Hl & -> & Hu').
    exists (n :: p), es'. rewrite <- app_assoc. cbn [app FS.lookup]. rewrite He. auto.
Qed.

Lemma entry_set_entry_unique c x es :
  FS.unique_names (Dir es) = true -> FS.unique_names x = true ->
  FS.unique_names (Dir (FS.set_entry c x es)) = true.
Proof.
  induction es as [|[m y] r IH]; intros H Hx.
  - cbn. rewrite Hx. reflexivity.
  - apply unique_cons in H as (Hn & Hy & Hr). cbn [FS.set_entry].
    destruct (String.eqb_spec m c) as [->|Hne]; apply unique_cons.
    + auto.
    + rewrite entry_set_entry_ne by exact Hne. auto.
Qed.

Lemma mkdir_p_unique q : forall t t',
  FS.unique_names t = true -> FS.mkdir_p q t = Some t' -> FS.unique_names t' = true.
Proof.
  induction q as [|c q IH]; intros t t' Hu H.
  - destruct t; [discriminate|]. injection H as <-. exact Hu.
  - destruct t as [|es]; [discriminate|]. rewrite mkdir_p_dir in H.
    destruct (FS.mkdir_p q _) as [x'|] eqn:E; [|discriminate]. injection H as <-.
    apply entry_set_entry_unique; [exact Hu|].
    eapply IH; [|exact E].
    destruct (FS.entry c es) as [x|] eqn:Ex; [eapply unique_entry; eassumption | reflexivity].
Qed.

(** [mkdir_p] adds no file. *)
Lemma mkdir_p_file_back q : forall t t' p d,
  FS.mkdir_p q t = Some t' -> FS.lookup t' p = Some (File d) ->
  FS.lookup t p = Some (File d).
Proof.
  induction q as [|c q IH]; intros t t' p d H Hl.
  - destruct t; [discriminate|]. injection H as <-. exact Hl.
  - destruct t as [|es]; [discriminate|]. rewrite mkdir_p_dir in H.
    destruct (FS.mkdir_p q _) as [x'|] eqn:E; [|discriminate]. injection H as <-.
    destruct p as [|c0 p]; [discriminate|]. cbn [FS.lookup] in Hl |- *.
    destruct (String.eqb_spec c0 c) as [->|Hne].
    + rewrite entry_set_entry_eq in Hl.
      pose proof (IH _ _ _ _ E Hl) as Hb.
      destruct (FS.entry c es) as [x|]; [exact Hb|].
      destruct p; cbn in Hb; discriminate.
    + rewrite entry_set_entry_ne in Hl by exact Hne. exact Hl.
Qed.

End UniqueFacts.

(** ** Snapshots *)

Section Snap.
Context `{RT : Runtime}.
Import TreeFacts.

(** Every member of the archive is a regular file of the tree outside
    the two skipped folders and outside every [__pycache__]. *)
Lemma snapshot_member_file t name d :
  FS.unique_names t = true ->
  In (name, d) (snapshot_members t) ->
  exists folder file,
    name = as_posix (folder ++ [file])
    /\ FS.lookup t (folder ++ [file]) = Some (File d)
    /\ folder <> SNAP_DIR /\ folder <> FORGE_TMP
    /\ existsb (String.eqb "__pycache__") (ROOT_parts ++ folder ++ [file]) = false.
Proof.
  unfold snapshot_members. intros Hu H.
  apply in_flat_map in H as ([folder files] & Hw & H). unfold snapshot_folder in H.
  destruct (bool_decide (folder = SNAP_DIR)) eqn:Es; [destruct H|].
  destruct (bool_decide (folder = FORGE_TMP)) eqn:Ef; [destruct H|].
  apply bool_decide_eq_false in Es, Ef. cbn [orb] in H.
  apply in_flat_map in H as ([file d'] & Hfile & H).
  destruct (existsb (String.eqb "__pycache__") (ROOT_parts ++ folder ++ [file])) eqn:Ec;
    [destruct H|].
  destruct H as [[= <- <-]|[]].
  apply (UniqueFacts.walk_sound t [] folder files Hu) in Hw as (p & es & -> & Hl & -> & Hu').
  cbn [app] in *.
  exists p, file. repeat (split; [first [reflexivity | assumption]|]).
  split; [|auto].
  rewrite FSFacts.lookup_app, Hl. cbn [FS.lookup].
  rewrite (UniqueFacts.entry_of_In _ _ _ Hu' (UniqueFacts.files_of_In _ _ _ Hfile)).
  reflexivity.
Qed.

(** X13. In a workspace whose database exists and whose directories
    list no name twice, a snapshot under a label without separator that
    succeeds writes one archive, one index row and one audit row and
    changes nothing else outside [snapshots]; the manifest lists the
    members of the archive.
    A name with a content is a member of the archive if and only if the
    name is the path, relative to the root, of a regular file of the
    workspace with that content which is not directly in [snapshots] or
    in [.forge] and has no component [__pycache__] in its absolute
    path. *)
Theorem snapshot_captures_the_workspace label w w5 :
  (exists d, FS.lookup (fs w) DB = Some (File d)) ->
  plain_label label = true ->
  FS.unique_names (fs w) = true ->
  create_snapshot label w = (Ok tt, w5) ->
  exists members,
    let zip := snapshot_zip label w in
    FS.lookup (fs w5) zip = Some (File (Zip members))
    /\ FS.outside "snapshots" (fs w) (fs w5)
    /\ snapshots w5
       = snapshots w
         ++ [SnapshotRow (now_compact (clock w)) label (abs_str zip)
               (Manifest (now_compact (clock w)) label (abs_str []) (map fst members))]
    /\ audit_log w5 = audit_log w ++ [snapshot_audit label w]
    /\ (forall name d,
          In (name, d) members
          <-> exists folder file,
                name = as_posix (folder ++ [file])
                /\ FS.lookup (fs w) (folder ++ [file]) = Some (File d)
                /\ folder <> SNAP_DIR /\ folder <> FORGE_TMP
                /\ existsb (String.eqb "__pycache__") (ROOT_parts ++ folder ++ [file])
                   = false).
Proof.
  intros _ _ Hu H. apply create_snapshot_ok in H as (t1 & t2 & Hm & Hz & ->).
  exists (snapshot_members t1). cbv zeta. unfold snapshotted. cbn [fs snapshots audit_log].
  split; [eapply FSFacts.write_file_lookup, Hz|].
  split.
  { eapply FSFacts.outside_trans.
    - eapply FSFacts.mkdir_p_outside, Hm.
    - eapply FSFacts.write_file_outside, Hz. }
  split; [reflexivity|]. split; [reflexivity|].
  intros name d. split.
  - intros Hin.
    apply (snapshot_member_file t1 name d (UniqueFacts.mkdir_p_unique _ _ _ Hu Hm)) in Hin
      as (folder & file & -> & Hl & Hs & Hf & Hc).
    exists folder, file. repeat (split; [first [reflexivity | assumption]|]).
    split; [|auto]. eapply UniqueFacts.mkdir_p_file_back; eassumption.
  - intros (folder & file & -> & Hl & Hs & Hf & Hc).
    apply snapshot_members_lookup; try assumption.
    eapply mkdir_p_keeps_file; eassumption.
Qed.

(** X14. Two snapshots with the same label taken within one second of
    the clock share one archive: both index rows name the same path, the
    second archive replaces the first, and the manifest of the second row
    lists the members of the archive that is left. *)
Theorem snapshots_of_one_second_share_their_archive label w w1 w2 :
  create_snapshot label w = (Ok tt, w1) ->
  create_snapshot label w1 = (Ok tt, w2) ->
  now_compact (clock w1) = now_compact (clock w) ->
  exists row1 row2 members,
    snapshots w2 = snapshots w ++ [row1; row2]
    /\ s_path row1 = s_path row2
    /\ s_path row2 = abs_str (snapshot_zip label w)
    /\ FS.lookup (fs w2) (snapshot_zip label w) = Some (File (Zip members))
    /\ m_included (s_manifest row2) = map fst members.
Proof.
  intros H1 H2 Hc.
  apply create_snapshot_ok in H1 as (t1 & t2 & Hm & Hz & ->).
  apply create_snapshot_ok in H2 as (t1' & t2' & Hm' & Hz' & ->).
  assert (snapshot_zip label (snapshotted label t1 t2 w) = snapshot_zip label w) as Ez.
  { unfold snapshot_zip. rewrite Hc. reflexivity. }
  rewrite Ez in Hz'.
  eexists _, _, _. unfold snapshotted at 1 3. cbn [snapshots fs].
  unfold snapshotted at 1. cbn [snapshots].
  split; [rewrite <- app_assoc; reflexivity|].
  unfold snapshot_row_of. cbn [s_path s_manifest m_included]. rewrite Ez.
  split; [reflexivity|]. split; [reflexivity|].
  split; [eapply FSFacts.write_file_lookup, Hz' | reflexivity].
Qed.

End Snap.

(** ** The bootstrap *)

Section Ensure.
Context `{RT : Runtime}.
Import TreeFacts.

Lemma mkdir_eq p w :
  mkdir p w = match FS.mkdir_p p (fs w) with
              | Some t => (Ok tt, emit_event (EvMkdir p) (set_fs t w))
              | None => (Raise (OSError p), w)
              end.
Proof. reflexivity. Qed.

Lemma make_dirs_keeps_file ps : forall t t' p d,
  make_dirs ps t = Some t' -> FS.lookup t p = Some (File d) -> FS.lookup t' p = Some (File d).
Proof.
  induction ps as [|q ps IH]; intros t t' p d H Hl; cbn [make_dirs] in H.
  - injection H as <-. exact Hl.
  - destruct (FS.mkdir_p q t) as [t1|] eqn:E; [|discriminate].
    eapply IH; [exact H|]. eapply mkdir_p_keeps_file; eassumption.
Qed.

Lemma make_dirs_keeps_dir ps : forall t t' p es,
  make_dirs ps t = Some t' -> FS.lookup t p = Some (Dir es) ->
  exists es', FS.lookup t' p = Some (Dir es').
Proof.
  induction ps as [|q ps IH]; intros t t' p es H Hl; cbn [make_dirs] in H.
  - injection H as <-. eauto.
  - destruct (FS.mkdir_p q t) as [t1|] eqn:E; [|discriminate].
    destruct (mkdir_p_keeps_dir _ _ _ _ _ E Hl) as [es1 Hl1].
    eapply IH; eassumption.
Qed.

Lemma make_dirs_creates ps : forall t t' p,
  make_dirs ps t = Some t' -> In p ps -> exists es, FS.lookup t' p = Some (Dir es).
Proof.
  induction ps as [|q ps IH]; intros t t' p H Hin; [destruct Hin|].
  cbn [make_dirs] in H. destruct (FS.mkdir_p q t) as [t1|] eqn:E; [|discriminate].
  destruct Hin as [<-|Hin].
  - destruct (mkdir_p_creates _ _ _ E) as [es Hl].
    eapply make_dirs_keeps_dir; eassumption.
  - eapply IH; eassumption.
Qed.

Lemma make_dirs_id ps t :
  (forall p, In p ps -> exists es, FS.lookup t p = Some (Dir es)) ->
  make_dirs ps t = Some t.
Proof.
  induction ps as [|q ps IH]; intros H; [reflexivity|]. cbn [make_dirs].
  destruct (H q (or_introl eq_refl)) as [es Hl].
  rewrite (mkdir_p_id _ _ _ Hl). apply IH. intros p Hp. apply H. right. exact Hp.
Qed.

Lemma fs_emit_set e n w : fs (emit_event e (set_fs n w)) = n.
Proof. reflexivity. Qed.

Lemma audit_emit_set e n w : audit_log (emit_event e (set_fs n w)) = audit_log w.
Proof. reflexivity. Qed.

Lemma snapshots_emit_set e n w : snapshots (emit_event e (set_fs n w)) = snapshots w.
Proof. reflexivity. Qed.

Lemma bind_mkdir_ok p (k : M unit) w w' :
  (mkdir p ;; k) w = (Ok tt, w') ->
  exists t w1, FS.mkdir_p p (fs w) = Some t /\ k w1 = (Ok tt, w') /\ fs w1 = t
               /\ audit_log w1 = audit_log w /\ snapshots w1 = snapshots w.
Proof.
  rewrite bind_mkdir. destruct (FS.mkdir_p p (fs w)) as [t|]; [|discriminate].
  intros H. exists t, (emit_event (EvMkdir p) (set_fs t w)).
  repeat split; assumption.
Qed.

Lemma bind_mkdir_run p (k : M unit) w t0 t w1 :
  fs w = t0 -> FS.mkdir_p p t0 = Some t ->
  (forall w0, fs w0 = t -> exists w', k w0 = (Ok tt, w') /\ fs w' = fs w1) ->
  exists w', (mkdir p ;; k) w = (Ok tt, w') /\ fs w' = fs w1.
Proof.
  intros <- E Hk. rewrite bind_mkdir, E. apply Hk. reflexivity.
Qed.

Lemma ensure_state_ok w w' :
  ensure_state w = (Ok tt, w') ->
  make_dirs state_dirs (fs w) = Some (fs w')
  /\ audit_log w' = audit_log w /\ snapshots w' = snapshots w.
Proof.
  intros H. unfold ensure_state in H.
  apply bind_mkdir_ok in H as (t1 & w1 & E1 & H & F1 & A1 & S1).
  apply bind_mkdir_ok in H as (t2 & w2 & E2 & H & F2 & A2 & S2).
  apply bind_mkdir_ok in H as (t3 & w3 & E3 & H & F3 & A3 & S3).
  apply bind_mkdir_ok in H as (t4 & w4 & E4 & H & F4 & A4 & S4).
  apply bind_mkdir_ok in H as (t5 & w5 & E5 & H & F5 & A5 & S5).
  apply bind_mkdir_ok in H as (t6 & w6 & E6 & H & F6 & A6 & S6).
  rewrite mkdir_eq in H.
  destruct (FS.mkdir_p AGENTS_DIR (fs w6)) as [t7|] eqn:E7; [|discriminate].
  injection H as <-. rewrite fs_emit_set, audit_emit_set, snapshots_emit_set.
  split; [|split; congruence].
  unfold state_dirs. cbn [make_dirs]. subst t1 t2 t3 t4 t5 t6.
  rewrite E1, E2, E3, E4, E5, E6, E7. reflexivity.
Qed.

Lemma ensure_state_run w t :
  make_dirs state_dirs (fs w) = Some t ->
  exists w', ensure_state w = (Ok tt, w') /\ fs w' = t.
Proof.
  unfold state_dirs. cbn [make_dirs]. intros H.
  destruct (FS.mkdir_p (STATE ++ ["blobs"]) (fs w)) as [t1|] eqn:E1; [|discriminate].
  destruct (FS.mkdir_p CMD_DIR t1) as [t2|] eqn:E2; [|discriminate].
  destruct (FS.mkdir_p POL_DIR t2) as [t3|] eqn:E3; [|discriminate].
  destruct (FS.mkdir_p FORGE_TMP t3) as [t4|] eqn:E4; [|discriminate].
  destruct (FS.mkdir_p SNAP_DIR t4) as [t5|] eqn:E5; [|discriminate].
  destruct (FS.mkdir_p TESTS_DIR t5) as [t6|] eqn:E6; [|discriminate].
  destruct (FS.mkdir_p AGENTS_DIR t6) as [t7|] eqn:E7; [|discriminate].
  injection H as <-.
  change t7 with (fs (set_fs t7 w)). unfold ensure_state.
  eapply bind_mkdir_run; [reflexivity|exact E1|intros w1 H1].
  eapply bind_mkdir_run; [exact H1|exact E2|intros w2 H2].
  eapply bind_mkdir_run; [exact H2|exact E3|intros w3 H3].
  eapply bind_mkdir_run; [exact H3|exact E4|intros w4 H4].
  eapply bind_mkdir_run; [exact H4|exact E5|intros w5 H5].
  eapply bind_mkdir_run; [exact H5|exact E6|intros w0 Hw0].
  rewrite mkdir_eq, Hw0, E7. eexists. split; reflexivity.
Qed.

(** X17. In a workspace whose database file exists, a run of
    [ensure_state] that succeeds leaves every folder of [state_dirs] in
    place as a directory, keeps every file with its content and every
    directory a directory, leaves the two tables as they are, and a second
    run succeeds and changes nothing. *)
Theorem ensure_state_creates_and_keeps w w' :
  (exists d, FS.lookup (fs w) DB = Some (File d)) ->
  ensure_state w = (Ok tt, w') ->
  (forall p, In p state_dirs -> exists es, FS.lookup (fs w') p = Some (Dir es))
  /\ (forall p d, FS.lookup (fs w) p = Some (File d) -> FS.lookup (fs w') p = Some (File d))
  /\ (forall p es, FS.lookup (fs w) p = Some (Dir es) ->
        exists es', FS.lookup (fs w') p = Some (Dir es'))
  /\ audit_log w' = audit_log w /\ snapshots w' = snapshots w
  /\ exists w'', ensure_state w' = (Ok tt, w'') /\ fs w'' = fs w'.
Proof.
  intros _ H. apply ensure_state_ok in H as (Hm & Ha & Hs).
  assert (forall p, In p state_dirs -> exists es, FS.lookup (fs w') p = Some (Dir es)) as Hd
      by (intros p Hp; eapply make_dirs_creates; eassumption).
  split; [exact Hd|]. split; [|split; [|split; [exact Ha|split; [exact Hs|]]]].
  - intros p d Hl. eapply make_dirs_keeps_file; eassumption.
  - intros p es Hl. eapply make_dirs_keeps_dir; eassumption.
  - apply ensure_state_run, make_dirs_id, Hd.
Qed.

End Ensure.

(** ** The freeze flag *)

Module FlagFacts.
Import FSFacts TreeFacts.

(** Removing a file that was just created restores the tree. *)
Lemma unlink_write_file p : forall d t t',
  FS.lookup t p = None -> FS.write_file p d t = Some t' -> FS.unlink p t' = Some t.
Proof.
  induction p as [|c q IH]; intros d t t' Hl Hw; [destruct t; discriminate|].
  destruct t as [|es]; [destruct q; discriminate|].
  rewrite write_file_dir in Hw. cbn [FS.lookup] in Hl.
  destruct q as [|c' q'].
  - destruct (FS.entry c es) as [x|] eqn:E; [discriminate|].
    injection Hw as <-. rewrite unlink_dir, entry_set_entry_eq.
    rewrite del_entry_set_entry by exact E. reflexivity.
  - destruct (FS.entry c es) as [x|] eqn:E; [|discriminate].
    destruct (FS.write_file (c' :: q') d x) as [x'|] eqn:Ew; [|discriminate].
    injection Hw as <-. rewrite unlink_dir, entry_set_entry_eq.
    rewrite (IH _ _ _ Hl Ew), set_entry_twice, (set_entry_same _ _ _ E). reflexivity.
Qed.

Lemma unlink_directory p : forall t es,
  p <> [] -> FS.lookup t p = Some (Dir es) -> FS.unlink p t = None.
Proof.
  induction p as [|c q IH]; intros t es Hp Hl; [congruence|].
  destruct t as [|es0]; [discriminate|]. cbn [FS.lookup] in Hl.
  destruct (FS.entry c es0) as [x|] eqn:E; [|discriminate].
  rewrite unlink_dir, E. destruct q as [|c' q'].
  - cbn [FS.lookup] in Hl. injection Hl as ->. reflexivity.
  - rewrite (IH _ _ ltac:(discriminate) Hl). reflexivity.
Qed.

Lemma write_file_directory p : forall d t es,
  FS.lookup t p = Some (Dir es) -> FS.write_file p d t = None.
Proof.
  induction p as [|c q IH]; intros d t es Hl; [destruct t; reflexivity|].
  destruct t as [|es0]; [discriminate|]. cbn [FS.lookup] in Hl.
  destruct (FS.entry c es0) as [x|] eqn:E; [|discriminate].
  rewrite write_file_dir, E. destruct q as [|c' q'].
  - cbn [FS.lookup] in Hl. injection Hl as ->. reflexivity.
  - rewrite (IH _ _ _ Hl). reflexivity.
Qed.

End FlagFacts.

Section Flag.
Context `{RT : Runtime}.
Import FlagFacts.

(** X15. Freezing and then thawing an unfrozen workspace restores the
    tree: the flag is set in between and cleared afterwards, the two audit
    rows [freeze] and [thaw] are appended and the snapshot index is as
    before. Thawing a workspace that is not frozen succeeds as well: it
    only appends its audit row and prints its line. *)
Theorem freeze_then_thaw_restores_the_tree :
  (forall w w1,
     frozen w = false ->
     freeze w = (Ok tt, w1) ->
     exists w2,
       thaw w1 = (Ok tt, w2)
       /\ fs w2 = fs w
       /\ frozen w1 = true /\ frozen w2 = false
       /\ map a_action (audit_log w2) = map a_action (audit_log w) ++ ["freeze"; "thaw"]
       /\ snapshots w2 = snapshots w)
  /\ (forall w,
        frozen w = false ->
        thaw w
        = (Ok tt, emit_event (EvPrint MsgForgeThawed)
                    (logged "forge" "thaw" (Plain "freeze=0") w))).
Proof.
  split.
  - intros w w1 Hf H. unfold freeze in H. run_steps H; simplify_eq.
    unfold frozen, FS.exists_ in Hf.
    destruct (FS.lookup (fs w) FREEZE_FLAG) eqn:Hl; [discriminate|].
    pose proof (unlink_write_file _ _ _ _ Hl Hwrite) as Hu.
    pose proof (FSFacts.write_file_lookup _ _ _ _ Hwrite) as Hn.
    eexists. split.
    { unfold thaw. rewrite bind_path_exists. world_simpl.
      unfold FS.exists_. rewrite Hn. cbn [when].
      rewrite bind_unlink. world_simpl. rewrite Hu.
      rewrite bind_log. reflexivity. }
    world_simpl. split; [reflexivity|].
    unfold frozen, FS.exists_. cbn [fs]. rewrite Hn, Hl.
    split; [reflexivity|]. split; [reflexivity|].
    split; [|reflexivity].
    rewrite !map_app. cbn [map a_action]. rewrite <- app_assoc. reflexivity.
  - intros w Hf. unfold thaw. rewrite bind_path_exists. fold (frozen w). rewrite Hf.
    cbn [when]. rewrite bind_ret, bind_log. reflexivity.
Qed.

(** X16. A directory in the place of the freeze flag can neither be
    removed by [thaw] nor replaced by [freeze]: both raise an [OSError]
    and leave the world as it was, and every repair attempt ends with
    status 1. *)
Theorem directory_at_flag_cannot_be_thawed w es :
  FS.lookup (fs w) FREEZE_FLAG = Some (Dir es) ->
  thaw w = (Raise (OSError FREEZE_FLAG), w)
  /\ freeze w = (Raise (OSError FREEZE_FLAG), w)
  /\ forall strategy, run_repair strategy w = (Ok 1%Z, emit_event (EvPrint MsgFrozen) w).
Proof.
  intros Hl. split; [|split].
  - unfold thaw. rewrite bind_path_exists. unfold FS.exists_. rewrite Hl. cbn [when].
    assert (FREEZE_FLAG <> []) as Hne by (cbv; discriminate).
    rewrite bind_unlink, (unlink_directory _ _ _ Hne Hl). reflexivity.
  - unfold freeze. rewrite bind_write_text, (write_file_directory _ _ _ _ Hl). reflexivity.
  - intros strategy. apply run_repair_frozen. unfold frozen, FS.exists_. rewrite Hl. reflexivity.
Qed.

End Flag.

(** ** The name and the kind of an agent *)

Module NameFacts.

Lemma alnum_only_app a b :
  alnum_only (a +:+ b) = alnum_only a && alnum_only b.
Proof.
  induction a as [|c a IH]; [reflexivity|].
  change (String c a +:+ b) with (String c (a +:+ b)). cbn [alnum_only].
  rewrite IH, andb_assoc. reflexivity.
Qed.

Lemma is_alnum_range n :
  PyStr.is_alnum n = true
  <-> ((48 <= n <= 57) \/ (65 <= n <= 90) \/ (97 <= n <= 122))%N.
Proof.
  unfold PyStr.is_alnum. rewrite !orb_true_iff, !andb_true_iff, !N.leb_le. tauto.
Qed.

Lemma is_alnum_small n : PyStr.is_alnum n = true -> (n < 256)%N.
Proof. rewrite is_alnum_range. lia. Qed.

Lemma ord_ascii_of_N n : (n < 256)%N -> Py.ord (ascii_of_N n) = n.
Proof. intros H. unfold Py.ord. apply N_ascii_embedding, H. Qed.

Lemma findall_tokens l : forall cur,
  alnum_only cur = true ->
  Forall (fun t => t <> EmptyString /\ alnum_only t = true) (PyStr.findall_alnum_go cur l).
Proof.
  induction l as [|n r IH]; intros cur Hcur; cbn [PyStr.findall_alnum_go].
  - destruct cur; [constructor|]. constructor; [|constructor]. split; [discriminate|exact Hcur].
  - destruct (PyStr.is_alnum n) eqn:En.
    + apply IH. rewrite alnum_only_app, Hcur. cbn [alnum_only].
      rewrite ord_ascii_of_N by (apply is_alnum_small, En). rewrite En. reflexivity.
    + destruct cur as [|c cur'].
      * apply IH. reflexivity.
      * constructor; [split; [discriminate|exact Hcur]|]. apply IH. reflexivity.
Qed.

Lemma alnum_only_take n : forall s,
  alnum_only s = true -> alnum_only (String.substring 0 n s) = true.
Proof.
  induction n as [|n IH]; intros [|c s] H; try reflexivity.
  cbn [String.substring alnum_only] in *.
  apply andb_true_iff in H as [-> H]. rewrite (IH _ H). reflexivity.
Qed.

Lemma length_take n : forall s,
  String.length (String.substring 0 n s) = Nat.min n (String.length s).
Proof.
  induction n as [|n IH]; intros [|c s]; try reflexivity.
  cbn [String.substring String.length]. rewrite IH. reflexivity.
Qed.

Lemma alnum_no_char c s :
  PyStr.is_alnum (Py.ord c) = false -> alnum_only s = true -> Rx.has_char c s = false.
Proof.
  intros Hc. induction s as [|d s IH]; [reflexivity|]. cbn [alnum_only Rx.has_char].
  intros H. apply andb_true_iff in H as [Hd H]. rewrite (IH H), orb_false_r.
  destruct (Ascii.eqb_spec c d) as [->|]; [congruence | reflexivity].
Qed.

Lemma alnum_plain s : s <> EmptyString -> alnum_only s = true -> plain_name s = true.
Proof.
  intros Hne H. unfold plain_name.
  rewrite (alnum_no_char "/" s eq_refl H), (alnum_no_char "000" s eq_refl H).
  destruct s as [|c s]; [contradiction|].
  cbn [alnum_only] in H. apply andb_true_iff in H as [Hc _].
  assert (c <> "."%char) as Hdot by (intros ->; discriminate).
  cbn [String.eqb]. destruct (Ascii.eqb_spec c "."); [contradiction|]. reflexivity.
Qed.

Lemma lower_app a b : Py.lower (a +:+ b) = Py.lower a +:+ Py.lower b.
Proof.
  induction a as [|c a IH]; [reflexivity|].
  change (String c a +:+ b) with (String c (a +:+ b)). cbn [Py.lower]. rewrite IH. reflexivity.
Qed.

Lemma lower_split x : forall s y,
  Py.lower s = x +:+ y -> exists a b, s = a +:+ b /\ Py.lower a = x /\ Py.lower b = y.
Proof.
  induction x as [|c x IH]; intros s y H.
  - exists EmptyString, s. repeat split. exact H.
  - destruct s as [|d s]; [discriminate|].
    change (String c x +:+ y) with (String c (x +:+ y)) in H. cbn [Py.lower] in H.
    injection H as Hc H. destruct (IH _ _ H) as (a & b & -> & Ha & Hb).
    exists (String d a), b. repeat split; [|exact Hb]. cbn [Py.lower]. rewrite Hc, Ha. reflexivity.
Qed.

(** The test of [interpret_and_create] for one word. *)
Lemma contains_lower k prompt :
  Py.contains k (Py.lower prompt) = true <-> mentions k prompt.
Proof.
  rewrite PyFacts.contains_spec. unfold substring_of, mentions. split.
  - intros (x & y & H). apply lower_split in H as (a & r & -> & _ & H).
    apply lower_split in H as (w & b & -> & Hw & _). exists a, w, b. split; [reflexivity|exact Hw].
  - intros (a & w & b & -> & <-). exists (Py.lower a), (Py.lower b).
    rewrite !lower_app. reflexivity.
Qed.

Lemma existsb_mentions ws prompt :
  existsb (fun k => Py.contains k (Py.lower prompt)) ws = true
  <-> exists k, In k ws /\ mentions k prompt.
Proof.
  rewrite existsb_exists. split; intros (k & Hk & H); exists k; (split; [exact Hk|]);
    apply contains_lower, H.
Qed.

End NameFacts.

Lemma lower_alnum s : alnum_only s = true -> alnum_only (Py.lower s) = true.
Proof.
  induction s as [|c s IH]; [reflexivity|]. cbn [alnum_only Py.lower].
  intros H. apply andb_true_iff in H as [Hc H]. rewrite (IH H), andb_true_r.
  apply NameFacts.is_alnum_range in Hc. unfold Py.lower_char.
  destruct (_ || _)%bool eqn:E; [|apply NameFacts.is_alnum_range, Hc].
  rewrite NameFacts.ord_ascii_of_N by lia. apply NameFacts.is_alnum_range.
  rewrite orb_true_iff, !andb_true_iff, negb_true_iff, !N.leb_le in E. lia.
Qed.

Lemma lower_empty s : Py.lower s = EmptyString -> s = EmptyString.
Proof. destruct s; [reflexivity | discriminate]. Qed.

(** The name is a non-empty run of at most twenty letters and digits. *)
Lemma interpret_name_alnum prompt :
  interpret_name prompt <> EmptyString
  /\ (String.length (interpret_name prompt) <= 20)%nat
  /\ alnum_only (interpret_name prompt) = true.
Proof.
  unfold interpret_name.
  assert (exists t, (match PyStr.findall_alnum (PyStr.title prompt) with
                     | t :: _ => t | [] => "Agent" end) = t
                    /\ t <> EmptyString /\ alnum_only t = true) as (t & -> & Hne & Hal).
  { pose proof (NameFacts.findall_tokens (PyStr.title prompt) EmptyString eq_refl) as H.
    fold (PyStr.findall_alnum (PyStr.title prompt)) in H.
    destruct (PyStr.findall_alnum (PyStr.title prompt)) as [|t ts].
    - eexists. split; [reflexivity|]. split; [discriminate|reflexivity].
    - inversion H as [|? ? [? ?] ?]; subst. eauto. }
  split; [destruct t; [contradiction | discriminate]|].
  split; [rewrite NameFacts.length_take; lia | apply NameFacts.alnum_only_take, Hal].
Qed.

Lemma interpret_name_plain prompt : plain_name (interpret_name prompt) = true.
Proof.
  destruct (interpret_name_alnum prompt) as (Hne & _ & Hal).
  apply NameFacts.alnum_plain; assumption.
Qed.

(** X18. The agent name read from a prompt is safe as a file name,
    whatever the prompt: it has between 1 and 20 characters, all of them
    ASCII letters or digits, so it is one plain path component, and so is
    its lower-case form, which names the test and the description
    file. *)
Theorem interpret_name_is_safe (prompt : string) :
  let name := interpret_name prompt in
  (1 <= String.length name <= 20)%nat
  /\ alnum_only name = true
  /\ plain_name name = true
  /\ plain_name (Py.lower name) = true.
Proof.
  cbv zeta. destruct (interpret_name_alnum prompt) as (Hne & Hlen & Hal).
  split; [|split; [exact Hal|split]].
  - split; [|exact Hlen]. destruct (interpret_name prompt); [contradiction|].
    cbn [String.length]. lia.
  - apply interpret_name_plain.
  - apply NameFacts.alnum_plain; [|apply lower_alnum, Hal].
    intros E. apply lower_empty in E. contradiction.
Qed.

(** X19. The kind is decided by the first family of words that the
    prompt mentions, in the order game, tv, music; a word counts wherever
    it occurs, inside a longer word too, and in any mix of letter cases.
    A prompt that mentions no word of the three families gives the kind
    [generic]. *)
Theorem interpret_kind_by_family (prompt : string) :
  let said ws := exists k, In k ws /\ mentions k prompt in
  (said game_words -> interpret_kind prompt = "game")
  /\ (~ said game_words -> said tv_words -> interpret_kind prompt = "tv")
  /\ (~ said game_words -> ~ said tv_words -> said music_words ->
      interpret_kind prompt = "music")
  /\ (~ said game_words -> ~ said tv_words -> ~ said music_words ->
      interpret_kind prompt = "generic").
Proof.
  cbv zeta. unfold interpret_kind.
  pose proof (NameFacts.existsb_mentions game_words prompt) as Hg.
  pose proof (NameFacts.existsb_mentions tv_words prompt) as Ht.
  pose proof (NameFacts.existsb_mentions music_words prompt) as Hm.
  destruct (existsb _ game_words); destruct (existsb _ tv_words);
    destruct (existsb _ music_words); intuition congruence.
Qed.

Module WordFacts.











End WordFacts.


(** ** Paths and their frames *)

Module PathFacts.
Import FSFacts TreeFacts.

Lemma leads_to_nil q : leads_to q [] = false -> q <> [].
Proof. destruct q; [discriminate | discriminate]. Qed.

Lemma leads_to_app q p r : leads_to q p = true -> leads_to q (p ++ r) = true.
Proof.
  revert p. induction q as [|c q IH]; intros p H; [reflexivity|].
  destruct p as [|d p]; [discriminate|]. cbn [leads_to app] in *.
  apply andb_true_iff in H as [-> H]. apply IH, H.
Qed.

Lemma leads_to_refl p : leads_to p p = true.
Proof. induction p as [|c p IH]; [reflexivity|]. cbn. rewrite String.eqb_refl. exact IH. Qed.

Lemma lookup_file_below d q : q <> [] -> FS.lookup (File d) q = None.
Proof. destruct q; [contradiction | reflexivity]. Qed.

Lemma lookup_empty_below q : q <> [] -> FS.lookup (Dir []) q = None.
Proof. destruct q; [contradiction | reflexivity]. Qed.

(** [mkdir_p] changes the tree only on the way to its path. *)
Lemma mkdir_p_frame p : forall t t' q,
  FS.mkdir_p p t = Some t' -> leads_to q p = false -> FS.lookup t' q = FS.lookup t q.
Proof.
  induction p as [|c p IH]; intros t t' q H Hq.
  - destruct t; [discriminate|]. injection H as <-. reflexivity.
  - destruct t as [|es]; [discriminate|]. rewrite mkdir_p_dir in H.
    destruct (FS.mkdir_p p _) as [x'|] eqn:E; [|discriminate]. injection H as <-.
    destruct q as [|d q]; [discriminate|]. cbn [leads_to] in Hq. cbn [FS.lookup].
    destruct (String.eqb_spec d c) as [->|Hne].
    + cbn [andb] in Hq. rewrite entry_set_entry_eq, (IH _ _ _ E Hq).
      destruct (FS.entry c es); [reflexivity|].
      apply lookup_empty_below. intros ->. discriminate.
    + rewrite entry_set_entry_ne by exact Hne. reflexivity.
Qed.

(** [write_file] changes the tree only on the way to its path. *)
Lemma write_file_frame p : forall d t t' q,
  FS.write_file p d t = Some t' -> leads_to q p = false -> FS.lookup t' q = FS.lookup t q.
Proof.
  induction p as [|c p IH]; intros d t t' q H Hq; [destruct t; discriminate|].
  destruct t as [|es]; [destruct p; discriminate|]. rewrite write_file_dir in H.
  destruct q as [|c0 q]; [discriminate|]. cbn [leads_to] in Hq. cbn [FS.lookup].
  destruct (String.eqb_spec c0 c) as [->|Hne].
  - cbn [andb] in Hq. destruct p as [|c' p'].
    + assert (q <> []) as Hq' by (intros ->; discriminate).
      destruct (FS.entry c es) as [[]|] eqn:Ec; simplify_eq;
        rewrite entry_set_entry_eq, lookup_file_below by exact Hq';
        [rewrite lookup_file_below by exact Hq'|]; reflexivity.
    + destruct (FS.entry c es) as [x|] eqn:Ec; [|discriminate].
      destruct (FS.write_file (c' :: p') d x) as [x'|] eqn:E; [|discriminate].
      injection H as <-. rewrite entry_set_entry_eq. eapply IH; eassumption.
  - assert (t' = Dir (FS.set_entry c (match p with
                                       | [] => File d
                                       | _ => match FS.entry c es with
                                              | Some x => match FS.write_file p d x with
                                                          | Some x' => x'
                                                          | None => File d
                                                          end
                                              | None => File d
                                              end
                                       end) es)) as ->.
    { destruct p; destruct (FS.entry c es) as [[]|]; simplify_eq; try reflexivity;
        match goal with
        | H : match ?x with _ => _ end = _ |- _ => destruct x; simplify_eq; reflexivity
        end. }
    cbn [FS.lookup]. rewrite entry_set_entry_ne by exact Hne. reflexivity.
Qed.

(** [write_file] keeps every directory a directory. *)
Lemma write_file_keeps_dir p : forall d t t' q es,
  FS.write_file p d t = Some t' -> FS.lookup t q = Some (Dir es) ->
  exists es', FS.lookup t' q = Some (Dir es').
Proof.
  induction p as [|c p IH]; intros d t t' q es H Hl; [destruct t; discriminate|].
  destruct (leads_to q (c :: p)) eqn:Hq;
    [|rewrite (write_file_frame _ _ _ _ _ H Hq); eauto].
  destruct t as [|es0]; [destruct p; discriminate|]. rewrite write_file_dir in H.
  destruct q as [|c0 q].
  { destruct p; destruct (FS.entry c es0) as [[]|]; simplify_eq; eauto;
      match goal with
      | H : match ?x with _ => _ end = _ |- _ => destruct x; simplify_eq; eauto
      end. }
  cbn [leads_to] in Hq. apply andb_true_iff in Hq as [Hc Hq].
  apply String.eqb_eq in Hc as ->. cbn [FS.lookup] in Hl |- *.
  destruct (FS.entry c es0) as [x|] eqn:Ec; [|discriminate].
  destruct p as [|c' p'].
  - destruct q; [|discriminate]. cbn [FS.lookup] in Hl. injection Hl as ->. discriminate.
  - destruct (FS.write_file (c' :: p') d x) as [x'|] eqn:E; [|discriminate].
    injection H as <-. rewrite entry_set_entry_eq. eapply IH; eassumption.
Qed.

(** Writing the content a file already has changes nothing. *)
Lemma write_file_same p : forall d t,
  p <> [] -> FS.lookup t p = Some (File d) -> FS.write_file p d t = Some t.
Proof.
  induction p as [|c p IH]; intros d t Hp H; [contradiction|].
  destruct t as [|es]; [discriminate|]. cbn [FS.lookup] in H.
  destruct (FS.entry c es) as [x|] eqn:Ec; [|discriminate].
  rewrite write_file_dir, Ec. destruct p as [|c' p'].
  - cbn [FS.lookup] in H. injection H as ->. rewrite (set_entry_same _ _ _ Ec). reflexivity.
  - rewrite (IH _ _ ltac:(discriminate) H), (set_entry_same _ _ _ Ec). reflexivity.
Qed.

(** When [write_file] succeeds: the parent is a directory and the path
    itself is not. *)
Lemma write_file_ok dir f : forall d t es,
  FS.lookup t dir = Some (Dir es) ->
  (forall es', FS.entry f es <> Some (Dir es')) ->
  exists t', FS.write_file (dir ++ [f]) d t = Some t'.
Proof.
  induction dir as [|c dir IH]; intros d t es H Hf.
  - cbn [FS.lookup] in H. injection H as ->. cbn [app]. rewrite write_file_dir.
    destruct (FS.entry f es) as [[|es']|] eqn:E; eauto. destruct (Hf es' eq_refl).
  - destruct t as [|es0]; [discriminate|]. cbn [FS.lookup] in H.
    destruct (FS.entry c es0) as [x|] eqn:Ec; [|discriminate].
    destruct (IH d x es H Hf) as [x' Hx'].
    change ((c :: dir) ++ [f]) with (c :: (dir ++ [f])). rewrite write_file_dir, Ec, Hx'.
    destruct (dir ++ [f]) eqn:Ed; [destruct dir; discriminate|]. eauto.
Qed.

End PathFacts.

(** ** Runs of steps *)

Module OpFacts.
Import FSFacts TreeFacts PathFacts.

Lemma apply_op_frame o t t' q :
  apply_op o t = Some t' -> leads_to q (op_path o) = false -> FS.lookup t' q = FS.lookup t q.
Proof.
  destruct o; cbn [apply_op op_path]; [apply mkdir_p_frame | apply write_file_frame].
Qed.

Lemma apply_op_keeps_dir o t t' q es :
  apply_op o t = Some t' -> FS.lookup t q = Some (Dir es) ->
  exists es', FS.lookup t' q = Some (Dir es').
Proof.
  destruct o; cbn [apply_op]; [apply mkdir_p_keeps_dir | apply write_file_keeps_dir].
Qed.

Lemma apply_op_holds o t t' : apply_op o t = Some t' -> op_holds t' o.
Proof.
  destruct o; cbn [apply_op op_holds]; [apply mkdir_p_creates | apply write_file_lookup].
Qed.

Lemma apply_ops_frame ops : forall t t' q,
  apply_ops ops t = Some t' -> apart_from (map op_path ops) q = true ->
  FS.lookup t' q = FS.lookup t q.
Proof.
  induction ops as [|o r IH]; intros t t' q H Hq; cbn [apply_ops] in H.
  - injection H as <-. reflexivity.
  - destruct (apply_op o t) as [t1|] eqn:E; [|discriminate].
    unfold apart_from in Hq. cbn [map forallb] in Hq. apply andb_true_iff in Hq as [Ho Hr].
    apply negb_true_iff in Ho.
    rewrite (IH _ _ _ H Hr). eapply apply_op_frame; eassumption.
Qed.

Lemma apply_ops_keeps_dir ops : forall t t' q es,
  apply_ops ops t = Some t' -> FS.lookup t q = Some (Dir es) ->
  exists es', FS.lookup t' q = Some (Dir es').
Proof.
  induction ops as [|o r IH]; intros t t' q es H Hl; cbn [apply_ops] in H.
  - injection H as <-. eauto.
  - destruct (apply_op o t) as [t1|] eqn:E; [|discriminate].
    destruct (apply_op_keeps_dir _ _ _ _ _ E Hl) as [es1 Hl1]. eapply IH; eassumption.
Qed.

Lemma op_holds_kept o ops : forall t t',
  op_holds t o -> apply_ops ops t = Some t' ->
  match o with
  | OpMkdir _ => True
  | OpWrite p _ => forallb (fun o' => negb (leads_to p (op_path o'))) ops = true
  end ->
  op_holds t' o.
Proof.
  intros t t' Ho H Hs. destruct o as [p|p s]; cbn [op_holds] in *.
  - destruct Ho as [es Hl]. eapply apply_ops_keeps_dir; eassumption.
  - rewrite (apply_ops_frame ops t t' p H); [exact Ho|].
    unfold apart_from. rewrite forallb_forall in Hs |- *.
    intros x Hx. apply in_map_iff in Hx as (o' & <- & Ho'). apply Hs, Ho'.
Qed.

(** After a run every step still holds at its path. *)
Lemma apply_ops_holds ops : forall t t',
  apply_ops ops t = Some t' -> settled ops = true -> Forall (op_holds t') ops.
Proof.
  induction ops as [|o r IH]; intros t t' H Hs; [constructor|].
  cbn [apply_ops] in H. destruct (apply_op o t) as [t1|] eqn:E; [|discriminate].
  constructor.
  - apply (op_holds_kept o r t1 t' (apply_op_holds _ _ _ E) H).
    destruct o; [exact I|]. cbn [settled] in Hs. apply andb_true_iff in Hs as [Hs _].
    rewrite forallb_forall in Hs |- *. intros x Hx. specialize (Hs x Hx).
    apply andb_true_iff in Hs as [Hs _]. exact Hs.
  - apply (IH t1 t' H). destruct o; cbn [settled] in Hs; [exact Hs|].
    apply andb_true_iff in Hs as [_ Hs]. exact Hs.
Qed.

(** Steps that already hold change nothing. *)
Lemma apply_ops_id ops t :
  Forall (op_holds t) ops -> Forall (fun o => op_path o <> []) ops ->
  apply_ops ops t = Some t.
Proof.
  induction ops as [|o r IH]; intros H Hp; [reflexivity|].
  inversion H as [|? ? Ho Hr]; subst. inversion Hp as [|? ? Hpo Hpr]; subst.
  cbn [apply_ops].
  assert (apply_op o t = Some t) as ->.
  { destruct o as [p|p s]; cbn [apply_op op_holds op_path] in *.
    - destruct Ho as [es Hl]. eapply mkdir_p_id, Hl.
    - apply write_file_same; assumption. }
  apply IH; assumption.
Qed.

End OpFacts.

Section OpRuns.
Context `{RT : Runtime}.
Import PathFacts OpFacts.

Lemma bind_congr {A B} (m : M A) (k k' : A -> M B) w :
  (forall a w1, k a w1 = k' a w1) -> bind m k w = bind m k' w.
Proof. intros H. unfold bind. destruct (m w) as [[a|e] w1]; auto. Qed.

Lemma do_op_cases o w :
  (exists t e, apply_op o (fs w) = Some t /\ do_op o w = (Ok tt, emit_event e (set_fs t w)))
  \/ (apply_op o (fs w) = None /\ exists e, do_op o w = (Raise e, w)).
Proof.
  destruct o as [p|p s]; cbn [do_op apply_op]; unfold mkdir, write_text.
  - destruct (FS.mkdir_p p (fs w)); eauto 6.
  - destruct (FS.write_file p (Text s) (fs w)); eauto 6.
Qed.

Lemma run_ops_ok ops : forall w w',
  run_ops ops w = (Ok tt, w') ->
  apply_ops ops (fs w) = Some (fs w')
  /\ audit_log w' = audit_log w /\ snapshots w' = snapshots w.
Proof.
  induction ops as [|o r IH]; intros w w' H; cbn [run_ops apply_ops] in *.
  - injection H as <-. auto.
  - destruct (do_op_cases o w) as [(t & e & Ea & Ed)|(_ & e & Ed)];
      rewrite (bind_eq _ _ _ _ _ Ed) in H; [|discriminate].
    rewrite Ea. apply IH in H as (H & Ha & Hs).
    rewrite fs_emit_set in H. rewrite audit_emit_set in Ha. rewrite snapshots_emit_set in Hs.
    auto.
Qed.

Lemma run_ops_run ops : forall w t,
  apply_ops ops (fs w) = Some t -> exists w', run_ops ops w = (Ok tt, w') /\ fs w' = t.
Proof.
  induction ops as [|o r IH]; intros w t H; cbn [run_ops apply_ops] in *.
  - injection H as <-. eauto.
  - destruct (do_op_cases o w) as [(t1 & e & Ea & Ed)|(Ea & _)];
      rewrite Ea in H; [|discriminate].
    rewrite (bind_eq _ _ _ _ _ Ed).
    apply (IH (emit_event e (set_fs t1 w))). rewrite fs_emit_set. exact H.
Qed.

Lemma confined_ret {A} ps (a : A) : confined_to ps (ret a).
Proof. intros w r w' [= <- <-]. auto. Qed.

Lemma confined_bind {A B} ps (m : M A) (k : A -> M B) :
  confined_to ps m -> (forall a, confined_to ps (k a)) -> confined_to ps (bind m k).
Proof.
  intros Hm Hk w r w' H. unfold bind in H.
  destruct (m w) as [[a|e] w1] eqn:E; destruct (Hm _ _ _ E) as (Hf & Ha & Hs).
  - destruct (Hk a _ _ _ H) as (Hf' & Ha' & Hs'). repeat split; [|congruence..].
    intros q Hq. rewrite Hf', Hf; auto.
  - injection H as <- <-. auto.
Qed.

Lemma confined_do_op ps o :
  (exists p, In p ps /\ leads_to (op_path o) p = true) -> confined_to ps (do_op o).
Proof.
  intros (p & Hin & Hp) w r w' H.
  destruct (do_op_cases o w) as [(t & e & Ea & Ed)|(_ & e & Ed)];
    rewrite Ed in H; injection H as <- <-; [|auto].
  rewrite fs_emit_set, audit_emit_set, snapshots_emit_set. repeat split.
  intros q Hq. eapply apply_op_frame; [exact Ea|].
  unfold apart_from in Hq. rewrite forallb_forall in Hq. specialize (Hq p Hin).
  apply negb_true_iff in Hq. destruct (leads_to q (op_path o)) eqn:E; [|reflexivity].
  rewrite <- Hq. clear - E Hp. revert E Hp. generalize (op_path o). clear.
  intros m. revert m p. induction q as [|c q IH]; intros m p E Hp; [reflexivity|].
  destruct m as [|d m]; [discriminate|]. destruct p as [|d' p]; [discriminate|].
  cbn [leads_to] in *. apply andb_true_iff in E as [E1 E2]. apply andb_true_iff in Hp as [P1 P2].
  apply String.eqb_eq in E1 as ->. apply String.eqb_eq in P1 as ->.
  rewrite String.eqb_refl. cbn [andb]. eapply IH; eassumption.
Qed.

Lemma confined_run_ops ps ops :
  Forall (fun o => exists p, In p ps /\ leads_to (op_path o) p = true) ops ->
  confined_to ps (run_ops ops).
Proof.
  induction 1 as [|o r Ho Hr IH]; cbn [run_ops]; [apply confined_ret|].
  apply confined_bind; [apply confined_do_op, Ho | intros _; exact IH].
Qed.

Lemma confined_mono {A} ps ps' (m : M A) :
  (forall p, In p ps -> In p ps') -> confined_to ps m -> confined_to ps' m.
Proof.
  intros Hin Hm w r w' H. destruct (Hm _ _ _ H) as (Hf & Ha & Hs). repeat split; auto.
  intros q Hq. apply Hf. unfold apart_from in *. rewrite forallb_forall in Hq |- *. auto.
Qed.

(** [scaffold_agent] is the run of its steps. *)
Lemma scaffold_agent_ops name kind w :
  scaffold_agent name kind w
  = bind (run_ops (scaffold_ops name kind)) (fun _ => ret (abs_str (AGENTS_DIR ++ [name]))) w.
Proof.
  unfold scaffold_agent, scaffold_ops. cbn [run_ops do_op].
  revert w. repeat (intros ?; rewrite bind_assoc; apply bind_congr; intros []).
  reflexivity.
Qed.

End OpRuns.

(** ** Facts about the scaffolding *)

Module ReadyFacts.
Import FSFacts TreeFacts PathFacts OpFacts.

(** A directory found after [write_file] was there before. *)
Lemma write_file_dirs_before p : forall d t t' q es',
  FS.write_file p d t = Some t' -> FS.lookup t' q = Some (Dir es') ->
  exists es, FS.lookup t q = Some (Dir es).
Proof.
  induction p as [|c p IH]; intros d t t' q es' H Hl; [destruct t; discriminate|].
  destruct (leads_to q (c :: p)) eqn:Hq;
    [|rewrite (write_file_frame _ _ _ _ _ H Hq) in Hl; eauto].
  destruct t as [|es0]; [destruct p; discriminate|]. destruct q as [|c0 q]; [cbn; eauto|].
  rewrite write_file_dir in H.
  cbn [leads_to] in Hq. apply andb_true_iff in Hq as [Hc Hq].
  apply String.eqb_eq in Hc as ->. cbn [FS.lookup] in Hl |- *.
  destruct p as [|c' p'].
  - destruct q; [|discriminate].
    destruct (FS.entry c es0) as [[]|]; simplify_eq;
      rewrite entry_set_entry_eq in Hl; discriminate.
  - destruct (FS.entry c es0) as [x|] eqn:Ec; [|discriminate].
    destruct (FS.write_file (c' :: p') d x) as [x'|] eqn:E; [|discriminate].
    injection H as <-. rewrite entry_set_entry_eq in Hl. eapply IH; eassumption.
Qed.

Lemma lookup_child t dir f es :
  FS.lookup t dir = Some (Dir es) -> FS.lookup t (dir ++ [f]) = FS.entry f es.
Proof.
  intros H. rewrite lookup_app, H. cbn [FS.lookup]. destruct (FS.entry f es); reflexivity.
Qed.

Lemma mkdir_child dir c : forall t es,
  FS.lookup t dir = Some (Dir es) ->
  (forall d, FS.lookup t (dir ++ [c]) <> Some (File d)) ->
  exists t', FS.mkdir_p (dir ++ [c]) t = Some t'.
Proof.
  induction dir as [|c0 dir IH]; intros t es H Hf.
  - cbn [FS.lookup] in H. injection H as ->. cbn [app] in *. rewrite mkdir_p_dir.
    cbn [FS.lookup] in Hf.
    destruct (FS.entry c es) as [[d|es']|]; cbn [FS.mkdir_p]; eauto.
    destruct (Hf d eq_refl).
  - destruct t as [|es0]; [discriminate|]. cbn [FS.lookup] in H.
    change ((c0 :: dir) ++ [c]) with (c0 :: (dir ++ [c])) in *. cbn [FS.lookup] in Hf.
    rewrite mkdir_p_dir.
    destruct (FS.entry c0 es0) as [x|] eqn:Ec; [|discriminate].
    destruct (IH x es H Hf) as [x' ->]. eauto.
Qed.

Lemma apply_op_ready o t : op_ready t o -> exists t', apply_op o t = Some t'.
Proof.
  destruct o as [p|p s]; cbn [op_ready apply_op].
  - intros [es H]. exists t. eapply mkdir_p_id, H.
  - intros (dir & f & -> & [es Hd] & Hn). eapply write_file_ok; [exact Hd|].
    intros es' He. apply (Hn es'). rewrite (lookup_child _ _ _ _ Hd). exact He.
Qed.

Lemma ready_kept o o' t t' :
  apply_op o t = Some t' -> op_ready t o -> op_ready t o' -> op_ready t' o'.
Proof.
  intros H Ho Ho'.
  assert (forall q es', FS.lookup t' q = Some (Dir es') ->
                        exists es, FS.lookup t q = Some (Dir es)) as Hback.
  { destruct o as [p|p s]; cbn [apply_op op_ready] in *.
    - destruct Ho as [es Hl]. rewrite (mkdir_p_id _ _ _ Hl) in H. injection H as <-. eauto.
    - intros q es'. eapply write_file_dirs_before, H. }
  destruct o' as [p'|p' s']; cbn [op_ready] in *.
  - destruct Ho' as [es Hl]. eapply apply_op_keeps_dir; eassumption.
  - destruct Ho' as (dir & f & -> & [es Hd] & Hn). exists dir, f. split; [reflexivity|].
    split; [eapply apply_op_keeps_dir; eassumption|].
    intros es' Hl. destruct (Hback _ _ Hl) as [es0 Hl0]. apply (Hn es0), Hl0.
Qed.

Lemma apply_ops_ready ops : forall t,
  Forall (op_ready t) ops -> exists t', apply_ops ops t = Some t'.
Proof.
  induction ops as [|o r IH]; intros t H; [cbn; eauto|].
  inversion H as [|? ? Ho Hr]; subst. cbn [apply_ops].
  destruct (apply_op_ready o t Ho) as [t1 E]. rewrite E. apply IH.
  eapply Forall_impl; [exact Hr|]. intros o' Ho'. cbn beta. eapply ready_kept; eassumption.
Qed.

End ReadyFacts.

Module GlobFacts.

Lemma insert_sorted_In x y l : In x (insert_sorted y l) <-> x = y \/ In x l.
Proof.
  induction l as [|z l IH]; cbn [insert_sorted In]; [intuition congruence|].
  destruct (String.leb y z); cbn [In]; [intuition congruence|].
  rewrite IH. intuition congruence.
Qed.

Lemma sorted_In x l : In x (sorted l) <-> In x l.
Proof.
  unfold sorted. induction l as [|y l IH]; cbn [fold_right In]; [tauto|].
  rewrite insert_sorted_In, IH. intuition congruence.
Qed.

Lemma substring_after a : forall n b,
  String.substring (String.length a) n (a +:+ b) = String.substring 0 n b.
Proof.
  induction a as [|c a IH]; intros n b; [reflexivity|].
  rewrite PyFacts.append_cons. cbn [String.length String.substring]. apply IH.
Qed.

Lemma length_append a b : String.length (a +:+ b) = (String.length a + String.length b)%nat.
Proof.
  induction a as [|c a IH]; [reflexivity|].
  rewrite PyFacts.append_cons. cbn [String.length]. rewrite IH. reflexivity.
Qed.

(** The glob of [run_tests] matches the name of every golden test. *)
Lemma agent_test_globbed name : is_test_file (agent_test name) = true.
Proof.
  unfold agent_test. change ("test_agent_" +:+ Py.lower name +:+ ".py")
    with (String "t" (String "e" (String "s" (String "t" (String "_"
            (("agent_" +:+ Py.lower name) +:+ ".py")))))).
  cbn [is_test_file]. rewrite length_append. cbn [String.length].
  replace (String.length ("agent_" +:+ Py.lower name) + 3 - 3)%nat
    with (String.length ("agent_" +:+ Py.lower name)) by lia.
  rewrite substring_after. reflexivity.
Qed.

Lemma entry_fst f es x : FS.entry f es = Some x -> In f (map fst es).
Proof. intros H. apply FSFacts.entry_In in H. apply in_map_iff. exists (f, x). auto. Qed.

End GlobFacts.

Module TemplateFacts.

Lemma append_inj_l a : forall x y, a +:+ x = a +:+ y -> x = y.
Proof.
  induction a as [|c a IH]; intros x y H; [exact H|].
  rewrite !PyFacts.append_cons in H. injection H as H. apply IH, H.
Qed.

Lemma append_inj_r c : forall a b, a +:+ c = b +:+ c -> a = b.
Proof.
  intros a. induction a as [|x a IH]; intros b H.
  - destruct b as [|y b]; [reflexivity|]. exfalso.
    apply (f_equal String.length) in H. rewrite PyFacts.append_nil in H.
    rewrite PyFacts.append_cons in H. cbn [String.length] in H.
    rewrite GlobFacts.length_append in H. lia.
  - destruct b as [|y b].
    + exfalso. apply (f_equal String.length) in H. rewrite PyFacts.append_nil in H.
      rewrite PyFacts.append_cons in H. cbn [String.length] in H.
      rewrite GlobFacts.length_append in H. lia.
    + rewrite !PyFacts.append_cons in H. injection H as -> H. f_equal. apply IH, H.
Qed.

(** The golden test names its agent. *)
Lemma TEST_CODE_inj n1 n2 : TEST_CODE n1 = TEST_CODE n2 -> n1 = n2.
Proof.
  unfold TEST_CODE. intros H.
  repeat match type of H with
         | ?a +:+ _ = ?a +:+ _ => apply append_inj_l in H
         end.
  eapply append_inj_r, H.
Qed.

End TemplateFacts.

Section AgentFacts.
Context `{RT : Runtime}.
Import PathFacts OpFacts ReadyFacts.

Lemma scaffold_agent_ok name kind w path w' :
  scaffold_agent name kind w = (Ok path, w') ->
  path = abs_str (AGENTS_DIR ++ [name])
  /\ apply_ops (scaffold_ops name kind) (fs w) = Some (fs w')
  /\ audit_log w' = audit_log w /\ snapshots w' = snapshots w.
Proof.
  rewrite scaffold_agent_ops. unfold bind.
  destruct (run_ops (scaffold_ops name kind) w) as [[[]|e] w1] eqn:E; [|discriminate].
  intros [= <- <-]. apply run_ops_ok in E. tauto.
Qed.

Lemma scaffold_agent_run name kind w t :
  apply_ops (scaffold_ops name kind) (fs w) = Some t ->
  exists w', scaffold_agent name kind w = (Ok (abs_str (AGENTS_DIR ++ [name])), w')
             /\ fs w' = t.
Proof.
  intros H. apply run_ops_run in H as (w' & H & Hf). exists w'. split; [|exact Hf].
  rewrite scaffold_agent_ops. unfold bind. rewrite H. reflexivity.
Qed.

Lemma scaffold_ops_lead name kind :
  Forall (fun o => exists p, In p (scaffold_files name) /\ leads_to (op_path o) p = true)
         (scaffold_ops name kind).
Proof.
  unfold scaffold_ops, scaffold_files.
  repeat constructor; cbn [op_path].
  - exists (AGENTS_DIR ++ [name; "README.md"]). split; [left; reflexivity|reflexivity].
  - exists (AGENTS_DIR ++ [name; "README.md"]). split; [left; reflexivity|].
    cbn. rewrite String.eqb_refl. reflexivity.
  - eexists. split; [left; reflexivity|apply leads_to_refl].
  - eexists. split; [right; left; reflexivity|apply leads_to_refl].
  - eexists. split; [right; right; left; reflexivity|apply leads_to_refl].
  - exists (TESTS_DIR ++ [agent_test name]). split; [do 3 right; left; reflexivity|reflexivity].
  - eexists. split; [do 3 right; left; reflexivity|apply leads_to_refl].
Qed.

Lemma scaffold_agent_confined name kind :
  confined_to (scaffold_files name) (scaffold_agent name kind).
Proof.
  intros w r w' H. rewrite scaffold_agent_ops in H. revert w r w' H.
  apply (confined_bind (scaffold_files name) (run_ops (scaffold_ops name kind))).
  - apply confined_run_ops, scaffold_ops_lead.
  - intros _. apply confined_ret.
Qed.

Lemma scaffold_ops_settled name kind : settled (scaffold_ops name kind) = true.
Proof.
  unfold scaffold_ops, AGENTS_DIR, TESTS_DIR. cbn [app settled forallb op_path leads_to].
  rewrite !String.eqb_refl. reflexivity.
Qed.

Lemma scaffold_ops_paths name kind :
  Forall (fun o => op_path o <> []) (scaffold_ops name kind).
Proof. repeat constructor; discriminate. Qed.

End AgentFacts.

(** ** The scaffolding of agents *)

Section AgentTheorems.
Context `{RT : Runtime}.
Import PathFacts OpFacts ReadyFacts.

Lemma scaffold_agent_holds name kind w path w' :
  scaffold_agent name kind w = (Ok path, w') ->
  Forall (op_holds (fs w')) (scaffold_ops name kind).
Proof.
  intros H. apply scaffold_agent_ok in H as (_ & H & _).
  eapply apply_ops_holds; [exact H | apply scaffold_ops_settled].
Qed.

Lemma interpret_and_create_confined prompt :
  confined_to (create_files (interpret_name prompt)) (interpret_and_create prompt).
Proof.
  unfold interpret_and_create. apply confined_bind.
  - eapply confined_mono; [|apply scaffold_agent_confined].
    intros p Hp. unfold create_files. apply in_or_app. left. exact Hp.
  - intros path. apply confined_bind; [|intros _; apply confined_ret].
    apply (confined_do_op _ (OpWrite _ _)). eexists. split; [|apply leads_to_refl].
    unfold create_files. apply in_or_app. right. left. reflexivity.
Qed.

(** X21. For a name that is one path component, [scaffold_agent] changes
    the tree at most at its four files and the folders on the way to them,
    whether it succeeds or fails: every path under another top-level entry
    than [agents] and [tests], every other agent folder and every other
    entry of [tests] are as before, and so are the two tables. *)
Theorem scaffold_agent_stays_in_its_files name kind w r w' :
  plain_name name = true ->
  scaffold_agent name kind w = (r, w') ->
  (forall q, apart_from (scaffold_files name) q = true ->
     FS.lookup (fs w') q = FS.lookup (fs w) q)
  /\ (forall c p, c <> "agents" -> c <> "tests" ->
        FS.lookup (fs w') (c :: p) = FS.lookup (fs w) (c :: p))
  /\ (forall other p, other <> name ->
        FS.lookup (fs w') ("agents" :: other :: p) = FS.lookup (fs w) ("agents" :: other :: p))
  /\ (forall f p, f <> agent_test name ->
        FS.lookup (fs w') ("tests" :: f :: p) = FS.lookup (fs w) ("tests" :: f :: p))
  /\ audit_log w' = audit_log w /\ snapshots w' = snapshots w.
Proof.
  intros _ H. destruct (scaffold_agent_confined name kind w r w' H) as (Hf & Ha & Hs).
  split; [exact Hf|]. repeat split; [| | |exact Ha|exact Hs].
  - intros c p Hc1 Hc2. apply Hf. unfold apart_from, scaffold_files, AGENTS_DIR, TESTS_DIR.
    cbn [app forallb leads_to].
    destruct (String.eqb_spec c "agents"); [contradiction|].
    destruct (String.eqb_spec c "tests"); [contradiction|]. reflexivity.
  - intros other p Ho. apply Hf. unfold apart_from, scaffold_files, AGENTS_DIR, TESTS_DIR.
    cbn [app forallb leads_to].
    destruct (String.eqb_spec other name); [contradiction|]. reflexivity.
  - intros f p Ho. apply Hf. unfold apart_from, scaffold_files, AGENTS_DIR, TESTS_DIR.
    cbn [app forallb leads_to].
    destruct (String.eqb_spec f (agent_test name)); [contradiction|]. reflexivity.
Qed.

(** X22. For a name that is one path component, a run of
    [scaffold_agent] that succeeds returns the absolute path of the agent
    folder and leaves the four templates, filled in with the name and the
    kind, at their paths, whatever was there before; a second run with the
    same arguments succeeds and changes nothing. *)
Theorem scaffold_agent_installs_the_templates name kind w path w' :
  plain_name name = true ->
  scaffold_agent name kind w = (Ok path, w') ->
  path = abs_str (AGENTS_DIR ++ [name])
  /\ FS.lookup (fs w') (AGENTS_DIR ++ [name; "README.md"])
     = Some (File (Text (AGENT_README name kind)))
  /\ FS.lookup (fs w') (AGENTS_DIR ++ [name; "manifest.yaml"])
     = Some (File (Text (AGENT_MANIFEST name kind)))
  /\ FS.lookup (fs w') (AGENTS_DIR ++ [name; "agent.py"])
     = Some (File (Text (AGENT_CODE name kind)))
  /\ FS.lookup (fs w') (TESTS_DIR ++ [agent_test name])
     = Some (File (Text (TEST_CODE name)))
  /\ exists w'', scaffold_agent name kind w' = (Ok path, w'') /\ fs w'' = fs w'.
Proof.
  intros _ H. pose proof (scaffold_agent_holds _ _ _ _ _ H) as Hh.
  apply scaffold_agent_ok in H as (-> & _ & _ & _).
  split; [reflexivity|].
  pose proof Hh as Hall. unfold scaffold_ops in Hh.
  repeat match goal with
         | H : Forall _ (_ :: _) |- _ => inversion H; subst; clear H
         end.
  cbn [op_holds] in *. repeat (split; [assumption|]).
  apply scaffold_agent_run, apply_ops_id; [exact Hall | apply scaffold_ops_paths].
Qed.

(** X23. Two agents whose names differ only in letter case get separate
    folders but one test file: after both are scaffolded, each folder
    holds its own agent code, the two test names are equal, and the file
    holds the test of the second agent, which is not the test of the
    first. *)
Theorem agents_that_differ_in_case_share_one_test n1 k1 n2 k2 w p1 w1 p2 w2 :
  plain_name n1 = true -> plain_name n2 = true ->
  n1 <> n2 -> Py.lower n1 = Py.lower n2 ->
  scaffold_agent n1 k1 w = (Ok p1, w1) ->
  scaffold_agent n2 k2 w1 = (Ok p2, w2) ->
  FS.lookup (fs w2) (AGENTS_DIR ++ [n1; "agent.py"]) = Some (File (Text (AGENT_CODE n1 k1)))
  /\ FS.lookup (fs w2) (AGENTS_DIR ++ [n2; "agent.py"]) = Some (File (Text (AGENT_CODE n2 k2)))
  /\ agent_test n1 = agent_test n2
  /\ FS.lookup (fs w2) (TESTS_DIR ++ [agent_test n1]) = Some (File (Text (TEST_CODE n2)))
  /\ TEST_CODE n2 <> TEST_CODE n1.
Proof.
  intros _ _ Hne Hlow H1 H2.
  pose proof (scaffold_agent_holds _ _ _ _ _ H1) as Hh1.
  pose proof (scaffold_agent_holds _ _ _ _ _ H2) as Hh2.
  destruct (scaffold_agent_confined n2 k2 w1 _ _ H2) as (Hf & _).
  unfold scaffold_ops in Hh1, Hh2.
  repeat match goal with
         | H : Forall _ (_ :: _) |- _ => inversion H; subst; clear H
         end.
  cbn [op_holds] in *.
  assert (agent_test n1 = agent_test n2) as Ht by (unfold agent_test; rewrite Hlow; reflexivity).
  split; [|split; [assumption|split; [exact Ht|split]]].
  - rewrite Hf; [assumption|].
    unfold apart_from, scaffold_files, AGENTS_DIR, TESTS_DIR. cbn [app forallb leads_to].
    destruct (String.eqb_spec n1 n2); [contradiction|]. reflexivity.
  - rewrite Ht. assumption.
  - intros E. apply TemplateFacts.TEST_CODE_inj in E. congruence.
Qed.

(** X24. The test that [scaffold_agent] writes joins the test run: its
    name matches the glob of [run_tests] in [tests], and [run_tests]
    returns true in the resulting workspace only if that unit has a
    passing verdict. *)
Theorem scaffolded_test_joins_the_test_run name kind w path w' :
  plain_name name = true ->
  scaffold_agent name kind w = (Ok path, w') ->
  In (agent_test name) (glob_tests (fs w') TESTS_DIR)
  /\ forall silent w'',
       run_tests silent w' = (Ok true, w'') ->
       unit_verdict (exec_unit (fs w') (TESTS_DIR ++ [agent_test name])) = true.
Proof.
  intros _ H. pose proof (scaffold_agent_holds _ _ _ _ _ H) as Hh.
  unfold scaffold_ops in Hh.
  repeat match goal with
         | H : Forall _ (_ :: _) |- _ => inversion H; subst; clear H
         end.
  cbn [op_holds] in *.
  assert (In (agent_test name) (glob_tests (fs w') TESTS_DIR)) as Hin.
  { assert (exists es, FS.lookup (fs w') TESTS_DIR = Some (Dir es)) as [es Hd] by assumption.
    assert (FS.lookup (fs w') (TESTS_DIR ++ [agent_test name])
            = Some (File (Text (TEST_CODE name)))) as Hl by assumption.
    unfold glob_tests. rewrite Hd. apply GlobFacts.sorted_In, filter_In.
    split; [|apply GlobFacts.agent_test_globbed].
    rewrite (lookup_child _ _ _ _ Hd) in Hl. eapply GlobFacts.entry_fst, Hl. }
  split; [exact Hin|]. intros silent w'' Hr.
  rewrite run_tests_eq in Hr. injection Hr as Hr _.
  apply units_result_true in Hr as [_ Hall]. apply Hall, Hin.
Qed.

(** X25. Whatever the prompt and the outcome, [interpret_and_create]
    works under a name that is one plain path component and changes the
    tree at most at the four files of the agent, at the description file
    in [state] and at the folders on the way to them: every path whose
    first component is not [agents], [tests] or [state] is as before, and
    so are the two tables. When it succeeds it returns the name, the kind,
    the absolute path of the agent folder and the prompt, and the
    description file holds their JSON text. *)
Theorem create_stays_in_its_files prompt w r w' :
  interpret_and_create prompt w = (r, w') ->
  let name := interpret_name prompt in
  plain_name name = true
  /\ (forall q, apart_from (create_files name) q = true ->
        FS.lookup (fs w') q = FS.lookup (fs w) q)
  /\ (forall c p, c <> "agents" -> c <> "tests" -> c <> "state" ->
        FS.lookup (fs w') (c :: p) = FS.lookup (fs w) (c :: p))
  /\ audit_log w' = audit_log w /\ snapshots w' = snapshots w
  /\ forall info, r = Ok info ->
       info = AgentInfo name (interpret_kind prompt) (abs_str (AGENTS_DIR ++ [name])) prompt
       /\ FS.lookup (fs w') (STATE ++ [agent_meta name]) = Some (File (Text (info_json info))).
Proof.
  intros H. cbv zeta.
  pose proof (interpret_name_plain prompt) as Hplain.
  destruct (interpret_and_create_confined prompt w r w' H) as (Hf & Ha & Hs).
  split; [exact Hplain|]. split; [exact Hf|]. split; [|split; [exact Ha|split; [exact Hs|]]].
  - intros c p Hc1 Hc2 Hc3. apply Hf.
    unfold apart_from, create_files, scaffold_files, AGENTS_DIR, TESTS_DIR, STATE.
    cbn [app forallb leads_to].
    destruct (String.eqb_spec c "agents"); [contradiction|].
    destruct (String.eqb_spec c "tests"); [contradiction|].
    destruct (String.eqb_spec c "state"); [contradiction|]. reflexivity.
  - intros info ->. unfold interpret_and_create in H. unfold bind at 1 in H.
    destruct (scaffold_agent _ _ w) as [[path|e] w1] eqn:E; [|discriminate].
    apply scaffold_agent_ok in E as (-> & _). rewrite bind_write_text in H.
    destruct (FS.write_file _ _ (fs w1)) as [t|] eqn:Ew; [|discriminate].
    injection H as <- <-. split; [reflexivity|].
    rewrite fs_emit_set. eapply FSFacts.write_file_lookup, Ew.
Qed.

End AgentTheorems.

(** ** Creation in a prepared workspace *)

Section Create.
Context `{RT : Runtime}.
Import FSFacts TreeFacts PathFacts OpFacts ReadyFacts.

Lemma apply_ops_app a : forall b t,
  apply_ops (a ++ b) t = match apply_ops a t with
                         | Some t1 => apply_ops b t1
                         | None => None
                         end.
Proof.
  induction a as [|o a IH]; intros b t; [reflexivity|]. cbn [app apply_ops].
  destruct (apply_op o t); [apply IH | reflexivity].
Qed.

Lemma leads_to_longer p f : leads_to (p ++ [f]) p = false.
Proof. induction p as [|c p IH]; [reflexivity|]. cbn. rewrite String.eqb_refl. exact IH. Qed.

(** The steps of a creation run in a tree where the three folders exist,
    no file is in the place of the agent's folder and no directory in the
    place of a file to write. *)
Lemma create_ops_run name kind meta t :
  (exists es, FS.lookup t AGENTS_DIR = Some (Dir es)) ->
  (exists es, FS.lookup t TESTS_DIR = Some (Dir es)) ->
  (exists es, FS.lookup t STATE = Some (Dir es)) ->
  (forall d, FS.lookup t (AGENTS_DIR ++ [name]) <> Some (File d)) ->
  (forall p es, In p (create_files name) -> FS.lookup t p <> Some (Dir es)) ->
  exists t1 t', apply_ops (scaffold_ops name kind) t = Some t1
                /\ FS.write_file (STATE ++ [agent_meta name]) (Text meta) t1 = Some t'.
Proof.
  intros [ea Ha] [et Ht] [es Hs] Hfile Hdir.
  destruct (mkdir_child AGENTS_DIR name t ea Ha Hfile) as [t2 E2].
  assert (forall q, leads_to q (AGENTS_DIR ++ [name]) = false ->
                    FS.lookup t2 q = FS.lookup t q) as Hframe
      by (intros q Hq; eapply mkdir_p_frame; eassumption).
  assert (exists t', apply_ops (skipn 2 (scaffold_ops name kind)
                                ++ [OpWrite (STATE ++ [agent_meta name]) meta]) t2 = Some t')
    as [t' Hrun].
  { apply apply_ops_ready. unfold scaffold_ops. cbn [skipn app].
    destruct (mkdir_p_creates _ _ _ E2) as [e2 Hd2].
    destruct (mkdir_p_keeps_dir _ _ _ _ _ E2 Ht) as [et2 Ht2].
    destruct (mkdir_p_keeps_dir _ _ _ _ _ E2 Hs) as [es2 Hs2].
    assert (forall f, In (AGENTS_DIR ++ [name; f]) (create_files name) ->
              op_ready t2 (OpWrite (AGENTS_DIR ++ [name; f]) EmptyString)) as Hag.
    { intros f Hin. exists (AGENTS_DIR ++ [name]), f. split; [reflexivity|].
      split; [eauto|]. intros es'.
      rewrite Hframe by (apply (leads_to_longer (AGENTS_DIR ++ [name]) f)).
      apply Hdir, Hin. }
    repeat constructor; cbn [op_ready].
    - apply (Hag "README.md"). left. reflexivity.
    - apply (Hag "manifest.yaml"). right. left. reflexivity.
    - apply (Hag "agent.py"). do 2 right. left. reflexivity.
    - eauto.
    - exists TESTS_DIR, (agent_test name). split; [reflexivity|]. split; [eauto|].
      intros es'. rewrite Hframe by reflexivity. apply Hdir. do 3 right. left. reflexivity.
    - exists STATE, (agent_meta name). split; [reflexivity|]. split; [eauto|].
      intros es'. rewrite Hframe by reflexivity. apply Hdir. do 4 right. left. reflexivity. }
  rewrite apply_ops_app in Hrun.
  destruct (apply_ops (skipn 2 (scaffold_ops name kind)) t2) as [t1|] eqn:E1; [|discriminate].
  exists t1, t'. split.
  - unfold scaffold_ops in E1 |- *. cbn [skipn] in E1. cbn [apply_ops apply_op].
    rewrite (mkdir_p_id _ _ _ Ha), E2. exact E1.
  - cbn [apply_ops apply_op] in Hrun.
    destruct (FS.write_file _ _ t1); [congruence | discriminate].
Qed.

(** X26. Creation succeeds in a prepared workspace: after
    [ensure_state], run where the database file exists, if no file sits in
    the place of the agent folder and no directory in the place of one of
    the five files to write, [interpret_and_create] returns the
    description of the agent. *)
Theorem create_succeeds_in_a_prepared_workspace prompt w0 w :
  (exists d, FS.lookup (fs w0) DB = Some (File d)) ->
  ensure_state w0 = (Ok tt, w) ->
  let name := interpret_name prompt in
  (forall d, FS.lookup (fs w) (AGENTS_DIR ++ [name]) <> Some (File d)) ->
  (forall p es, In p (create_files name) -> FS.lookup (fs w) p <> Some (Dir es)) ->
  exists w',
    interpret_and_create prompt w
    = (Ok (AgentInfo name (interpret_kind prompt) (abs_str (AGENTS_DIR ++ [name])) prompt), w').
Proof.
  intros _ He name Hfile Hdir. apply ensure_state_ok in He as (Hm & _).
  assert (forall p, In p state_dirs -> exists es, FS.lookup (fs w) p = Some (Dir es)) as Hd
      by (intros p Hp; eapply make_dirs_creates; eassumption).
  destruct (create_ops_run name (interpret_kind prompt)
              (info_json (AgentInfo name (interpret_kind prompt)
                            (abs_str (AGENTS_DIR ++ [name])) prompt)) (fs w))
    as (t1 & t' & H1 & H2); try assumption.
  - apply Hd. unfold state_dirs. do 6 right. left. reflexivity.
  - apply Hd. unfold state_dirs. do 5 right. left. reflexivity.
  - destruct (Hd (STATE ++ ["blobs"]) (or_introl eq_refl)) as [es Hl].
    rewrite lookup_app in Hl.
    destruct (FS.lookup (fs w) STATE) as [[|es0]|]; [cbn in Hl; discriminate|eauto|discriminate].
  - apply scaffold_agent_run in H1 as (w1 & Hs & Hf).
    unfold interpret_and_create. fold name. unfold bind at 1. rewrite Hs.
    rewrite bind_write_text, Hf, H2. eexists. reflexivity.
Qed.

End Create.

(** ** The properties at concrete workspaces *)

Import Demo.

(** C1, at the failing input. The strategy [regen] is in the trigger list
    and the acknowledgment artifact exists at the workspace root; the
    attempt nevertheless ends with status 5: it is not treated as
    allowed, no unit is run, the target keeps its content, and no audit
    row is written. *)
Theorem escalation_with_ack_returns_5 :
  ack_present (fs acknowledged) "human-ack.txt" = true
  /\ fst (run_repair "regen" acknowledged) = Ok 5%Z
  /\ audit_log (snd (run_repair "regen" acknowledged)) = []
  /\ executed (trace (snd (run_repair "regen" acknowledged))) = []
  /\ FS.lookup (fs (snd (run_repair "regen" acknowledged))) target_file
     = FS.lookup (fs acknowledged) target_file.
Proof. vm_compute. repeat split. Qed.

(** Without the artifact the same attempt ends with status 5 and one
    audit row. *)
Example escalation_without_ack :
  fst (run_repair "regen" unacknowledged) = Ok 5%Z
  /\ map a_action (audit_log (snd (run_repair "regen" unacknowledged)))
     = ["escalation_required"].
Proof. vm_compute. repeat split. Qed.

(** The boundary of the budget: one line added to twenty is 5 percent,
    which the budget of 5 allows; one line added to two is 50 percent,
    which is rejected when no acknowledgment is needed below 80. *)
Example budget_boundary :
  delta_pct registry20 (registry20 +:+ nl +:+ "# auto-repair touch: t" +:+ nl) = 5%Z
  /\ status_of (run_repair "lint" clean) = Some 0%Z
  /\ status_of (run_repair "lint" small) = Some 3%Z.
Proof. vm_compute. repeat split. Qed.

(** C5, at the failing input. One added line is 50 percent of the two
    lines of the target, above the threshold of 10 percent that the policy
    sets, so acknowledgment is needed. With the artifact at the workspace
    root the attempt ends with status 5, without an audit row, without
    loading a unit and without a change of the target; without the
    artifact it ends with status 5 as well, with one audit row. Status 5
    does not tell the two cases apart and is not reserved for an absent
    artifact. *)
Theorem status_5_with_artifact_present :
  (delta_pct ("a = 1" +:+ nl +:+ "b = 2" +:+ nl)
             ("a = 1" +:+ nl +:+ "b = 2" +:+ nl +:+ nl
              +:+ "# auto-repair touch: 2025-01-01T00:00:00+00:00" +:+ nl) = 50%Z
   /\ ack_present (fs Cases.oversized) "human-ack.txt" = true
   /\ fst (run_repair "lint" Cases.oversized) = Ok 5%Z
   /\ audit_log (snd (run_repair "lint" Cases.oversized)) = []
   /\ executed (trace (snd (run_repair "lint" Cases.oversized))) = []
   /\ FS.lookup (fs (snd (run_repair "lint" Cases.oversized))) target_file
      = FS.lookup (fs Cases.oversized) target_file)
  /\ (ack_present (fs Cases.oversized_alone) "human-ack.txt" = false
      /\ fst (run_repair "lint" Cases.oversized_alone) = Ok 5%Z
      /\ map a_action (audit_log (snd (run_repair "lint" Cases.oversized_alone)))
         = ["escalation_required"]).
Proof. vm_compute. repeat split. Qed.

(** C4, at the failing input. The workspace holds a staged copy under
    [.forge/shadow]; the manifest of the snapshot lists the file inside
    it. The same happens in every successful repair, which stages before
    it snapshots. *)
Theorem snapshot_manifest_includes_shadow_subtree :
  (exists row,
     snapshots (snd (create_snapshot "manual" (start demo_tree))) = [row]
     /\ In ".forge/shadow/core/registry.py" (m_included (s_manifest row)))
  /\ (exists row,
        fst (run_repair "lint" clean) = Ok 0%Z
        /\ snapshots (snd (run_repair "lint" clean)) = [row]
        /\ In ".forge/shadow/core/registry.py" (m_included (s_manifest row))).
Proof.
  split.
  - eexists. split; [vm_compute; reflexivity|].
    vm_compute. repeat first [left; reflexivity | right].
  - eexists. split; [vm_compute; reflexivity|]. split; [vm_compute; reflexivity|].
    vm_compute. repeat first [left; reflexivity | right].
Qed.

(** C2 as stated fails. The attempt reaches the tests; the one unit it
    loads is the file of the live tests directory, not the one of the
    staged copy, and the verdict is the live one: the staged unit would
    pass, the live unit fails and the attempt ends with status 4. *)
Lemma tests_not_run_from_shadow :
  let w' := snd (run_repair "lint" mark_checked) in
  fst (run_repair "lint" mark_checked) = Ok 4%Z
  /\ executed (trace w') = [TESTS_DIR ++ ["test_mark.py"]]
  /\ exec_unit (fs w') (TESTS_DIR ++ ["test_mark.py"]) = Ran false
  /\ exec_unit (fs w') (shadow ++ TESTS_DIR ++ ["test_mark.py"]) = Ran true.
Proof. vm_compute. repeat split. Qed.

(** C3 as stated fails. A frozen attempt is a terminal outcome that
    inserts no audit row. *)
Lemma frozen_run_inserts_no_row :
  fst (run_repair "lint" frozen_world) = Ok 1%Z
  /\ audit_log (snd (run_repair "lint" frozen_world)) = audit_log frozen_world
  /\ ~ (exists row,
          audit_log (snd (run_repair "lint" frozen_world))
          = audit_log frozen_world ++ [row]).
Proof.
  vm_compute. repeat split. intros (row & H). discriminate.
Qed.

(** C6 as stated fails. On the pattern of the policy file [re.compile]
    raises [OverflowError], which the handler for [re.error] does not
    catch: the pattern is not skipped with a warning, the scan does not
    reach the built-in pattern that matches the proposal, and the attempt
    ends with the exception instead of status 2, without an audit row. *)
Lemma overflowing_pattern_aborts_the_scan :
  let r := run_repair "lint" Cases.overflowing in
  fst (_load_repair_policy_patterns Cases.overflowing)
  = Ok ("a{4294967296}" :: builtin_patterns)
  /\ re_fault "a{4294967296}" = Some "OverflowError"
  /\ (exists a w1, prepare "lint" Cases.overflowing = (Ok a, w1)
                   /\ re_compiles "(eval\()" = true
                   /\ re_search "(eval\()" (new a) = true)
  /\ fst r = Raise (ReFault "OverflowError")
  /\ ~ In (EvPrint (MsgWarnInvalidRegex "a{4294967296}")) (trace (snd r))
  /\ audit_log (snd r) = [].
Proof.
  cbv zeta. split; [vm_compute; reflexivity|]. split; [reflexivity|].
  split.
  { destruct (prepare "lint" Cases.overflowing) as [[a|e] w1] eqn:E;
      [|vm_compute in E; discriminate].
    exists a, w1. split; [reflexivity|]. split; [vm_compute; reflexivity|].
    vm_compute in E. injection E as <- <-. vm_compute. reflexivity. }
  split; [vm_compute; reflexivity|]. split; [|vm_compute; reflexivity].
  intros H. vm_compute in H.
  repeat (destruct H as [H|H]; [discriminate|]). exact H.
Qed.

(** C8 as stated fails. A unit that raises [SystemExit] is not recorded
    as failed: the exception reaches the caller of [run_tests] and the
    remaining unit is not run. *)
Lemma run_tests_propagates_exit :
  exec_unit (fs exiting) (TESTS_DIR ++ ["test_a.py"]) = Aborted "SystemExit"
  /\ fst (run_tests true exiting) = Raise (Escaped "SystemExit")
  /\ executed (trace (snd (run_tests true exiting))) = [TESTS_DIR ++ ["test_a.py"]]
  /\ ~ In (TESTS_DIR ++ ["test_b.py"]) (executed (trace (snd (run_tests true exiting)))).
Proof.
  vm_compute. repeat split. intros [H|[]]. discriminate.
Qed.

(** Witnesses: the theorems at concrete workspaces. *)

Lemma added_lines_counts_witness :
  blank "   " = true
  /\ ~ In "   " (added_lines ("alpha" +:+ nl) ("alpha" +:+ nl +:+ "   " +:+ nl)).
Proof.
  split; [reflexivity|].
  apply (proj1 (proj2 (proj2 (added_lines_counts ("alpha" +:+ nl)
                                 ("alpha" +:+ nl +:+ "   " +:+ nl))))).
  reflexivity.
Defined.

Lemma run_tests_verdict_witness :
  existsb aborts (unit_outcomes (fs faulting)) = false
  /\ fst (run_tests true faulting) = Ok false.
Proof.
  split; [reflexivity|].
  exact (proj1 (proj1 (run_tests_verdict true faulting) eq_refl)).
Defined.

Lemma content_scan_blocks_witness :
  (exists w', run_repair "lint" unsafe = (Ok 2%Z, w')
              /\ map a_action (audit_log w') = ["block"])
  /\ scan "x = 1" Cases.overflowing
     = (Raise (ReFault "OverflowError"), Cases.overflowing).
Proof.
  split;
    [|exact (proj1 (proj2 (proj2 (proj2 content_scan_blocks)))
               "x = 1" Cases.overflowing [] "a{4294967296}" builtin_patterns
               "OverflowError" eq_refl (fun q H => match H with end) eq_refl)].
  destruct (proj2 (proj2 (proj2 (proj2 (proj2 content_scan_blocks)))) "lint" unsafe
              (Attempt 5 true ("y = eval(x)" +:+ nl)
                 ("y = eval(x)" +:+ nl +:+ nl
                  +:+ "# auto-repair touch: 2025-01-01T00:00:00+00:00" +:+ nl))
              (fst (prepare "lint" unsafe), snd (prepare "lint" unsafe)).2
              ["(eval\()"]
              (snd (scan ("y = eval(x)" +:+ nl +:+ nl
                          +:+ "# auto-repair touch: 2025-01-01T00:00:00+00:00" +:+ nl)
                         (snd (prepare "lint" unsafe)))))
    as (w' & Hrun & Haudit & _).
  - reflexivity.
  - vm_compute. reflexivity.
  - vm_compute. reflexivity.
  - discriminate.
  - exists w'. split; [exact Hrun|]. rewrite Haudit. reflexivity.
Defined.

Lemma run_repair_status_codes_witness :
  frozen frozen_world = true /\ fst (run_repair "lint" frozen_world) = Ok 1%Z.
Proof.
  split; [reflexivity|].
  apply (proj1 (proj2 run_repair_status_codes)). reflexivity.
Defined.

Lemma snapshot_precedes_commit_witness :
  run_repair "lint" frozen_world
  = (Ok 1%Z, emit_event (EvPrint MsgFrozen) frozen_world)
  /\ fs (emit_event (EvPrint MsgFrozen) frozen_world) = fs frozen_world.
Proof.
  split; [reflexivity|].
  apply (proj1 (snapshot_precedes_commit "lint" frozen_world (Ok 1%Z)
                  (emit_event (EvPrint MsgFrozen) frozen_world) eq_refl)).
  reflexivity.
Defined.

Lemma audit_rows_per_outcome_witness :
  run_repair "lint" frozen_world
  = (Ok 1%Z, emit_event (EvPrint MsgFrozen) frozen_world)
  /\ audit_log (emit_event (EvPrint MsgFrozen) frozen_world) = audit_log frozen_world.
Proof.
  split; [reflexivity|].
  apply (proj1 audit_rows_per_outcome "lint" frozen_world 1%Z
           (emit_event (EvPrint MsgFrozen) frozen_world)).
  reflexivity.
Defined.

Lemma tests_run_from_live_workspace_witness :
  In (TESTS_DIR ++ ["test_mark.py"])
     (executed (new_events mark_checked (snd (run_repair "lint" mark_checked))))
  /\ In "test_mark.py" (glob_tests (fs mark_checked) TESTS_DIR).
Proof.
  assert (In (TESTS_DIR ++ ["test_mark.py"])
             (executed (new_events mark_checked (snd (run_repair "lint" mark_checked)))))
    as Hin by (vm_compute; auto).
  split; [exact Hin|].
  destruct (proj1 (tests_run_from_live_workspace "lint" mark_checked
                     (fst (run_repair "lint" mark_checked))
                     (snd (run_repair "lint" mark_checked))
                     (surjective_pairing _)) _ Hin) as ((file & Hp & Hf) & _).
  injection Hp as <-. exact Hf.
Defined.

Lemma demo_now_iso_line n : no_linebreak (now_iso n) = true.
Proof.
  cbn [now_iso runtime]. rewrite PyFacts.no_linebreak_app. cbn [no_linebreak andb].
  pose proof (Nat.mod_upper_bound n 10 ltac:(discriminate)) as Hlt.
  destruct (n mod 10)%nat as [|[|[|[|[|[|[|[|[|[|k]]]]]]]]]]; try reflexivity.
  exfalso. lia.
Qed.

Lemma change_percentage_and_budget_witness :
  ((1 <= 20)%Z /\ pct_of 1 20 = Z.min 100 (100 * 1 / 20))
  /\ (forall n, no_linebreak (now_iso n) = true)
  /\ exists a w1,
       prepare "lint" clean = (Ok a, w1)
       /\ added_lines (original a) (new a) = absent_lines (original a) (new a).
Proof.
  split; [|split; [exact demo_now_iso_line|]].
  - split; [lia|].
    apply (proj1 (proj2 (proj2 change_percentage_and_budget))); [right; reflexivity | lia].
  - destruct (prepare "lint" clean) as [[a|e] w1] eqn:E; [|vm_compute in E; discriminate].
    exists a, w1. split; [reflexivity|].
    apply (proj1 (proj2 (proj2 (proj2 change_percentage_and_budget)))
             "lint" clean a w1 demo_now_iso_line E).
Defined.

(** ** The further properties at concrete workspaces *)

Import Cases.

Lemma strip_quotes_unwraps_one_pair_witness :
  _strip_quotes (" " +:+ String quote ("a 'b'" +:+ String quote EmptyString) +:+ "  ")
  = "a 'b'".
Proof.
  apply (proj1 strip_quotes_unwraps_one_pair quote "a 'b'" " " "  ");
    [left; reflexivity | reflexivity | reflexivity].
Defined.

Lemma yaml_key_value_binds_witness :
  kv_line "  guards.change_budget_pct : '7' " "guards.change_budget_pct" "'7'"
  /\ fold_left yaml_line ["guards.change_budget_pct: 5"; "  guards.change_budget_pct : '7' "] ∅
       !! "guards.change_budget_pct" = Some (YStr "7").
Proof.
  assert (kv_line "  guards.change_budget_pct : '7' " "guards.change_budget_pct" "'7'") as Hk.
  { exists " ", " ". repeat split; reflexivity. }
  split; [exact Hk|].
  exact (proj1 (yaml_key_value_binds ["guards.change_budget_pct: 5"] ∅ _ _ _ Hk
                  ltac:(discriminate))).
Defined.

Lemma yaml_steps_accumulate_witness :
  steps_of (fold_left yaml_line ["- run: lint"; "--  run : 'fix all'"] ∅) = ["lint"; "fix all"].
Proof.
  apply (proj1 (proj1 yaml_steps_accumulate
                  ["- run: lint"; "--  run : 'fix all'"] ["lint"; "'fix all'"] ∅
                  ltac:(repeat constructor;
                        [ exists EmptyString, " ", EmptyString, " "
                        | exists "-", "  ", " ", " " ];
                        repeat split; first [reflexivity | discriminate]))).
Defined.

Lemma yaml_skips_comments_and_missing_file_witness :
  parse_yaml_like ("# guards" +:+ nl +:+ nl +:+ "   # none" +:+ nl) = ∅.
Proof.
  apply (proj1 (proj2 yaml_skips_comments_and_missing_file)). reflexivity.
Defined.

Lemma yaml_lists_only_under_steps_witness :
  dict_get (parse_yaml_like ("name: x" +:+ nl +:+ "- run: y" +:+ nl)) "name" VNone
  <> VList ["y"].
Proof.
  apply (proj2 (proj2 yaml_lists_only_under_steps)); discriminate.
Defined.

Lemma policy_line_patterns_witness :
  policy_line_pattern "  # - pattern: 'import os'" = Some "import os".
Proof.
  apply (proj1 policy_line_patterns "  # - pattern: 'import os'" "# - " EmptyString " "
           "'import os'"); first [reflexivity | discriminate].
Defined.

Lemma run_repair_touches_only_repair_area_witness :
  forallb repair_area_event (new_events clean (snd (run_repair "lint" clean))) = true
  /\ same_but_repair_area (fs small) (fs (snd (run_repair "lint" small))).
Proof.
  split.
  - exact (proj1 (run_repair_touches_only_repair_area "lint" clean
                    (fst (run_repair "lint" clean)) (snd (run_repair "lint" clean))
                    (surjective_pairing _))).
  - apply (proj1 (proj2 (run_repair_touches_only_repair_area "lint" small
                           (fst (run_repair "lint" small)) (snd (run_repair "lint" small))
                           (surjective_pairing _)))).
    vm_compute. reflexivity.
Defined.

Lemma reject_needs_threshold_above_budget_witness :
  exists text,
    FS.lookup (fs small) policy_yaml = Some (File (Text text))
    /\ is_Some (parse_yaml_like text !! "escalation.max_budget_pct_without_ack").
Proof.
  assert (run_repair "lint" small = (Ok 3%Z, snd (run_repair "lint" small))) as H
      by (vm_compute; reflexivity).
  destruct (reject_needs_threshold_above_budget "lint" small _ H)
    as (a & w2 & esc & text & _ & _ & _ & Hl & Hk).
  exists text. split; assumption.
Defined.

Lemma commit_needs_green_tests_witness :
  exists a w1, prepare "lint" clean = (Ok a, w1).
Proof.
  assert (run_repair "lint" clean = (Ok 0%Z, snd (run_repair "lint" clean))) as H
      by (vm_compute; reflexivity).
  destruct (commit_needs_green_tests "lint" clean _ H) as (a & w1 & t3 & Hp & _).
  exists a, w1. exact Hp.
Defined.

Lemma malformed_budget_aborts_before_any_effect_witness :
  run_repair "lint" misconfigured = (Raise (ValueError "five"), misconfigured).
Proof.
  apply (proj1 (malformed_budget_aborts_before_any_effect "lint" misconfigured
                  ("guards.change_budget_pct: five" +:+ nl) eq_refl eq_refl));
    reflexivity.
Defined.

Lemma repair_guard_defaults_witness :
  exists spec, fst (load_yaml_like (CMD_DIR ++ ["core.repair.yaml"]) frozen_world) = Ok spec.
Proof.
  destruct (prepare "lint" frozen_world) as [[a|e] w1] eqn:E;
    [|vm_compute in E; discriminate].
  destruct (repair_guard_defaults "lint" frozen_world a w1 E) as (spec & H & _).
  exists spec. exact H.
Defined.

Lemma repair_twice_keeps_target_witness :
  let w1 := snd (run_repair "lint" clean) in
  FS.lookup (fs (snd (run_repair "regen" w1))) target_file = FS.lookup (fs w1) target_file.
Proof.
  cbv zeta.
  assert (run_repair "lint" clean = (Ok 0%Z, snd (run_repair "lint" clean))) as H
      by (vm_compute; reflexivity).
  exact (proj1 (repair_twice_keeps_target "lint" "regen" clean _ _ _ H
                  (surjective_pairing _))).
Defined.

Lemma snapshot_captures_the_workspace_witness :
  exists members,
    FS.lookup (fs (snd (create_snapshot "manual" clean)))
      (snapshot_zip "manual" clean) = Some (File (Zip members))
    /\ In ("core/registry.py", Text registry20) members.
Proof.
  assert (create_snapshot "manual" clean
          = (Ok tt, snd (create_snapshot "manual" clean))) as H
      by (vm_compute; reflexivity).
  destruct (snapshot_captures_the_workspace "manual" clean _
              (ex_intro _ _ eq_refl) eq_refl eq_refl H)
    as (members & Hl & _ & _ & _ & Hm).
  exists members. split; [exact Hl|].
  apply Hm. exists ["core"], "registry.py". repeat split; discriminate.
Defined.

Lemma snapshots_of_one_second_share_their_archive_witness :
  let w1 := snd (@create_snapshot coarse "manual" (start demo_tree)) in
  let w2 := snd (@create_snapshot coarse "manual" w1) in
  exists row1 row2, snapshots w2 = [row1; row2] /\ s_path row1 = s_path row2.
Proof.
  cbv zeta.
  assert (@create_snapshot coarse "manual" (start demo_tree)
          = (Ok tt, snd (@create_snapshot coarse "manual" (start demo_tree)))) as H1
      by (vm_compute; reflexivity).
  assert (@create_snapshot coarse "manual"
            (snd (@create_snapshot coarse "manual" (start demo_tree)))
          = (Ok tt, snd (@create_snapshot coarse "manual"
                           (snd (@create_snapshot coarse "manual" (start demo_tree))))))
    as H2 by (vm_compute; reflexivity).
  destruct (@snapshots_of_one_second_share_their_archive coarse "manual" _ _ _ H1 H2 eq_refl)
    as (row1 & row2 & members & Hs & Hp & _).
  exists row1, row2. split; [exact Hs | exact Hp].
Defined.

Lemma freeze_then_thaw_restores_the_tree_witness :
  exists w2, thaw (snd (freeze clean)) = (Ok tt, w2) /\ fs w2 = fs clean.
Proof.
  assert (freeze clean = (Ok tt, snd (freeze clean))) as H by (vm_compute; reflexivity).
  destruct (proj1 freeze_then_thaw_restores_the_tree clean _ eq_refl H)
    as (w2 & Ht & Hf & _).
  exists w2. split; assumption.
Defined.

Lemma directory_at_flag_cannot_be_thawed_witness :
  thaw stuck = (Raise (OSError FREEZE_FLAG), stuck).
Proof. exact (proj1 (directory_at_flag_cannot_be_thawed stuck [] eq_refl)). Defined.

Lemma ensure_state_creates_and_keeps_witness :
  exists es,
    FS.lookup (fs (snd (ensure_state clean))) (STATE ++ ["blobs"]) = Some (Dir es).
Proof.
  assert (ensure_state clean = (Ok tt, snd (ensure_state clean))) as H
      by (vm_compute; reflexivity).
  apply (proj1 (ensure_state_creates_and_keeps clean _
                  (ex_intro _ (Text "db") eq_refl) H)).
  left. reflexivity.
Defined.

Lemma interpret_kind_by_family_witness :
  interpret_kind "An emBOSSed TV logo" = "game".
Proof.
  apply (proj1 (interpret_kind_by_family "An emBOSSed TV logo")).
  exists "boss". split; [do 3 right; left; reflexivity|].
  exists "An em", "BOSS", "ed TV logo". split; reflexivity.
Defined.


Lemma scaffold_agent_stays_in_its_files_witness :
  FS.lookup (fs (snd (scaffold_agent "Tv" "tv" clean))) target_file
  = FS.lookup (fs clean) target_file.
Proof.
  apply (proj1 (proj2 (scaffold_agent_stays_in_its_files "Tv" "tv" clean
                         (fst (scaffold_agent "Tv" "tv" clean))
                         (snd (scaffold_agent "Tv" "tv" clean))
                         eq_refl (surjective_pairing _)))); discriminate.
Defined.

Lemma scaffold_agent_installs_the_templates_witness :
  FS.lookup (fs (snd (scaffold_agent "Tv" "tv" clean))) (TESTS_DIR ++ [agent_test "Tv"])
  = Some (File (Text (TEST_CODE "Tv"))).
Proof.
  assert (scaffold_agent "Tv" "tv" clean
          = (Ok "/srv/ghostforge/agents/Tv", snd (scaffold_agent "Tv" "tv" clean))) as H
      by (vm_compute; reflexivity).
  exact (proj1 (proj2 (proj2 (proj2 (proj2
           (scaffold_agent_installs_the_templates "Tv" "tv" clean _ _ eq_refl H)))))).
Defined.

Lemma agents_that_differ_in_case_share_one_test_witness :
  let w1 := snd (scaffold_agent "TV" "tv" clean) in
  let w2 := snd (scaffold_agent "Tv" "game" w1) in
  FS.lookup (fs w2) (TESTS_DIR ++ [agent_test "TV"]) = Some (File (Text (TEST_CODE "Tv"))).
Proof.
  cbv zeta.
  assert (scaffold_agent "TV" "tv" clean
          = (Ok "/srv/ghostforge/agents/TV", snd (scaffold_agent "TV" "tv" clean))) as H1
      by (vm_compute; reflexivity).
  assert (scaffold_agent "Tv" "game" (snd (scaffold_agent "TV" "tv" clean))
          = (Ok "/srv/ghostforge/agents/Tv",
             snd (scaffold_agent "Tv" "game" (snd (scaffold_agent "TV" "tv" clean))))) as H2
      by (vm_compute; reflexivity).
  exact (proj1 (proj2 (proj2 (proj2
           (agents_that_differ_in_case_share_one_test "TV" "tv" "Tv" "game" clean _ _ _ _
              eq_refl eq_refl ltac:(discriminate) eq_refl H1 H2))))).
Defined.

Lemma scaffolded_test_joins_the_test_run_witness :
  In (agent_test "Tv") (glob_tests (fs (snd (scaffold_agent "Tv" "tv" clean))) TESTS_DIR).
Proof.
  assert (scaffold_agent "Tv" "tv" clean
          = (Ok "/srv/ghostforge/agents/Tv", snd (scaffold_agent "Tv" "tv" clean))) as H
      by (vm_compute; reflexivity).
  exact (proj1 (scaffolded_test_joins_the_test_run "Tv" "tv" clean _ _ eq_refl H)).
Defined.

Lemma create_stays_in_its_files_witness :
  FS.lookup (fs (snd (interpret_and_create "../core registry" clean))) target_file
  = FS.lookup (fs clean) target_file.
Proof.
  apply (proj1 (proj2 (proj2 (create_stays_in_its_files "../core registry" clean
                                (fst (interpret_and_create "../core registry" clean))
                                (snd (interpret_and_create "../core registry" clean))
                                (surjective_pairing _))))); discriminate.
Defined.

Lemma create_succeeds_in_a_prepared_workspace_witness :
  exists w',
    interpret_and_create "tv show tracker" (snd (ensure_state clean))
    = (Ok (AgentInfo "Tv" "tv" "/srv/ghostforge/agents/Tv" "tv show tracker"), w').
Proof.
  assert (ensure_state clean = (Ok tt, snd (ensure_state clean))) as H
      by (vm_compute; reflexivity).
  refine (create_succeeds_in_a_prepared_workspace "tv show tracker" clean _
            (ex_intro _ (Text "db") eq_refl) H _ _).
  - intros d. vm_compute. discriminate.
  - intros p es Hin. cbv in Hin.
    repeat (destruct Hin as [<-|Hin]; [vm_compute; discriminate|]). destruct Hin.
Defined.
